(** * Attendance compilation and behavioural analytics

    A shallow embedding of [app/attendance_compiler.py] and
    [app/analytics/attendance_intelligence.py], with the properties of the
    attendance core stated and proved over it; then of
    [Security/hash_history.py] and of the task handlers of
    [app/leader_dashboard_routes.py].

    Conventions.
    - A Python [date] is its proleptic Gregorian ordinal ([date.toordinal()]),
      a [Z]; [timedelta(days=n)] is [n]; comparisons of dates are comparisons
      of ordinals.
    - A Python [float] (and a numpy [float64]) is a primitive binary64 float.
    - A call that may raise returns a [result]: [Ok v] or [Raise e].
    - The relational store behind the SQLAlchemy [Session] is a record of
      tables, each a list of rows in the order the queries return them. *)

From Stdlib Require Import ZArith List String Ascii Bool Lia Permutation.
From Stdlib Require Import Floats.PrimFloat Floats.SpecFloat Floats.FloatOps.
Import ListNotations.

Local Open Scope string_scope.
Local Open Scope list_scope.
Local Open Scope Z_scope.

(* ================================================================= *)
(** ** Exceptions *)

Module Py.

Inductive exn : Type :=
| KeyError (key : string)
| ZeroDivisionError.

Inductive result (A : Type) : Type :=
| Ok (a : A)
| Raise (e : exn).

Arguments Ok {A} a.
Arguments Raise {A} e.

Definition bind {A B : Type} (c : result A) (k : A -> result B) : result B :=
  match c with
  | Ok a => k a
  | Raise e => Raise e
  end.

End Py.

Import Py.

Notation "x <- c ;; k" := (Py.bind c (fun x => k))
  (at level 61, c at next level, right associativity).

(** String truthiness: [if s:] holds for every string but the empty one. *)
Definition str_truthy (s : string) : bool :=
  match s with
  | EmptyString => false
  | String _ _ => true
  end.

(** [if x:] for an optional string argument ([None] and [""] are falsy). *)
Definition opt_str_truthy (o : option string) : bool :=
  match o with
  | None => false
  | Some s => str_truthy s
  end.

Definition count_if {A : Type} (p : A -> bool) (l : list A) : Z :=
  Z.of_nat (List.length (filter p l)).

Definition Zsum (l : list Z) : Z := fold_left Z.add l 0.

(* ================================================================= *)
(** ** Dates and times *)

Module Calendar.

Definition date := Z.

Record time : Type := mk_time
  { t_hour : Z; t_minute : Z; t_second : Z; t_microsecond : Z }.

Record datetime : Type := mk_datetime
  { dt_date : date; dt_time : time }.

(** [datetime.time()] *)
Definition time_of (dt : datetime) : time := dt_time dt.

(** [Series.dt.hour] *)
Definition hour_of (dt : datetime) : Z := t_hour (dt_time dt).

(** [date.weekday()]: Monday is 0 and Sunday is 6. *)
Definition weekday (d : date) : Z := (d + 6) mod 7.

(** [(b - a).days] *)
Definition days_between (a b : date) : Z := b - a.

Definition is_leap (y : Z) : bool :=
  ((y mod 4 =? 0) && (negb (y mod 100 =? 0) || (y mod 400 =? 0)))%bool.

Definition days_before_month (m : Z) : Z :=
  nth (Z.to_nat m) [0; 0; 31; 59; 90; 120; 151; 181; 212; 243; 273; 304; 334] 0.

Definition days_in_month (m : Z) : Z :=
  nth (Z.to_nat m) [0; 31; 28; 31; 30; 31; 30; 31; 31; 30; 31; 30; 31] 0.

Definition b2z (b : bool) : Z := if b then 1 else 0.

(** The year, month and day of an ordinal (the standard library's
    [_ord2ymd]). *)
Definition ord2ymd (n0 : Z) : Z * Z * Z :=
  let n := n0 - 1 in
  let n400 := n / 146097 in
  let n := n mod 146097 in
  let year := n400 * 400 + 1 in
  let n100 := n / 36524 in
  let n := n mod 36524 in
  let n4 := n / 1461 in
  let n := n mod 1461 in
  let n1 := n / 365 in
  let n := n mod 365 in
  let year := year + n100 * 100 + n4 * 4 + n1 in
  if ((n1 =? 4) || (n100 =? 4))%bool then (year - 1, 12, 31)
  else
    let leapyear := ((n1 =? 3) && (negb (n4 =? 24) || (n100 =? 3)))%bool in
    let month := Z.shiftr (n + 50) 5 in
    let preceding := days_before_month month + b2z ((2 <? month) && leapyear) in
    if n <? preceding then
      let month' := month - 1 in
      let preceding' :=
        preceding - (days_in_month month' + b2z ((month' =? 2) && leapyear)) in
      (year, month', n - preceding' + 1)
    else (year, month, n - preceding + 1).

Definition digit (n : Z) : ascii := ascii_of_nat (48 + Z.to_nat (n mod 10)).

(** The decimal digits of a non-negative integer, at least [width] of them. *)
Fixpoint digits_fuel (fuel : nat) (width : nat) (n : Z) (acc : string) : string :=
  match fuel with
  | O => acc
  | S fuel' =>
      let acc' := String (digit n) acc in
      let n' := n / 10 in
      if ((n' =? 0) && (Nat.leb width 1))%bool then acc'
      else digits_fuel fuel' (Nat.pred width) n' acc'
  end.

Definition zpad (width : nat) (n : Z) : string :=
  digits_fuel (Nat.max width (S (Z.to_nat (Z.log2 n)))) width n "".

(** [str(d)] for a date: [YYYY-MM-DD]. *)
Definition isoformat (d : date) : string :=
  let '(y, m, dd) := ord2ymd d in
  (zpad 4 y ++ "-" ++ zpad 2 m ++ "-" ++ zpad 2 dd)%string.

End Calendar.

Import Calendar.

(* ================================================================= *)
(** ** Floating point *)

Module Flt.

Local Open Scope float_scope.

Definition fzero : float := 0%float.

(** The float nearest to [m * 2^e] (ties to even). *)
Definition of_scaled (m e : Z) (neg_zero : bool) : float :=
  SF2Prim (binary_normalize prec emax m e neg_zero).

(** [float(n)] for an integer. *)
Definition of_Z (n : Z) : float := of_scaled n 0 false.

(** [a / b] on Python integers, [b <> 0]: the float nearest to the exact
    quotient. *)
Definition int_truediv (a b : Z) : float :=
  let neg := xorb (a <? 0)%Z (b <? 0)%Z in
  let a' := Z.abs a in
  let b' := Z.abs b in
  let k := Z.max 0 (Z.log2 b' - Z.log2 a' + 56)%Z in
  let q := (Z.shiftl a' k / b')%Z in
  let r := (Z.shiftl a' k mod b')%Z in
  let m := (if (r =? 0)%Z then 2 * q else 2 * q + 1)%Z in
  of_scaled (if neg then - m else m)%Z (- (k + 1))%Z neg.

(** The integer nearest to [m * 2^e * 10^2] for [m >= 0] (ties to even). *)
Definition centi_round (m e : Z) : Z :=
  if (0 <=? e)%Z then (m * 2 ^ e * 100)%Z
  else
    let num := (m * 100)%Z in
    let den := (2 ^ (- e))%Z in
    let q := (num / den)%Z in
    let r := (num mod den)%Z in
    if (den <? 2 * r)%Z then (q + 1)%Z
    else if (2 * r =? den)%Z then (if Z.even q then q else q + 1)%Z
    else q.

(** Python's [round(x, 2)] on a float: the float nearest to the decimal
    with two places nearest to [x]. *)
Definition py_round2 (x : float) : float :=
  match Prim2SF x with
  | S754_finite s m e =>
      let n := centi_round (Zpos m) e in
      let r := int_truediv n 100 in
      if s then - r else r
  | _ => x
  end.

(** [f"{x:.2f}"] *)
Definition format_2f (x : float) : string :=
  match Prim2SF x with
  | S754_nan => "nan"
  | S754_infinity s => if s then "-inf" else "inf"
  | S754_zero s => ((if s then "-" else "") ++ "0.00")%string
  | S754_finite s m e =>
      let n := centi_round (Zpos m) e in
      ((if s then "-" else "") ++ zpad 1 (n / 100) ++ "." ++ zpad 2 (n mod 100))%string
  end.

(** The nearest integer as a float (ties to even): numpy's [rint]. *)
Definition rint (x : float) : float :=
  match Prim2SF x with
  | S754_finite s m e =>
      if (0 <=? e)%Z then x
      else
        let den := (2 ^ (- e))%Z in
        let q := (Zpos m / den)%Z in
        let r := (Zpos m mod den)%Z in
        let n := if (den <? 2 * r)%Z then (q + 1)%Z
                 else if (2 * r =? den)%Z then (if Z.even q then q else q + 1)%Z
                 else q in
        of_scaled (if s then - n else n)%Z 0 s
  | _ => x
  end.

(** [round(x, 2)] on a numpy [float64]: scale, [rint], scale back. *)
Definition np_round2 (x : float) : float := rint (x * 100) / 100.

Definition is_nan (x : float) : bool := negb (x =? x).

(** [ndarray.sum()] on a float64 column, as numpy adds it (pairwise
    summation).  A block of fewer than 8 cells is added in row order.  A
    block of up to 128 cells goes to eight running sums, cell [i] to sum
    [i mod 8]; they are added as ((r0+r1)+(r2+r3))+((r4+r5)+(r6+r7)) and the
    [n mod 8] last cells follow in row order.  A longer block is cut in two,
    the first part of [n / 2] cells rounded down to a multiple of 8.  The
    reduction starts from 0.0. *)
Definition add_cells (r cells : list float) : list float :=
  map (fun p => fst p + snd p) (combine r cells).

Fixpoint unrolled (blocks : nat) (r l : list float) : list float * list float :=
  match blocks with
  | O => (r, l)
  | S k => unrolled k (add_cells r (firstn 8 l)) (skipn 8 l)
  end.

Definition block_sum (l : list float) : float :=
  let n := List.length l in
  let '(r, rest) := unrolled (n / 8 - 1)%nat (firstn 8 l) (skipn 8 l) in
  let res :=
    match r with
    | [r0; r1; r2; r3; r4; r5; r6; r7] => ((r0 + r1) + (r2 + r3)) + ((r4 + r5) + (r6 + r7))
    | _ => 0
    end in
  fold_left PrimFloat.add rest res.

(** [fuel] bounds the depth of the cuts; the length of the block is enough
    of it. *)
Fixpoint pairwise_sum (fuel : nat) (l : list float) : float :=
  let n := List.length l in
  if (n <? 8)%nat then fold_left PrimFloat.add l 0
  else if (n <=? 128)%nat then block_sum l
  else
    match fuel with
    | O => block_sum l
    | S fuel' =>
        let n2 := (n / 2)%nat in
        let n2 := (n2 - n2 mod 8)%nat in
        pairwise_sum fuel' (firstn n2 l) + pairwise_sum fuel' (skipn n2 l)
    end.

Definition np_sum (l : list float) : float := 0 + pairwise_sum (List.length l) l.

Definition count_f (l : list float) : float := of_Z (Z.of_nat (List.length l)).

(** The reductions of a pandas [Series] are pandas' own ([nanops], which
    run unless the optional bottleneck package is installed): the NaN cells
    are replaced by 0.0 in place, the column is summed with [ndarray.sum()],
    and the count is that of the cells that are not NaN. *)
Definition fill0 (l : list float) : list float :=
  map (fun x => if is_nan x then 0 else x) l.

Definition count_valid (l : list float) : Z :=
  Z.of_nat (List.length (filter (fun x => negb (is_nan x)) l)).

(** [Series.mean()] *)
Definition mean (l : list float) : float :=
  let count := count_valid l in
  if (0 <? count)%Z then np_sum (fill0 l) / of_Z count else nan.

(** [Series.std()]: pandas' default, the sample standard deviation
    ([ddof=1]), by the two-pass formula; NaN when fewer than two cells
    count. *)
Definition std (l : list float) : float :=
  let count := count_valid l in
  let d := (count - 1)%Z in
  if (d <=? 0)%Z then nan
  else
    let avg := np_sum (fill0 l) / of_Z count in
    let sqr := map (fun x => if is_nan x then 0 else (avg - x) * (avg - x)) l in
    sqrt (np_sum sqr / of_Z d).

Definition fmin (a b : float) : float := if b <? a then b else a.
Definition fmax (a b : float) : float := if a <? b then b else a.

(** [Series.min()] and [Series.max()], NaN cells skipped; NaN when there is
    no cell left. *)
Definition min_of (l : list float) : float :=
  match filter (fun x => negb (is_nan x)) l with
  | [] => nan
  | x :: v => fold_left fmin v x
  end.

Definition max_of (l : list float) : float :=
  match filter (fun x => negb (is_nan x)) l with
  | [] => nan
  | x :: v => fold_left fmax v x
  end.

End Flt.

(* ================================================================= *)
(** ** The store: [app.models] as the two modules use it *)

(** The model classes are declared outside these files; each record keeps the
    columns the code reads or writes, under the code's names. *)

Module User.
Record t : Type := mk
  { id : Z;
    employee_id : string;
    name : string;
    department : string;
    is_active : bool }.
End User.

Module Attendance.
Record t : Type := mk
  { id : Z;
    employee_id : string;
    date : Calendar.date;
    entry_time : option datetime;
    duration : option float;
    status : string }.
End Attendance.

Module LeaveRequest.
Record t : Type := mk
  { employee_id : string;
    start_date : Calendar.date;
    end_date : Calendar.date;
    status : string }.
End LeaveRequest.

Module OfficeHoliday.
Record t : Type := mk { event_date : Calendar.date }.
End OfficeHoliday.

Module AttendanceDaily.
Record t : Type := mk
  { employee_id : string;
    date : Calendar.date;
    status : string;
    check_in_time : option time }.
End AttendanceDaily.

Record DB : Type := mk_db
  { users : list User.t;
    attendance : list Attendance.t;
    attendance_daily : list AttendanceDaily.t;
    leave_requests : list LeaveRequest.t;
    office_holidays : list OfficeHoliday.t }.

(** [Query.first()] *)
Definition first {A : Type} (rows : list A) : option A :=
  match rows with
  | [] => None
  | r :: _ => Some r
  end.

(** [db.query(User).filter(User.is_active == True).all()] *)
Definition active_users (db : DB) : list User.t :=
  filter User.is_active (users db).

(* ================================================================= *)
(** ** [attendance_compiler.py] *)

Module Compiler.

(** The four queries of the loop body. *)

Definition daily_query (rows : list AttendanceDaily.t) (e : string) (target_date : date)
  : option AttendanceDaily.t :=
  first (filter (fun r => String.eqb (AttendanceDaily.employee_id r) e
                          && (AttendanceDaily.date r =? target_date))%bool rows).

Definition leave_query (db : DB) (e : string) (target_date : date)
  : option LeaveRequest.t :=
  first (filter (fun l => String.eqb (LeaveRequest.employee_id l) e
                          && String.eqb (LeaveRequest.status l) "Approved"
                          && (LeaveRequest.start_date l <=? target_date)
                          && (LeaveRequest.end_date l >=? target_date))%bool
                (leave_requests db)).

Definition holiday_query (db : DB) (target_date : date) : option OfficeHoliday.t :=
  first (filter (fun h => OfficeHoliday.event_date h =? target_date)
                (office_holidays db)).

Definition attendance_query (db : DB) (e : string) (target_date : date)
  : option Attendance.t :=
  first (filter (fun a => String.eqb (Attendance.employee_id a) e
                          && (Attendance.date a =? target_date))%bool
                (attendance db)).

(** The status and check-in time the loop body derives for one employee:
    the [if leave / elif holiday / elif weekend / else] chain. *)
Definition resolve (db : DB) (e : string) (target_date : date)
  : string * option time :=
  match leave_query db e target_date with
  | Some _ => ("LEAVE", None)
  | None =>
      match holiday_query db target_date with
      | Some _ => ("HOLIDAY", None)
      | None =>
          if weekday target_date >=? 5 then ("WEEKEND", None)
          else
            match attendance_query db e target_date with
            | Some attendance =>
                ("PRESENT",
                 match Attendance.entry_time attendance with
                 | Some t => Some (time_of t)
                 | None => None
                 end)
            | None => ("ABSENT", None)
            end
      end
  end.

(** The row handed to [db.add]. *)
Definition new_row (db : DB) (e : string) (target_date : date) : AttendanceDaily.t :=
  let '(status, check_in) := resolve db e target_date in
  AttendanceDaily.mk e target_date status check_in.

(** A session: the store, and the rows added and not yet flushed. *)
Record Session : Type := mk_session
  { store : DB;
    pending : list AttendanceDaily.t }.

Section Run.

(** Whether the session flushes pending rows before a query (SQLAlchemy's
    [autoflush]); the session factory is configured outside these files. *)
Variable autoflush : bool.

(** [date.today()] *)
Variable today : date.

(** The [AttendanceDaily] rows a query of the session sees. *)
Definition visible (s : Session) : list AttendanceDaily.t :=
  attendance_daily (store s) ++ (if autoflush then pending s else []).

(** One iteration of [for user in users]. *)
Definition compile_user (target_date : date) (s : Session) (user : User.t) : Session :=
  match daily_query (visible s) (User.employee_id user) target_date with
  | Some _ => s
  | None =>
      mk_session (store s)
                 (pending s ++ [new_row (store s) (User.employee_id user) target_date])
  end.

(** [db.commit()] *)
Definition commit (s : Session) : DB :=
  mk_db (users (store s))
        (attendance (store s))
        (attendance_daily (store s) ++ pending s)
        (leave_requests (store s))
        (office_holidays (store s)).

Definition target_of (target_date : option date) : date :=
  match target_date with
  | Some d => d
  | None => today
  end.

Definition compile_daily_attendance (db : DB) (target_date : option date) : DB :=
  let target_date := target_of target_date in
  let users := active_users db in
  commit (fold_left (compile_user target_date) users (mk_session db [])).

(** [n] runs in a row for the same target date. *)
Fixpoint runs (n : nat) (db : DB) (target_date : option date) : DB :=
  match n with
  | O => db
  | S n' => runs n' (compile_daily_attendance db target_date) target_date
  end.

End Run.

(** The number of derived rows for an (employee, date) key. *)
Definition rows_for (rows : list AttendanceDaily.t) (e : string) (d : date) : nat :=
  List.length (filter (fun r => String.eqb (AttendanceDaily.employee_id r) e
                                && (AttendanceDaily.date r =? d))%bool rows).

End Compiler.

(* ================================================================= *)
(** ** Attendance tables *)

(** A [pandas.DataFrame] holding attendance rows.  [columns] are the labels
    the frame has; a row carries a cell for each of the five labels
    [get_attendance_dataframe] writes, read only when the label is among
    [columns]; [z] is the column of that name, written by the anomaly
    detector.  The index is the row position. *)

Module Frame.

Record Row : Type := mk_row
  { employee_id : string;
    date : Calendar.date;
    entry_time : datetime;
    duration : float;
    status : string }.

Record DataFrame : Type := mk_df
  { columns : list string;
    rows : list Row;
    z : list float }.

Definition has_column (c : string) (df : DataFrame) : bool :=
  existsb (String.eqb c) (columns df).

(** [len(df)] *)
Definition len (df : DataFrame) : Z := Z.of_nat (List.length (rows df)).

(** [df.empty]: some axis has length 0. *)
Definition empty (df : DataFrame) : bool :=
  match rows df, columns df with
  | [], _ => true
  | _, [] => true
  | _, _ => false
  end.

(** [df[c]] for one of the five labels: the column, or [KeyError]. *)
Definition column {A : Type} (c : string) (cell : Row -> A) (df : DataFrame)
  : result (list A) :=
  if has_column c df then Ok (map cell (rows df)) else Raise (KeyError c).

(** [r[c]] on a row of the frame. *)
Definition item {A : Type} (c : string) (cell : Row -> A) (df : DataFrame) (r : Row)
  : result A :=
  if has_column c df then Ok (cell r) else Raise (KeyError c).

(** [df["z"] = series]: assignment in place; the label is appended when it
    is new. *)
Definition set_z (df : DataFrame) (series : list float) : DataFrame :=
  mk_df (if has_column "z" df then columns df else columns df ++ ["z"])
        (rows df)
        series.

(** [df[mask]] with the mask given cell by cell. *)
Definition select (df : DataFrame) (mask : list bool) : list Row :=
  map fst (filter snd (combine (rows df) mask)).

(** [pd.DataFrame(data)] for a list of the five-key dictionaries. *)
Definition of_records (data : list Row) : DataFrame :=
  match data with
  | [] => mk_df [] [] []
  | _ => mk_df ["employee_id"; "date"; "entry_time"; "duration"; "status"] data []
  end.

End Frame.

(** A loop that appends one result per element and stops at the first
    exception. *)
Fixpoint for_each {A B : Type} (f : A -> result B) (l : list A) : result (list B) :=
  match l with
  | [] => Ok []
  | x :: l' =>
      y <- f x ;;
      ys <- for_each f l' ;;
      Ok (y :: ys)
  end.

(** Dictionaries in insertion order. *)
Module Dict.

Definition t (V : Type) : Type := list (string * V).

Fixpoint get {V : Type} (d : t V) (k : string) (default : V) : V :=
  match d with
  | [] => default
  | (k', v) :: d' => if String.eqb k' k then v else get d' k default
  end.

Fixpoint set {V : Type} (d : t V) (k : string) (v : V) : t V :=
  match d with
  | [] => [(k, v)]
  | (k', v') :: d' =>
      if String.eqb k' k then (k', v) :: d' else (k', v') :: set d' k v
  end.

Definition values {V : Type} (d : t V) : list V := map snd d.

Definition keys {V : Type} (d : t V) : list string := map fst d.

End Dict.

(* ================================================================= *)
(** ** [analytics/attendance_intelligence.py] *)

Module Intelligence.

Import Frame.

(** *** Data ingestion *)

Section Clock.

(** [datetime.date.today()] *)
Variable today : Calendar.date.

Definition to_record (r : Attendance.t) (entry : datetime) : Row :=
  mk_row (Attendance.employee_id r)
         (Attendance.date r)
         entry
         (match Attendance.duration r with
          | None => Flt.fzero
          | Some d => if PrimFloat.eqb d Flt.fzero then Flt.fzero else d
          end)
         (Attendance.status r).

Definition get_attendance_dataframe (db : DB) (employee_id : option string) : DataFrame :=
  let query := attendance db in
  let query :=
    match employee_id with
    | Some e =>
        if str_truthy e
        then filter (fun a => String.eqb (Attendance.employee_id a) e) query
        else query
    | None => query
    end in
  let query := filter (fun a => Attendance.date a >=? today - 180) query in
  let rows := query in
  let data :=
    flat_map (fun r => match Attendance.entry_time r with
                       | Some entry => [to_record r entry]
                       | None => []
                       end) rows in
  of_records data.

End Clock.

(** *** Metrics *)

Record ChartBreakdown : Type := mk_chart
  { labels : list string;
    values : list Z }.

Record Metrics : Type := mk_metrics
  { average_login_hour : float;
    average_work_hours : float;
    late_arrival_days : Z;
    absent_days : Z;
    leave_days : Z;
    present_days : Z;
    min_work_hours : float;
    max_work_hours : float;
    total_days_analyzed : Z;
    absence_trend : string;
    attendance_score : Z;
    risk_level : string;
    chart_breakdown : ChartBreakdown }.

(** The dictionary the function starts from. *)
Definition default_metrics : Metrics :=
  mk_metrics Flt.fzero Flt.fzero 0 0 0 0 Flt.fzero Flt.fzero 0 "stable" 0 "high"
             (mk_chart [] []).

(** The approved leave requests of an employee, all of the history. *)
Definition approved_leaves (db : DB) (e : string) : list LeaveRequest.t :=
  filter (fun l => String.eqb (LeaveRequest.employee_id l) e
                   && String.eqb (LeaveRequest.status l) "Approved")%bool
         (leave_requests db).

Definition leave_span (l : LeaveRequest.t) : Z :=
  days_between (LeaveRequest.start_date l) (LeaveRequest.end_date l) + 1.

(** The [if employee_id and db:] block. *)
Definition count_leave_days (db : option DB) (employee_id : option string) : Z :=
  match db with
  | Some db =>
      match employee_id with
      | Some e =>
          if str_truthy e
          then fold_left (fun leave_days l => leave_days + leave_span l)
                         (approved_leaves db e) 0
          else 0
      | None => 0
      end
  | None => 0
  end.

(** The score block: lines 112 to 120. *)
Definition score_of (present absent late leave_days : Z) : Z :=
  let score := 100 in
  let score := score - late * 2 in
  let score := score - absent * 6 in
  let score := score - leave_days * 1 in
  let score := if present =? 0 then 0 else score in
  Z.max 0 score.

Definition risk_of (score : Z) : string :=
  if score <? 60 then "high"
  else if score <? 80 then "medium"
  else "low".

Definition compute_behavior_metrics
    (df : DataFrame) (db : option DB) (employee_id : option string) : result Metrics :=
  let metrics := default_metrics in
  if empty df then Ok metrics
  else
    (* df = df.copy(): what follows works on a private copy *)
    if negb (has_column "entry_time" df) then Ok metrics
    else
      entry <- column "entry_time" Frame.entry_time df ;;
      let login_hour := map hour_of entry in
      status <- column "status" Frame.status df ;;
      let present := count_if (String.eqb "PRESENT") status in
      let absent := count_if (String.eqb "ABSENT") status in
      let late := count_if (fun h => h >? 10) login_hour in
      let leave_days := count_leave_days db employee_id in
      duration <- column "duration" Frame.duration df ;;
      let score := score_of present absent late leave_days in
      Ok (mk_metrics
            (Flt.np_round2 (Flt.mean (map Flt.of_Z login_hour)))
            (Flt.np_round2 (Flt.mean duration))
            late
            absent
            leave_days
            present
            (Flt.np_round2 (Flt.min_of duration))
            (Flt.np_round2 (Flt.max_of duration))
            (len df)
            "stable"
            score
            (risk_of score)
            (mk_chart ["Present"; "Absent"; "Leave"; "Late"]
                      [present; absent; leave_days; late])).

(** *** Anomaly detection *)

Record Anomaly : Type := mk_anomaly
  { an_employee_id : string;
    an_date : string;
    an_reason : string }.

Definition reason_of (d : float) : string :=
  ("Unusual work duration (" ++ Flt.format_2f d ++ "h)")%string.

(** The z-score column of line 148. *)
Definition z_scores (duration : list float) : list float :=
  map (fun x => ((x - Flt.mean duration) / Flt.std duration)%float) duration.

(** The frame the caller passed in, as the call leaves it, and the value
    returned (or the exception raised). *)
Definition detect_attendance_anomalies (df : DataFrame)
  : DataFrame * result (list Anomaly) :=
  let anomalies := [] in
  if (empty df || negb (has_column "duration" df) || (len df <? 10))%bool
  then (df, Ok anomalies)
  else
    let duration := map Frame.duration (rows df) in
    if (0 <? Flt.std duration)%float then
      let df := set_z df (z_scores duration) in
      let flagged := select df (map (fun v => (2 <? abs v)%float) (z df)) in
      (df,
       for_each (fun r =>
                   e <- item "employee_id" Frame.employee_id df r ;;
                   d <- item "date" Frame.date df r ;;
                   Ok (mk_anomaly e (isoformat d) (reason_of (Frame.duration r))))
                flagged)
    else (df, Ok anomalies).

(** *** Department leave abuse *)

Record Abuse : Type := mk_abuse
  { ab_department : string;
    ab_avg_leave : float;
    ab_org_avg : float }.

(** The joined query: one row per approved leave request and active user
    with the request's employee id. *)
Definition joined_leaves (db : DB) : list (string * Calendar.date * Calendar.date) :=
  flat_map
    (fun l =>
       if String.eqb (LeaveRequest.status l) "Approved" then
         map (fun u => (User.department u,
                        LeaveRequest.start_date l,
                        LeaveRequest.end_date l))
             (filter (fun u => String.eqb (User.employee_id u)
                                          (LeaveRequest.employee_id l))
                     (active_users db))
       else [])
    (leave_requests db).

(** The loop of lines 176 to 178. *)
Definition sum_by_department (leaves : list (string * Calendar.date * Calendar.date)) : Dict.t Z :=
  fold_left
    (fun dept_leave row =>
       let '(dept, start, end_) := row in
       Dict.set dept_leave dept (Dict.get dept_leave dept 0 + (days_between start end_ + 1)))
    leaves [].

(** The grouped count of active users, as a dictionary. *)
Definition count_by_department (db : DB) : Dict.t Z :=
  fold_left
    (fun counts u =>
       Dict.set counts (User.department u) (Dict.get counts (User.department u) 0 + 1))
    (active_users db) [].

(** [a / b] on integers. *)
Definition truediv (a b : Z) : result float :=
  if b =? 0 then Raise ZeroDivisionError else Ok (Flt.int_truediv a b).

Definition detect_department_leave_abuse (db : DB) : result (list Abuse) :=
  let leaves := joined_leaves db in
  match leaves with
  | [] => Ok []
  | _ =>
      let dept_leave := sum_by_department leaves in
      let emp_counts := count_by_department db in
      let total_leave := Zsum (Dict.values dept_leave) in
      let total_emp := Zsum (Dict.values emp_counts) in
      org_avg <- (if total_emp =? 0 then Ok Flt.fzero else truediv total_leave total_emp) ;;
      flags <- for_each
                 (fun item =>
                    let '(dept, days) := item in
                    avg <- truediv days (Dict.get emp_counts dept 1) ;;
                    Ok (if (org_avg * 1.5 <? avg)%float
                        then [mk_abuse dept (Flt.py_round2 avg) (Flt.py_round2 org_avg)]
                        else []))
                 dept_leave ;;
      Ok (List.concat flags)
  end.

(** *** Absenteeism risk *)

Record Risk : Type := mk_risk
  { rk_employee_id : string;
    rk_risk : string;
    rk_risk_score : Z }.

Section Predict.

Variable today : Calendar.date.

(** The counting query of lines 210 to 214. *)
Definition recent_absents (db : DB) (employee_id : string) : Z :=
  let three_months_ago := today - 90 in
  count_if (fun a => String.eqb (Attendance.employee_id a) employee_id
                     && String.eqb (Attendance.status a) "ABSENT"
                     && (Attendance.date a >=? three_months_ago))%bool
           (attendance db).

Definition predict_absenteeism_risk (db : DB) (employee_id : string) : result Risk :=
  let recent := recent_absents db employee_id in
  let df := get_attendance_dataframe today db (Some employee_id) in
  metrics <- compute_behavior_metrics df (Some db) (Some employee_id) ;;
  let risk_score := recent * 2 in
  let risk_score := if attendance_score metrics <? 70 then risk_score + 10 else risk_score in
  let risk := if risk_score >=? 20 then "high"
              else if risk_score >=? 10 then "medium"
              else "low" in
  Ok (mk_risk employee_id risk risk_score).

End Predict.

End Intelligence.

(* ================================================================= *)
(** ** The conditions of the specification *)

(** The conditions the specification names, as propositions over the store;
    the theorems relate them to what the code computes. *)

Module Reading.

(** An [Approved] leave request of the employee whose inclusive range
    contains the date. *)
Definition approved_leave_covers (db : DB) (e : string) (d : date) : Prop :=
  exists l, In l (leave_requests db) /\
            LeaveRequest.employee_id l = e /\
            LeaveRequest.status l = "Approved" /\
            LeaveRequest.start_date l <= d <= LeaveRequest.end_date l.

(** An office holiday on the date. *)
Definition office_holiday_on (db : DB) (d : date) : Prop :=
  exists h, In h (office_holidays db) /\ OfficeHoliday.event_date h = d.

(** The date falls on one of the two last weekdays of the week. *)
Definition weekend (d : date) : Prop := weekday d = 5 \/ weekday d = 6.

(** A raw attendance fact for (employee, date). *)
Definition raw_fact (db : DB) (e : string) (d : date) (a : Attendance.t) : Prop :=
  In a (attendance db) /\ Attendance.employee_id a = e /\ Attendance.date a = d.

(** The time of day of an optional timestamp. *)
Definition time_of_day (t : option datetime) : option time :=
  match t with
  | Some t => Some (time_of t)
  | None => None
  end.

(** The strict precedence of section 4.1, for a derived status and check-in
    time. *)
Definition by_precedence (db : DB) (e : string) (d : date)
    (status : string) (check_in : option time) : Prop :=
  (approved_leave_covers db e d -> status = "LEAVE" /\ check_in = None) /\
  (~ approved_leave_covers db e d -> office_holiday_on db d ->
   status = "HOLIDAY" /\ check_in = None) /\
  (~ approved_leave_covers db e d -> ~ office_holiday_on db d -> weekend d ->
   status = "WEEKEND" /\ check_in = None) /\
  (~ approved_leave_covers db e d -> ~ office_holiday_on db d -> ~ weekend d ->
   (exists a, raw_fact db e d a) ->
   exists a, raw_fact db e d a /\
             Compiler.attendance_query db e d = Some a /\
             status = "PRESENT" /\
             check_in = time_of_day (Attendance.entry_time a)) /\
  (~ approved_leave_covers db e d -> ~ office_holiday_on db d -> ~ weekend d ->
   ~ (exists a, raw_fact db e d a) ->
   status = "ABSENT" /\ check_in = None).

(** The key test of the derived-row queries. *)
Definition key_is (e : string) (d : date) (r : AttendanceDaily.t) : bool :=
  (String.eqb (AttendanceDaily.employee_id r) e && (AttendanceDaily.date r =? d))%bool.

End Reading.

(** The windows, counts and averages the specification names for the
    analytics. *)

Module Analytics.

Import Intelligence.

(** The inclusive window of the [n] days up to [today]. *)
Definition in_trailing_window (today : date) (n : Z) (d : date) : Prop :=
  today - n <= d <= today.

(** The raw ABSENT facts of an employee dated within the trailing 90 days. *)
Definition absences_in_trailing_90 (today : date) (db : DB) (e : string) : Z :=
  count_if (fun a => String.eqb (Attendance.employee_id a) e
                     && String.eqb (Attendance.status a) "ABSENT"
                     && (today - 90 <=? Attendance.date a)
                     && (Attendance.date a <=? today))%bool
           (attendance db).

(** The population standard deviation (denominator [n]) of a column without
    NaN cells. *)
Definition population_std (l : list float) : float :=
  let avg := (Flt.np_sum l / Flt.count_f l)%float in
  let sqr := map (fun x => ((avg - x) * (avg - x))%float) l in
  PrimFloat.sqrt (Flt.np_sum sqr / Flt.count_f l)%float.

(** The z-score of a duration against the population standard deviation. *)
Definition population_z (l : list float) (x : float) : float :=
  ((x - Flt.mean l) / population_std l)%float.

(** The active users of a department. *)
Definition headcount (db : DB) (dept : string) : Z :=
  count_if (fun u => String.eqb (User.department u) dept) (active_users db).

(** The inclusive length of a joined leave. *)
Definition span (row : string * date * date) : Z :=
  let '(_, start, end_) := row in days_between start end_ + 1.

Definition dept_of (row : string * date * date) : string :=
  let '(dept, _, _) := row in dept.

(** The approved leave days of a department. *)
Definition department_total (db : DB) (dept : string) : Z :=
  Zsum (map span (filter (fun row => String.eqb (dept_of row) dept) (joined_leaves db))).

Definition total_leave_days (db : DB) : Z := Zsum (map span (joined_leaves db)).

Definition total_active (db : DB) : Z := Z.of_nat (List.length (active_users db)).

(** Total leave days over total active employees, 0 without active
    employees. *)
Definition organization_average (db : DB) : float :=
  if total_active db =? 0 then Flt.fzero
  else Flt.int_truediv (total_leave_days db) (total_active db).

(** The department total over its active headcount, the denominator floored
    at 1. *)
Definition department_average (db : DB) (dept : string) : float :=
  Flt.int_truediv (department_total db dept) (Z.max 1 (headcount db dept)).

Definition exceeds (db : DB) (dept : string) : bool :=
  (organization_average db * 1.5 <? department_average db dept)%float.

Definition report (db : DB) (dept : string) : Abuse :=
  mk_abuse dept
           (Flt.py_round2 (department_average db dept))
           (Flt.py_round2 (organization_average db)).

(** The records the loop of lines 30 to 38 appends for one fact. *)
Definition records_of (r : Attendance.t) : list Frame.Row :=
  match Attendance.entry_time r with
  | Some entry => [to_record r entry]
  | None => []
  end.

(** The facts the two filters of the query keep. *)
Definition queried (today : Calendar.date) (db : DB) (employee_id : option string)
  : list Attendance.t :=
  filter (fun a => Attendance.date a >=? today - 180)
         (match employee_id with
          | Some e =>
              if str_truthy e
              then filter (fun a => String.eqb (Attendance.employee_id a) e)
                          (attendance db)
              else attendance db
          | None => attendance db
          end).

(** The three tiers of the classification. *)
Definition tier (risk_score : Z) : string :=
  if risk_score >=? 20 then "high"
  else if risk_score >=? 10 then "medium"
  else "low".

(** The record the loop builds for a flagged row. *)
Definition anomaly_of (r : Frame.Row) : Anomaly :=
  mk_anomaly (Frame.employee_id r)
             (isoformat (Frame.date r))
             ("Unusual work duration (" ++ Flt.format_2f (Frame.duration r) ++ "h)")%string.

(** Summing values by key, the way both dictionaries of the detector are
    filled. *)
Definition tally {A : Type} (key : A -> string) (val : A -> Z)
    (l : list A) (d0 : Dict.t Z) : Dict.t Z :=
  fold_left (fun d x => Dict.set d (key x) (Dict.get d (key x) 0 + val x)) l d0.

(** Nine durations of 8.0 around one of 20.0 at position [k]. *)
Definition nine_and_one (k : nat) : list float :=
  repeat 8%float k ++ 20%float :: repeat 8%float (9 - k).

(** Beyond the threshold, against the column [l]. *)
Definition beyond (l : list float) (x : float) : bool :=
  (2 <? abs ((x - Flt.mean l) / Flt.std l))%float.

Definition only_outlier_beyond (k : nat) : bool :=
  ((0 <? Flt.std (nine_and_one k))%float
   && negb (beyond (nine_and_one k) 8%float)
   && beyond (nine_and_one k) 20%float)%bool.

End Analytics.

(* ================================================================= *)
(** ** Sample data *)

Module Samples.

Import Frame.

(** 2024-01-15, a Monday. *)
Definition monday : Calendar.date := 738900.

Definition at_hour (d : Calendar.date) (h : Z) : datetime := mk_datetime d (mk_time h 0 0 0).

Definition ann : User.t := User.mk 1 "E1" "Ann" "Engineering" true.
Definition bob : User.t := User.mk 2 "E2" "Bob" "Engineering" true.
Definition cyd : User.t := User.mk 3 "E3" "Cyd" "Operations" false.
Definition dee : User.t := User.mk 4 "E4" "Dee" "Operations" true.
Definition eve : User.t := User.mk 5 "E5" "Eve" "Operations" true.

(** Ann checked in on the Monday and was absent twice the week before; Bob is
    on approved leave over the Monday, which is also an office holiday; Ann
    has 35 approved leave days earlier on. *)
Definition office : DB :=
  mk_db
    [ann; bob; cyd; dee; eve]
    [Attendance.mk 1 "E1" monday (Some (at_hour monday 9)) (Some 8%float) "PRESENT";
     Attendance.mk 2 "E1" (monday - 3) None None "ABSENT";
     Attendance.mk 3 "E1" (monday - 4) None None "ABSENT";
     Attendance.mk 4 "E4" (monday - 1) (Some (at_hour (monday - 1) 11)) None "PRESENT"]
    []
    [LeaveRequest.mk "E2" (monday - 1) (monday + 1) "Approved";
     LeaveRequest.mk "E1" (monday - 100) (monday - 66) "Approved";
     LeaveRequest.mk "E4" (monday - 10) (monday - 1) "Pending"]
    [OfficeHoliday.mk monday].

(** A store with facts dated the day after [monday]. *)
Definition ahead : DB :=
  mk_db
    [ann]
    [Attendance.mk 1 "E1" (monday + 1) (Some (at_hour (monday + 1) 9)) (Some 8%float) "PRESENT";
     Attendance.mk 2 "E1" (monday + 1) None None "ABSENT"]
    [] [] [].

Definition shift (e : string) (d : Calendar.date) (h : Z) (hours : float) : Row :=
  mk_row e d (at_hour d h) hours "PRESENT".

(** Ten rows: nine durations of 8.0 and one of 20.0. *)
Definition outlier_table : DataFrame :=
  of_records
    [shift "E1" (monday - 9) 9 8; shift "E1" (monday - 8) 9 8;
     shift "E1" (monday - 7) 9 8; shift "E1" (monday - 6) 9 8;
     shift "E1" (monday - 5) 9 8; shift "E1" (monday - 4) 9 8;
     shift "E1" (monday - 3) 9 8; shift "E1" (monday - 2) 9 8;
     shift "E1" (monday - 1) 9 8; shift "E2" monday 11 20].

(** Ten rows: eight durations of 8.0, one of 13.0 and one of 13.25. *)
Definition two_long_days : DataFrame :=
  of_records
    [shift "E1" (monday - 9) 9 8; shift "E1" (monday - 8) 9 8;
     shift "E1" (monday - 7) 9 8; shift "E1" (monday - 6) 9 8;
     shift "E1" (monday - 5) 9 8; shift "E1" (monday - 4) 9 8;
     shift "E1" (monday - 3) 9 8; shift "E1" (monday - 2) 9 8;
     shift "E1" (monday - 1) 9 13; shift "E2" monday 11 13.25].

(** Ten rows of one duration, 0.1 (the nearest float). *)
Definition ten_short_days : DataFrame :=
  of_records
    (map (fun k => shift "E1" (monday - k) 9 0x1.999999999999ap-4)
         [9; 8; 7; 6; 5; 4; 3; 2; 1; 0]).

(** One row under the single label [entry_time]. *)
Definition entry_time_only : DataFrame :=
  mk_df ["entry_time"] [shift "E1" monday 9 8] [].

End Samples.

(* ================================================================= *)
(** ** [compute_performer_lists] *)

Module Performers.

Import Intelligence.

Record Performer : Type := mk_performer
  { pf_name : string;
    pf_employee_id : string;
    pf_score : Z }.

Section Ranking.

(** [datetime.date.today()] *)
Variable today : Calendar.date.

(** One iteration of [for u in users], on the two lists built so far. *)
Definition rank_user (db : DB) (lists : list Performer * list Performer) (u : User.t)
  : result (list Performer * list Performer) :=
  let '(top, low) := lists in
  let df := get_attendance_dataframe today db (Some (User.employee_id u)) in
  metrics <- compute_behavior_metrics df (Some db) (Some (User.employee_id u)) ;;
  if present_days metrics =? 0 then Ok (top, low)
  else
    let record :=
      mk_performer (User.name u) (User.employee_id u) (attendance_score metrics) in
    if attendance_score metrics >=? 85 then Ok (top ++ [record], low)
    else if attendance_score metrics <? 60 then Ok (top, low ++ [record])
    else Ok (top, low).

(** A loop over [l] that threads a value and stops at the first exception. *)
Fixpoint fold_result {A S : Type} (f : S -> A -> result S) (l : list A) (s : S)
  : result S :=
  match l with
  | [] => Ok s
  | x :: l' => s' <- f s x ;; fold_result f l' s'
  end.

Definition compute_performer_lists (db : DB)
  : result (list Performer * list Performer) :=
  let users := active_users db in
  fold_result (rank_user db) users ([], []).

(** The report the loop computes for a user (the default report stands in
    for an exception, which the extractor's table never causes). *)
Definition report_for (db : DB) (u : User.t) : Metrics :=
  match compute_behavior_metrics
          (get_attendance_dataframe today db (Some (User.employee_id u)))
          (Some db) (Some (User.employee_id u)) with
  | Ok m => m
  | Raise _ => default_metrics
  end.

Definition record_for (db : DB) (u : User.t) : Performer :=
  mk_performer (User.name u) (User.employee_id u) (attendance_score (report_for db u)).

(** At least one present day and a score of at least 85. *)
Definition is_top (db : DB) (u : User.t) : bool :=
  (negb (present_days (report_for db u) =? 0)
   && (attendance_score (report_for db u) >=? 85))%bool.

(** At least one present day and a score below 60. *)
Definition is_low (db : DB) (u : User.t) : bool :=
  (negb (present_days (report_for db u) =? 0)
   && (attendance_score (report_for db u) <? 60))%bool.

End Ranking.

End Performers.

(** The store with its users in another order (a query without [ORDER BY]
    may return them in any). *)
Definition with_users (db : DB) (us : list User.t) : DB :=
  mk_db us (attendance db) (attendance_daily db) (leave_requests db) (office_holidays db).

(** The rows a run appends, for the users in the order given. *)
Definition appended (autoflush : bool) (d : Calendar.date) (db : DB) (us : list User.t)
  : list AttendanceDaily.t :=
  Compiler.pending (fold_left (Compiler.compile_user autoflush d) (filter User.is_active us)
                     (Compiler.mk_session (with_users db us) [])).

(** The store reduced to what the leave-abuse detector reads: the active
    users and the approved leave requests. *)
Definition leave_view (db : DB) : DB :=
  mk_db (filter User.is_active (users db))
        [] []
        (filter (fun l => String.eqb (LeaveRequest.status l) "Approved") (leave_requests db))
        [].

(** Two stores with the same raw facts, leave requests and holidays. *)
Definition same_sources (db1 db2 : DB) : Prop :=
  attendance db1 = attendance db2 /\
  leave_requests db1 = leave_requests db2 /\
  office_holidays db1 = office_holidays db2.


(** What a run for [d] appends to a store. *)
Definition run_adds (autoflush : bool) (db : DB) (d : Calendar.date) : list AttendanceDaily.t :=
  Compiler.pending (fold_left (Compiler.compile_user autoflush d) (active_users db) (Compiler.mk_session db [])).


(* ================================================================= *)
(** ** [Security/hash_history.py] *)

(** The log is a text file of one JSON document per line.  A file is [None]
    while it does not exist and otherwise its text.  The logger appends text
    to it; the reader works on the lines that iterating over the file,
    opened in text mode, yields.  The platform writes a line feed as it is
    (POSIX).  The JSON codec and [str.strip] are the library's: they are
    parameters here. *)

Module HashHistory.

Record Payload : Type := mk_payload
  { timestamp : string;
    entity_type : string;
    entity_id : option string;
    field_name : string;
    old_hash : option string;
    new_hash : option string;
    actor_id : option string;
    actor_name : option string;
    employee_name : option string;
    details : option string }.

(** The text of a file, and the lines an open file yields. *)
Definition text_file : Type := option string.

Definition log_file : Type := option (list string).

Definition LF : ascii := ascii_of_nat 10.
Definition CR : ascii := ascii_of_nat 13.

Definition newline : string := String LF EmptyString.

(** Iterating over a file opened for reading in text mode (universal
    newlines): a line ends at LF, at CR LF or at a CR alone and is yielded
    with LF as its end; the last line is yielded as it is when the text does
    not end with a line end.  [after_cr] holds right after a CR and [cur] is
    the line read so far. *)
Fixpoint scan (after_cr : bool) (cur : string) (s : string) : list string :=
  match s with
  | EmptyString => if String.eqb cur "" then [] else [cur]
  | String c rest =>
      if Ascii.eqb c LF then
        if after_cr then scan false cur rest
        else (cur ++ newline)%string :: scan false "" rest
      else if Ascii.eqb c CR then (cur ++ newline)%string :: scan true "" rest
      else scan false (cur ++ String c "")%string rest
  end.

Definition lines_of (s : string) : list string := scan false "" s.

(** [open(_LOG_PATH, "r")], for a file that exists. *)
Definition opened (file : text_file) : log_file := option_map lines_of file.

(** The text holds no line end. *)
Fixpoint one_line (s : string) : bool :=
  match s with
  | EmptyString => true
  | String c rest => negb (Ascii.eqb c LF) && negb (Ascii.eqb c CR) && one_line rest
  end.

Fixpoint ends_with_lf (s : string) : bool :=
  match s with
  | EmptyString => false
  | String c EmptyString => Ascii.eqb c LF
  | String _ rest => ends_with_lf rest
  end.

(** The file is missing or empty, or its text ends with a line feed, as
    the logger leaves it. *)
Definition terminated (file : text_file) : bool :=
  match file with
  | None => true
  | Some EmptyString => true
  | Some s => ends_with_lf s
  end.

(** [l[-limit:]] *)
Definition slice_last {A : Type} (l : list A) (limit : Z) : list A :=
  let n := Z.of_nat (List.length l) in
  let start := - limit in
  let start := if start <? 0 then Z.max (start + n) 0 else Z.min start n in
  skipn (Z.to_nat start) l.

Section Codec.

(** Decoded JSON values. *)
Variable json : Type.

(** [json.dumps(payload, ensure_ascii=False)] *)
Variable dumps : Payload -> string.

(** [json.loads(line)]; [None] stands for [JSONDecodeError]. *)
Variable loads : string -> option json.

(** [str.strip()] *)
Variable strip : string -> string.

(** [log_hash_history], with [now] the formatted [utcnow()]: the document
    and a line feed are appended to the text of the file, whatever that text
    ends with, and the file is created when it does not exist. *)
Definition log_hash_history (file : text_file) (now : string)
    (entity_type : string) (entity_id : option string) (field_name : string)
    (old_hash new_hash actor_id actor_name employee_name details : option string)
  : text_file :=
  let payload :=
    mk_payload now entity_type entity_id field_name old_hash new_hash
               actor_id actor_name employee_name details in
  let written := (dumps payload ++ newline)%string in
  Some (match file with
        | None => ""
        | Some text => text
        end ++ written)%string.

(** [read_hash_history], on the lines the open file yields ([None] when the
    file does not exist). *)
Definition read_hash_history (file : log_file) (limit : option Z) : list json :=
  match file with
  | None => []
  | Some f =>
      let lines := map strip (filter (fun line => str_truthy (strip line)) f) in
      let selected :=
        match limit with
        | None => lines
        | Some limit => slice_last lines limit
        end in
      let entries :=
        flat_map (fun line => match loads line with
                              | Some entry => [entry]
                              | None => []
                              end)
                 selected in
      rev entries
  end.

(** The entries of the lines that decode, oldest first. *)
Definition decoded (lines : list string) : list json :=
  flat_map (fun line => match loads line with
                        | Some entry => [entry]
                        | None => []
                        end) lines.

End Codec.

(** A toy codec for examples: a document is its entity type in braces,
    decoding accepts the lines that start with an opening brace, and
    stripping removes one trailing line feed. *)
Definition toy_dumps (p : Payload) : string := ("{" ++ entity_type p ++ "}")%string.

Definition toy_loads (s : string) : option string :=
  match s with
  | String c _ => if Ascii.eqb c "{" then Some s else None
  | EmptyString => None
  end.

Fixpoint toy_strip (s : string) : string :=
  match s with
  | EmptyString => EmptyString
  | String c rest =>
      if (Ascii.eqb c (ascii_of_nat 10) && String.eqb rest "")%bool then EmptyString
      else String c (toy_strip rest)
  end.

End HashHistory.

(* ================================================================= *)
(** ** [app/leader_dashboard_routes.py]: task deletion and editing *)

(** The two handlers as functions from the store to the store and the
    response.  The model classes, [hash_employee_id] and the form parsing are
    outside these files: the records keep the columns the handlers read or
    write, [id] is the primary key a row is updated or deleted by, and the
    hash function and [strptime] are parameters.  Columns compare by exact
    equality (the binary collation).  An exception leaves the store as it
    was (nothing was committed). *)

Module Leader.

Module Team.
Record t : Type := mk
  { id : Z;
    leader_id : Z;
    project_id : option Z;
    name : string }.
End Team.

Module ProjectTask.
Record t : Type := mk
  { id : Z;
    project_id : Z;
    title : string;
    description : string;
    deadline : datetime;
    status : string }.
End ProjectTask.

Module ProjectTaskAssignee.
Record t : Type := mk
  { task_id : Z;
    employee_id : string;
    employee_id_hash : string }.
End ProjectTaskAssignee.

Record Store : Type := mk_store
  { teams : list Team.t;
    tasks : list ProjectTask.t;
    assignees : list ProjectTaskAssignee.t }.

Inductive response : Type :=
| RedirectResponse (url : string) (status_code : Z)
| HTTPException (status_code : Z)
| ValueError.

(** [str(n)] for an integer. *)
Definition str_int (n : Z) : string :=
  if n <? 0 then ("-" ++ zpad 1 (- n))%string else zpad 1 n.

Definition my_team_of (db : Store) (user : User.t) : option Team.t :=
  first (filter (fun t => Team.leader_id t =? User.id user) (teams db)).

Definition task_of (db : Store) (task_id : Z) : option ProjectTask.t :=
  first (filter (fun t => ProjectTask.id t =? task_id) (tasks db)).

Definition delete_task (db : Store) (task_id : Z) (user : User.t) : Store * response :=
  match my_team_of db user, task_of db task_id with
  | Some _, Some task =>
      let assignees' :=
        filter (fun a => negb (ProjectTaskAssignee.task_id a =? task_id)) (assignees db) in
      let tasks' :=
        filter (fun t => negb (ProjectTask.id t =? ProjectTask.id task)) (tasks db) in
      (mk_store (teams db) tasks' assignees', RedirectResponse "/leader/dashboard" 303)
  | _, _ => (db, HTTPException 403)
  end.

(** A set of strings as the list of its elements, each once, in the order
    they were first given (the order a Python set iterates in is not
    specified). *)
Fixpoint as_set (l : list string) : list string :=
  match l with
  | [] => []
  | x :: l' => x :: filter (fun y => negb (String.eqb y x)) (as_set l')
  end.

Definition mem (x : string) (s : list string) : bool := existsb (String.eqb x) s.

(** [a - b] on sets. *)
Definition difference (a b : list string) : list string :=
  filter (fun x => negb (mem x b)) a.

Section Edit.

(** [hash_employee_id] *)
Variable hash_employee_id : string -> string.

(** [datetime.datetime.strptime(deadline, "%Y-%m-%d")]; [None] stands for
    its [ValueError]. *)
Variable strptime : string -> option datetime.

Definition edit_task (db : Store) (task_id : Z) (title description deadline : string)
    (assign_to_employee_id : list string) (user : User.t) : Store * response :=
  match my_team_of db user, task_of db task_id with
  | Some _, Some task =>
      let existing_task :=
        first (filter (fun t => (ProjectTask.project_id t =? ProjectTask.project_id task)
                                && String.eqb (ProjectTask.title t) title
                                && negb (ProjectTask.id t =? task_id))%bool
                      (tasks db)) in
      match existing_task with
      | Some _ =>
          (db, RedirectResponse ("/leader/project/" ++ str_int (ProjectTask.project_id task)
                                 ++ "?error=duplicate_title")%string 303)
      | None =>
          match strptime deadline with
          | None => (db, ValueError)
          | Some when =>
              let tasks' :=
                map (fun t => if ProjectTask.id t =? ProjectTask.id task
                              then ProjectTask.mk (ProjectTask.id t) (ProjectTask.project_id t)
                                                  title description when
                                                  (ProjectTask.status t)
                              else t)
                    (tasks db) in
              let current_assignees :=
                as_set (map ProjectTaskAssignee.employee_id
                            (filter (fun a => ProjectTaskAssignee.task_id a =? task_id)
                                    (assignees db))) in
              let new_assignees := as_set assign_to_employee_id in
              let removed :=
                fold_left
                  (fun rows emp_id =>
                     filter (fun a => negb ((ProjectTaskAssignee.task_id a =? task_id)
                                            && String.eqb (ProjectTaskAssignee.employee_id a)
                                                          emp_id))%bool
                            rows)
                  (difference current_assignees new_assignees)
                  (assignees db) in
              let added :=
                map (fun emp_id =>
                       ProjectTaskAssignee.mk task_id emp_id (hash_employee_id emp_id))
                    (difference new_assignees current_assignees) in
              (mk_store (teams db) tasks' (removed ++ added),
               RedirectResponse ("/leader/project/"
                                 ++ str_int (ProjectTask.project_id task))%string 303)
          end
      end
  | _, _ => (db, HTTPException 403)
  end.

End Edit.

(** A sample: Ann leads the one team, whose project has two tasks. *)
Definition first_of_february : datetime := mk_datetime 738917 (mk_time 0 0 0 0).

Definition sample_hash (e : string) : string := ("#" ++ e)%string.

Definition sample_strptime (s : string) : option datetime :=
  if String.eqb s "2024-02-01" then Some first_of_february else None.

Definition draft : ProjectTask.t :=
  ProjectTask.mk 7 10 "Draft" "" first_of_february "pending".

Definition review : ProjectTask.t :=
  ProjectTask.mk 8 10 "Review" "" first_of_february "pending".

Definition board : Store :=
  mk_store [Team.mk 1 1 (Some 10) "Core"]
           [draft; review]
           [ProjectTaskAssignee.mk 7 "E2" "#E2";
            ProjectTaskAssignee.mk 7 "E4" "#E4";
            ProjectTaskAssignee.mk 8 "E2" "#E2"].

End Leader.

(* ================================================================= *)
(** * Properties *)

(** ** Queries *)

Lemma first_filter_some {A : Type} (p : A -> bool) (l : list A) (x : A) :
  first (filter p l) = Some x -> In x l /\ p x = true.
Proof.
  intro H.
  assert (Hin : In x (filter p l)).
  { destruct (filter p l) as [|y l']; simpl in H; [discriminate|].
    injection H as ->. now left. }
  now apply filter_In in Hin.
Qed.

Lemma first_filter_none {A : Type} (p : A -> bool) (l : list A) :
  first (filter p l) = None <-> (forall x, In x l -> p x = false).
Proof.
  split.
  - intros H x Hx. destruct (p x) eqn:Hp; [|reflexivity].
    assert (Hin : In x (filter p l)) by (apply filter_In; auto).
    destruct (filter p l); [destruct Hin | discriminate].
  - intro H. induction l as [|a l IH]; simpl; [reflexivity|].
    rewrite (H a (or_introl eq_refl)). apply IH.
    intros x Hx. apply H. now right.
Qed.

Lemma first_filter_exists {A : Type} (p : A -> bool) (l : list A) (x : A) :
  In x l -> p x = true -> exists y, first (filter p l) = Some y.
Proof.
  intros Hin Hp.
  destruct (first (filter p l)) as [y|] eqn:E; [now exists y|].
  rewrite first_filter_none in E. rewrite (E x Hin) in Hp. discriminate.
Qed.

Module CompilerFacts.

Import Compiler Reading.

Lemma key_is_true e d r :
  key_is e d r = true <->
  AttendanceDaily.employee_id r = e /\ AttendanceDaily.date r = d.
Proof.
  unfold key_is. rewrite andb_true_iff, String.eqb_eq, Z.eqb_eq. tauto.
Qed.

Lemma rows_for_app rows1 rows2 e d :
  rows_for (rows1 ++ rows2) e d = (rows_for rows1 e d + rows_for rows2 e d)%nat.
Proof. unfold rows_for. now rewrite filter_app, length_app. Qed.

Lemma rows_for_zero rows e d :
  rows_for rows e d = 0%nat <-> (forall r, In r rows -> key_is e d r = false).
Proof.
  unfold rows_for. fold (key_is e d). split.
  - intros H r Hr. destruct (key_is e d r) eqn:K; [|reflexivity].
    assert (Hin : In r (filter (key_is e d) rows)) by (apply filter_In; auto).
    destruct (filter (key_is e d) rows); [destruct Hin | discriminate].
  - intro H. induction rows as [|a rows IH]; simpl; [reflexivity|].
    rewrite (H a (or_introl eq_refl)). apply IH. intros r Hr. apply H. now right.
Qed.

Lemma rows_for_pos rows e d r :
  In r rows -> key_is e d r = true -> (1 <= rows_for rows e d)%nat.
Proof.
  intros Hin K. destruct (rows_for rows e d) eqn:E; [|lia].
  rewrite rows_for_zero in E. rewrite (E r Hin) in K. discriminate.
Qed.

Lemma daily_query_none rows e d :
  daily_query rows e d = None <-> rows_for rows e d = 0%nat.
Proof.
  unfold daily_query. fold (key_is e d).
  rewrite first_filter_none, rows_for_zero. tauto.
Qed.

Lemma new_row_key db e d :
  AttendanceDaily.employee_id (new_row db e d) = e /\
  AttendanceDaily.date (new_row db e d) = d.
Proof. unfold new_row. destruct (resolve db e d). simpl. auto. Qed.

Lemma new_row_eq db e d :
  new_row db e d =
  AttendanceDaily.mk e d (fst (resolve db e d)) (snd (resolve db e d)).
Proof. unfold new_row. now destruct (resolve db e d). Qed.

Section Loop.

Variable autoflush : bool.
Variable d : date.

Lemma compile_user_store s u : store ((compile_user autoflush d) s u) = store s.
Proof.
  unfold compile_user. now destruct (daily_query _ _ _).
Qed.

Lemma loop_store us : forall s, store (fold_left (compile_user autoflush d) us s) = store s.
Proof.
  induction us as [|u us IH]; intro s; simpl; [reflexivity|].
  rewrite IH. apply compile_user_store.
Qed.

(** What the loop adds: only rows the resolver derives, one per user that has
    no visible row yet, and none for an employee the store already had a row
    for. *)
Lemma loop_added us : forall s,
  exists added,
    pending (fold_left (compile_user autoflush d) us s) = pending s ++ added /\
    Forall (fun r => exists u, In u us /\
                     r = new_row (store s) (User.employee_id u) d /\
                     rows_for (attendance_daily (store s)) (User.employee_id u) d = 0%nat)
           added.
Proof.
  induction us as [|u us IH]; intro s; simpl.
  - exists []. now rewrite app_nil_r.
  - destruct (IH ((compile_user autoflush d) s u)) as (added & Hp & Hall).
    rewrite compile_user_store in Hall.
    unfold compile_user in Hp |- *.
    destruct (daily_query (visible autoflush s) (User.employee_id u) d) eqn:Q.
    + exists added. split; [exact Hp|].
      eapply Forall_impl; [|exact Hall].
      intros r (u' & Hu' & Hr). exists u'. split; [now right | exact Hr].
    + simpl in Hp. exists (new_row (store s) (User.employee_id u) d :: added).
      split.
      * rewrite Hp, <- app_assoc. reflexivity.
      * constructor.
        -- exists u. split; [now left|]. split; [reflexivity|].
           apply daily_query_none in Q. unfold visible in Q.
           rewrite rows_for_app in Q. lia.
        -- eapply Forall_impl; [|exact Hall].
           intros r (u' & Hu' & Hr). exists u'. split; [now right | exact Hr].
Qed.

(** Every user the loop went through has a row for the date afterwards. *)
Lemma loop_covers us : forall s u,
  In u us ->
  (1 <= rows_for (attendance_daily (store s) ++ pending (fold_left (compile_user autoflush d) us s))
                 (User.employee_id u) d)%nat.
Proof.
  induction us as [|u0 us IH]; intros s u Hin; [destruct Hin|].
  simpl. destruct Hin as [-> | Hin].
  - destruct (loop_added us ((compile_user autoflush d) s u)) as (added & Hp & _).
    rewrite Hp. unfold compile_user.
    destruct (daily_query (visible autoflush s) (User.employee_id u) d) eqn:Q.
    + assert (Hv : (1 <= rows_for (visible autoflush s) (User.employee_id u) d)%nat).
      { destruct (rows_for (visible autoflush s) (User.employee_id u) d) eqn:E; [|lia].
        apply daily_query_none in E. congruence. }
      unfold visible in Hv. rewrite !rows_for_app in *.
      destruct autoflush; simpl in *; unfold rows_for in *; simpl in *; lia.
    + simpl. rewrite !rows_for_app.
      assert (K : rows_for [new_row (store s) (User.employee_id u) d]
                           (User.employee_id u) d = 1%nat).
      { unfold rows_for. simpl.
        destruct (new_row_key (store s) (User.employee_id u) d) as [-> ->].
        now rewrite String.eqb_refl, Z.eqb_refl. }
      lia.
  - specialize (IH ((compile_user autoflush d) s u0) u Hin). now rewrite compile_user_store in IH.
Qed.

(** The loop never creates a second row for a key. *)
Lemma loop_unique us : forall s,
  (forall e, rows_for (attendance_daily (store s) ++ pending s) e d <= 1)%nat ->
  autoflush = true \/
  (NoDup (map User.employee_id us) /\
   forall r, In r (pending s) -> AttendanceDaily.date r = d ->
             ~ In (AttendanceDaily.employee_id r) (map User.employee_id us)) ->
  forall e,
    (rows_for (attendance_daily (store s) ++ pending (fold_left (compile_user autoflush d) us s)) e d <= 1)%nat.
Proof.
  induction us as [|u us IH]; intros s Hle Hmode e; simpl; [apply Hle|].
  rewrite <- (compile_user_store s u). apply IH.
  - intro e'. rewrite compile_user_store. unfold compile_user.
    destruct (daily_query (visible autoflush s) (User.employee_id u) d) eqn:Q;
      [apply Hle|].
    simpl. apply daily_query_none in Q. unfold visible in Q.
    rewrite app_assoc, rows_for_app.
    assert (Hfree : rows_for (attendance_daily (store s) ++ pending s)
                             (User.employee_id u) d = 0%nat).
    { destruct Hmode as [-> | [Hnd Hfresh]]; [exact Q|].
      rewrite rows_for_app in Q. rewrite rows_for_app.
      cut (rows_for (pending s) (User.employee_id u) d = 0%nat); [lia|].
      apply rows_for_zero. intros r Hr.
      destruct (key_is (User.employee_id u) d r) eqn:K; [|reflexivity].
      apply key_is_true in K. destruct K as [Ke Kd].
      exfalso. apply (Hfresh r Hr Kd). rewrite Ke. now left. }
    unfold rows_for at 2. simpl.
    destruct (new_row_key (store s) (User.employee_id u) d) as [-> ->].
    rewrite Z.eqb_refl, andb_true_r.
    destruct (String.eqb (User.employee_id u) e') eqn:E; simpl.
    + apply String.eqb_eq in E. subst e'. lia.
    + specialize (Hle e'). lia.
  - destruct Hmode as [-> | [Hnd Hfresh]]; [now left | right].
    simpl in Hnd. apply NoDup_cons_iff in Hnd. destruct Hnd as [Hnotin Hnd].
    split; [exact Hnd|].
    intros r Hr Hd. unfold compile_user in Hr.
    destruct (daily_query (visible autoflush s) (User.employee_id u) d).
    + intro Hin. apply (Hfresh r Hr Hd). now right.
    + simpl in Hr. apply in_app_or in Hr. destruct Hr as [Hr | [<- | []]].
      * intro Hin. apply (Hfresh r Hr Hd). now right.
      * now destruct (new_row_key (store s) (User.employee_id u) d) as [-> _].
Qed.

(** A user with a visible row is skipped. *)
Lemma loop_skips us : forall s,
  (forall u, In u us ->
             (1 <= rows_for (attendance_daily (store s)) (User.employee_id u) d)%nat) ->
  fold_left (compile_user autoflush d) us s = s.
Proof.
  induction us as [|u us IH]; intros s H; simpl; [reflexivity|].
  assert (Hu : (compile_user autoflush d) s u = s).
  { unfold compile_user.
    destruct (daily_query (visible autoflush s) (User.employee_id u) d) eqn:Q;
      [reflexivity|].
    apply daily_query_none in Q. unfold visible in Q. rewrite rows_for_app in Q.
    specialize (H u (or_introl eq_refl)). lia. }
  rewrite Hu. apply IH. intros u' Hu'. apply H. now right.
Qed.

End Loop.

End CompilerFacts.

Module ResolverFacts.

Import Compiler Reading.

Lemma leave_query_iff db e d :
  (exists l, leave_query db e d = Some l) <-> approved_leave_covers db e d.
Proof.
  unfold leave_query, approved_leave_covers. split.
  - intros [l H]. apply first_filter_some in H. destruct H as [Hin Hp].
    rewrite !andb_true_iff, !String.eqb_eq, Z.leb_le, Z.geb_le in Hp.
    exists l. intuition.
  - intros (l & Hin & He & Hs & Hlo & Hhi).
    eapply first_filter_exists; [exact Hin|].
    rewrite !andb_true_iff, !String.eqb_eq, Z.leb_le, Z.geb_le. intuition.
Qed.

Lemma holiday_query_iff db d :
  (exists h, holiday_query db d = Some h) <-> office_holiday_on db d.
Proof.
  unfold holiday_query, office_holiday_on. split.
  - intros [h H]. apply first_filter_some in H. destruct H as [Hin Hp].
    apply Z.eqb_eq in Hp. now exists h.
  - intros (h & Hin & Hd).
    eapply first_filter_exists; [exact Hin|]. now apply Z.eqb_eq.
Qed.

Lemma weekend_iff d : (weekday d >=? 5) = true <-> weekend d.
Proof.
  unfold weekend, weekday. rewrite Z.geb_le.
  pose proof (Z.mod_pos_bound (d + 6) 7 ltac:(lia)). lia.
Qed.

Lemma attendance_query_some db e d a :
  attendance_query db e d = Some a -> raw_fact db e d a.
Proof.
  unfold attendance_query, raw_fact. intro H.
  apply first_filter_some in H. destruct H as [Hin Hp].
  rewrite andb_true_iff, String.eqb_eq, Z.eqb_eq in Hp. intuition.
Qed.

Lemma attendance_query_exists db e d a :
  raw_fact db e d a -> exists a', attendance_query db e d = Some a'.
Proof.
  unfold attendance_query, raw_fact. intros (Hin & He & Hd).
  eapply first_filter_exists; [exact Hin|].
  rewrite andb_true_iff, String.eqb_eq, Z.eqb_eq. auto.
Qed.

(** The [if / elif] chain decides by the precedence of the specification. *)
Lemma resolve_by_precedence db e d :
  by_precedence db e d (fst (resolve db e d)) (snd (resolve db e d)).
Proof.
  unfold by_precedence, resolve.
  destruct (leave_query db e d) as [l|] eqn:L.
  { assert (HL : approved_leave_covers db e d)
      by (apply leave_query_iff; now exists l).
    simpl. split; [auto|]. repeat (split; [intros; contradiction|]).
    intros; contradiction. }
  assert (HL : ~ approved_leave_covers db e d).
  { intro H. apply leave_query_iff in H. destruct H as [l H]. congruence. }
  split; [intros; contradiction|].
  destruct (holiday_query db d) as [h|] eqn:Hq.
  { assert (HH : office_holiday_on db d)
      by (apply holiday_query_iff; now exists h).
    simpl. split; [auto|]. repeat (split; [intros; contradiction|]).
    intros; contradiction. }
  assert (HH : ~ office_holiday_on db d).
  { intro H. apply holiday_query_iff in H. destruct H as [h H]. congruence. }
  split; [intros; contradiction|].
  destruct (weekday d >=? 5) eqn:W.
  { assert (HW : weekend d) by now apply weekend_iff.
    simpl. split; [auto|]. split; intros; contradiction. }
  assert (HW : ~ weekend d).
  { intro H. apply weekend_iff in H. congruence. }
  split; [intros; contradiction|].
  destruct (attendance_query db e d) as [a|] eqn:A; simpl.
  - split.
    + intros _ _ _ _. exists a. split; [now apply attendance_query_some|]. auto.
    + intros _ _ _ Hno. exfalso. apply Hno. exists a.
      now apply attendance_query_some.
  - split.
    + intros _ _ _ [a Ha]. apply attendance_query_exists in Ha.
      destruct Ha as [a' Ha']. congruence.
    + auto.
Qed.

End ResolverFacts.

Module CompilerTheorems.

Import Compiler Reading CompilerFacts ResolverFacts.

(** C1.  For every active employee that has no derived row for the target
    date yet, the run stores a row for (employee, date) whose status and
    check-in time follow the strict precedence LEAVE, HOLIDAY, WEEKEND, then
    PRESENT (with the time of day of the first raw fact's timestamp, or none
    when it has no timestamp) or ABSENT; every row of the compiled store for
    that key carries this status; and a date with both an approved leave and
    an office holiday resolves to LEAVE. *)
Theorem resolver_precedence :
  forall (autoflush : bool) (today : date) (db : DB) (target_date : option date)
         (user : User.t),
    In user (active_users db) ->
    rows_for (attendance_daily db) (User.employee_id user)
             (target_of today target_date) = 0%nat ->
    let d := target_of today target_date in
    let e := User.employee_id user in
    let compiled := attendance_daily (compile_daily_attendance autoflush today db target_date) in
    exists status check_in,
      In (AttendanceDaily.mk e d status check_in) compiled /\
      (forall r, In r compiled ->
                 AttendanceDaily.employee_id r = e -> AttendanceDaily.date r = d ->
                 AttendanceDaily.status r = status /\
                 AttendanceDaily.check_in_time r = check_in) /\
      by_precedence db e d status check_in /\
      (approved_leave_covers db e d -> office_holiday_on db d -> status = "LEAVE").
Proof.
  intros autoflush today db target_date user Hu Hnone d e compiled.
  exists (fst (resolve db e d)), (snd (resolve db e d)).
  pose proof (resolve_by_precedence db e d) as Hprec.
  assert (Hrows : compiled =
                  attendance_daily db ++
                  pending (fold_left (compile_user autoflush d) (active_users db)
                                     (mk_session db []))).
  { unfold compiled, compile_daily_attendance, commit. simpl.
    now rewrite loop_store. }
  destruct (loop_added autoflush d (active_users db) (mk_session db []))
    as (added & Hp & Hall).
  simpl in Hp, Hall. rewrite Forall_forall in Hall.
  assert (Hown : forall r, In r compiled ->
                           AttendanceDaily.employee_id r = e ->
                           AttendanceDaily.date r = d ->
                           r = new_row db e d).
  { intros r Hr He Hd. rewrite Hrows, Hp in Hr. apply in_app_or in Hr.
    destruct Hr as [Hr | Hr].
    - exfalso. apply rows_for_zero with (r := r) in Hnone; [|exact Hr].
      assert (K : key_is e d r = true) by (apply key_is_true; auto).
      unfold e, d in K. congruence.
    - destruct (Hall r Hr) as (u' & _ & -> & _).
      destruct (new_row_key db (User.employee_id u') d) as [Ke _].
      rewrite Ke in He. now rewrite He. }
  split; [|split; [|split]].
  - rewrite <- new_row_eq.
    pose proof (loop_covers autoflush d (active_users db) (mk_session db []) user Hu)
      as Hcov.
    simpl in Hcov. rewrite <- Hrows in Hcov.
    destruct (filter (key_is e d) compiled) as [|r rest] eqn:F.
    + unfold rows_for in Hcov. fold (key_is (User.employee_id user) d) in Hcov.
      fold e in Hcov. rewrite F in Hcov. simpl in Hcov. lia.
    + assert (Hr : In r (filter (key_is e d) compiled)) by (rewrite F; now left).
      apply filter_In in Hr. destruct Hr as [Hr K]. apply key_is_true in K.
      destruct K as [Ke Kd]. now rewrite <- (Hown r Hr Ke Kd).
  - intros r Hr He Hd. rewrite (Hown r Hr He Hd), new_row_eq. split; reflexivity.
  - exact Hprec.
  - intros HL _. destruct Hprec as [Hleave _]. now apply Hleave.
Qed.

End CompilerTheorems.

Module IdempotenceTheorems.

Import Compiler Reading CompilerFacts.

Lemma commit_clean db : commit (mk_session db []) = db.
Proof. destruct db. unfold commit. simpl. now rewrite app_nil_r. Qed.

Lemma compiled_rows autoflush today db target_date :
  attendance_daily (compile_daily_attendance autoflush today db target_date) =
  attendance_daily db ++
  pending (fold_left (compile_user autoflush (target_of today target_date))
                     (active_users db) (mk_session db [])).
Proof.
  unfold compile_daily_attendance, commit. simpl. now rewrite loop_store.
Qed.

Lemma compiled_users autoflush today db target_date :
  active_users (compile_daily_attendance autoflush today db target_date) =
  active_users db.
Proof.
  unfold compile_daily_attendance, commit, active_users. simpl.
  now rewrite loop_store.
Qed.

Lemma compiled_covers autoflush today db target_date user :
  In user (active_users db) ->
  (1 <= rows_for (attendance_daily
                    (compile_daily_attendance autoflush today db target_date))
                 (User.employee_id user) (target_of today target_date))%nat.
Proof.
  intro Hu. rewrite compiled_rows.
  apply (loop_covers autoflush (target_of today target_date) (active_users db)
                     (mk_session db []) user Hu).
Qed.

Lemma second_run_is_noop autoflush today db target_date :
  let once := compile_daily_attendance autoflush today db target_date in
  compile_daily_attendance autoflush today once target_date = once.
Proof.
  intro once. unfold compile_daily_attendance at 1.
  rewrite loop_skips.
  - apply commit_clean.
  - intros u Hu. simpl. unfold once in Hu |- *.
    rewrite compiled_users in Hu. now apply compiled_covers.
Qed.

Lemma runs_collapse autoflush today target_date n : forall db,
  runs autoflush today (S n) db target_date =
  compile_daily_attendance autoflush today db target_date.
Proof.
  induction n as [|n IH]; intro db; [reflexivity|].
  change (runs autoflush today (S (S n)) db target_date)
    with (runs autoflush today (S n)
               (compile_daily_attendance autoflush today db target_date)
               target_date).
  rewrite IH. apply second_run_is_noop.
Qed.

(** C2.  A second run for the same target date returns the store of the
    first run unchanged, and so does any number of further runs; a run keeps
    every existing derived row in place and only appends rows for the target
    date, none of them for an employee that already had a row for the date
    (and it touches no other table); and when the store holds at most one
    derived row per employee for the date and employee ids identify the
    active users (or the session flushes before each query), every active
    employee has exactly one row for the date after any positive number of
    runs. *)
Theorem compile_idempotent :
  forall (autoflush : bool) (today : date) (db : DB) (target_date : option date),
    let d := target_of today target_date in
    let once := compile_daily_attendance autoflush today db target_date in
    compile_daily_attendance autoflush today once target_date = once /\
    (forall n, runs autoflush today (S n) db target_date = once) /\
    (exists added,
        attendance_daily once = attendance_daily db ++ added /\
        Forall (fun r =>
                  AttendanceDaily.date r = d /\
                  rows_for (attendance_daily db) (AttendanceDaily.employee_id r) d = 0%nat)
               added) /\
    (users once = users db /\ attendance once = attendance db /\
     leave_requests once = leave_requests db /\
     office_holidays once = office_holidays db) /\
    ((forall e, (rows_for (attendance_daily db) e d <= 1)%nat) ->
     autoflush = true \/ NoDup (map User.employee_id (active_users db)) ->
     forall n user,
       In user (active_users db) ->
       rows_for (attendance_daily (runs autoflush today (S n) db target_date))
                (User.employee_id user) d = 1%nat).
Proof.
  intros autoflush today db target_date d once.
  split; [apply second_run_is_noop|].
  split; [intro n; apply runs_collapse|].
  split.
  { destruct (loop_added autoflush d (active_users db) (mk_session db []))
      as (added & Hp & Hall).
    simpl in Hp, Hall. exists added. split.
    - unfold once. rewrite compiled_rows. fold d. now rewrite Hp.
    - eapply Forall_impl; [|exact Hall].
      intros r (u & _ & -> & Hz).
      destruct (new_row_key db (User.employee_id u) d) as [-> ->]. auto. }
  split.
  { unfold once, compile_daily_attendance, commit. simpl.
    now rewrite loop_store. }
  intros Huniq Hmode n user Hu.
  rewrite runs_collapse.
  pose proof (compiled_covers autoflush today db target_date user Hu) as Hge.
  assert (Hle : (rows_for (attendance_daily
                             (compile_daily_attendance autoflush today db target_date))
                          (User.employee_id user) d <= 1)%nat).
  { rewrite compiled_rows.
    apply (loop_unique autoflush d (active_users db) (mk_session db [])).
    - intro e. simpl. rewrite app_nil_r. apply Huniq.
    - destruct Hmode as [-> | Hnd]; [now left | right].
      split; [exact Hnd|]. intros r []. }
  fold d in Hge. lia.
Qed.

End IdempotenceTheorems.

(* ================================================================= *)
(** ** Metrics *)

Module MetricsFacts.

Import Frame Intelligence.

Lemma column_ok {A : Type} c (cell : Row -> A) df :
  has_column c df = true -> column c cell df = Ok (map cell (rows df)).
Proof. unfold column. now intros ->. Qed.

Lemma column_missing {A : Type} c (cell : Row -> A) df :
  has_column c df = false -> column c cell df = Raise (KeyError c).
Proof. unfold column. now intros ->. Qed.

(** The guards of lines 74 to 80. *)
Lemma metrics_default df db employee_id :
  empty df = true \/ has_column "entry_time" df = false ->
  compute_behavior_metrics df db employee_id = Ok default_metrics.
Proof.
  unfold compute_behavior_metrics. intros [H | H].
  - now rewrite H.
  - rewrite H. simpl. now destruct (empty df).
Qed.

(** With the three columns the function reads, it returns a report. *)
Lemma metrics_computed df db employee_id :
  empty df = false ->
  has_column "entry_time" df = true ->
  has_column "status" df = true ->
  has_column "duration" df = true ->
  exists m,
    compute_behavior_metrics df db employee_id = Ok m /\
    present_days m = count_if (String.eqb "PRESENT") (map Frame.status (rows df)) /\
    absent_days m = count_if (String.eqb "ABSENT") (map Frame.status (rows df)) /\
    late_arrival_days m =
      count_if (fun h => h >? 10) (map (fun r => hour_of (Frame.entry_time r)) (rows df)) /\
    leave_days m = count_leave_days db employee_id /\
    attendance_score m =
      score_of (present_days m) (absent_days m) (late_arrival_days m) (leave_days m).
Proof.
  intros He Ht Hs Hd. unfold compute_behavior_metrics.
  rewrite He, Ht. simpl negb. cbv iota.
  rewrite (column_ok _ _ _ Ht), (column_ok _ _ _ Hs), (column_ok _ _ _ Hd).
  simpl bind. eexists. split; [reflexivity|]. simpl.
  rewrite map_map. repeat split; reflexivity.
Qed.

Lemma count_if_nonneg {A : Type} (p : A -> bool) l : 0 <= count_if p l.
Proof. unfold count_if. lia. Qed.

Lemma score_of_spec present absent late leave_days :
  score_of present absent late leave_days =
  (if present =? 0 then 0
   else Z.max 0 (100 - 2 * late - 6 * absent - 1 * leave_days)).
Proof.
  unfold score_of. destruct (present =? 0); [reflexivity|]. f_equal. lia.
Qed.

Lemma score_of_bounds present absent late leave_days :
  0 <= absent -> 0 <= late -> 0 <= leave_days ->
  0 <= score_of present absent late leave_days <= 100.
Proof.
  intros. rewrite score_of_spec. destruct (present =? 0); lia.
Qed.

Lemma fold_leave_nonneg leaves : forall acc,
  (forall l, In l leaves ->
             LeaveRequest.start_date l <= LeaveRequest.end_date l) ->
  acc <= fold_left (fun leave_days l => leave_days + leave_span l) leaves acc.
Proof.
  induction leaves as [|l leaves IH]; intros acc H; simpl; [lia|].
  specialize (IH (acc + leave_span l) (fun l' Hl' => H l' (or_intror Hl'))).
  specialize (H l (or_introl eq_refl)).
  unfold leave_span, days_between in *. lia.
Qed.

(** Leave days are a count when every approved request ends on or after its
    start. *)
Lemma count_leave_days_nonneg db employee_id :
  (forall db' l, db = Some db' -> In l (leave_requests db') ->
                 LeaveRequest.start_date l <= LeaveRequest.end_date l) ->
  0 <= count_leave_days db employee_id.
Proof.
  intro H. unfold count_leave_days.
  destruct db as [db'|]; [|lia].
  destruct employee_id as [e|]; [|lia].
  destruct (str_truthy e); [|lia].
  apply fold_leave_nonneg. intros l Hl. apply (H db' l eq_refl).
  unfold approved_leaves in Hl. now apply filter_In in Hl.
Qed.

End MetricsFacts.

Module MetricsTheorems.

Import Frame Intelligence MetricsFacts.

(** C3.  On a one-row table that has the label [entry_time] but no label
    [status], the metrics engine raises [KeyError] instead of returning the
    default report. *)
Theorem metrics_raise_without_status :
  Frame.empty Samples.entry_time_only = false /\
  has_column "status" Samples.entry_time_only = false /\
  compute_behavior_metrics Samples.entry_time_only None None
  = Raise (KeyError "status").
Proof. repeat split. Qed.

(** C4.  On a non-empty table with the fields the engine reads, the report's
    score is 100 minus 2 per late day, 6 per absent day and 1 per leave day,
    forced to 0 without a present day and clamped below at 0; it is never
    negative, and it is at most 100 as soon as the leave-day count is not
    negative, which holds when every leave request ends on or after its
    start. *)
Theorem attendance_score_formula :
  forall (df : DataFrame) (db : option DB) (employee_id : option string),
    Frame.empty df = false ->
    has_column "entry_time" df = true ->
    has_column "status" df = true ->
    has_column "duration" df = true ->
    exists m,
      compute_behavior_metrics df db employee_id = Ok m /\
      attendance_score m =
        (if present_days m =? 0 then 0
         else Z.max 0 (100 - 2 * late_arrival_days m - 6 * absent_days m
                       - 1 * leave_days m)) /\
      (present_days m = 0 -> attendance_score m = 0) /\
      0 <= late_arrival_days m /\
      0 <= absent_days m /\
      0 <= attendance_score m /\
      (0 <= leave_days m -> attendance_score m <= 100) /\
      ((forall db' l, db = Some db' -> In l (leave_requests db') ->
                      LeaveRequest.start_date l <= LeaveRequest.end_date l) ->
       0 <= leave_days m /\ 0 <= attendance_score m <= 100).
Proof.
  intros df db employee_id He Ht Hs Hd.
  destruct (metrics_computed df db employee_id He Ht Hs Hd)
    as (m & Hm & Hp & Ha & Hl & Hv & Hscore).
  exists m. split; [exact Hm|].
  assert (Ha0 : 0 <= absent_days m) by (rewrite Ha; apply count_if_nonneg).
  assert (Hl0 : 0 <= late_arrival_days m) by (rewrite Hl; apply count_if_nonneg).
  rewrite Hscore, score_of_spec.
  split; [reflexivity|].
  split; [now intros ->|].
  split; [exact Hl0|].
  split; [exact Ha0|].
  split; [destruct (present_days m =? 0); lia|].
  split; [destruct (present_days m =? 0); lia|].
  intro Hwf.
  assert (Hv0 : 0 <= leave_days m)
    by (rewrite Hv; now apply count_leave_days_nonneg).
  destruct (present_days m =? 0); lia.
Qed.

End MetricsTheorems.

(* ================================================================= *)
(** ** The history extractor *)

Module ExtractorFacts.

Import Frame Intelligence Analytics.

Lemma of_records_rows data : rows (of_records data) = data.
Proof. now destruct data. Qed.

Lemma of_records_columns data c :
  data <> [] ->
  has_column c (of_records data) =
  existsb (String.eqb c) ["employee_id"; "date"; "entry_time"; "duration"; "status"].
Proof. destruct data; [congruence | reflexivity]. Qed.

Lemma of_records_empty data : Frame.empty (of_records data) = true <-> data = [].
Proof. destruct data; unfold Frame.empty; simpl; split; congruence. Qed.

Lemma dataframe_rows today db employee_id :
  rows (get_attendance_dataframe today db employee_id) =
  flat_map records_of (queried today db employee_id).
Proof.
  unfold get_attendance_dataframe. rewrite of_records_rows. reflexivity.
Qed.

Lemma str_truthy_iff e : str_truthy e = true <-> e <> "".
Proof. destruct e; simpl; split; congruence. Qed.

Lemma queried_iff today db employee_id a :
  In a (queried today db employee_id) <->
  In a (attendance db) /\
  today - 180 <= Attendance.date a /\
  (forall e, employee_id = Some e -> e <> "" -> Attendance.employee_id a = e).
Proof.
  unfold queried. rewrite filter_In, Z.geb_le.
  destruct employee_id as [e|].
  - destruct (str_truthy e) eqn:T.
    + rewrite filter_In, String.eqb_eq. split.
      * intros [[Hin He] Hd]. repeat split; auto. intros e' [= <-] _. exact He.
      * intros (Hin & Hd & He). repeat split; auto. apply (He e eq_refl).
        now apply str_truthy_iff.
    + split.
      * intros [Hin Hd]. repeat split; auto. intros e' [= <-] Hne.
        apply str_truthy_iff in Hne. congruence.
      * intros (Hin & Hd & _). auto.
  - split.
    + intros [Hin Hd]. repeat split; auto. discriminate.
    + intros (Hin & Hd & _). auto.
Qed.

(** The table the extractor builds has the five labels, or no row at all. *)
Lemma dataframe_shape today db employee_id c :
  let df := get_attendance_dataframe today db employee_id in
  Frame.empty df = true \/
  (Frame.empty df = false /\
   has_column c df =
   existsb (String.eqb c) ["employee_id"; "date"; "entry_time"; "duration"; "status"]).
Proof.
  unfold get_attendance_dataframe. cbv zeta.
  match goal with |- context [of_records ?d] => destruct d eqn:E end.
  - left. reflexivity.
  - right. split; reflexivity.
Qed.

(** On the extractor's table the metrics engine returns a report. *)
Lemma metrics_on_dataframe today db employee_id odb oe :
  exists m,
    compute_behavior_metrics (get_attendance_dataframe today db employee_id) odb oe
    = Ok m.
Proof.
  destruct (dataframe_shape today db employee_id "entry_time") as [He | [He Hc]].
  - exists default_metrics. apply MetricsFacts.metrics_default. now left.
  - destruct (dataframe_shape today db employee_id "status") as [He' | [_ Hs]];
      [cbv zeta in He'; congruence|].
    destruct (dataframe_shape today db employee_id "duration") as [He' | [_ Hd]];
      [cbv zeta in He'; congruence|].
    cbv zeta in *.
    destruct (MetricsFacts.metrics_computed
                (get_attendance_dataframe today db employee_id) odb oe He)
      as (m & Hm & _); try (rewrite Hc || rewrite Hs || rewrite Hd); try reflexivity.
    now exists m.
Qed.

(** The rows of the extractor's table. *)
Lemma extractor_rows_aux today db employee_id r :
  In r (rows (get_attendance_dataframe today db employee_id)) <->
  exists a entry,
    In a (attendance db) /\
    Attendance.entry_time a = Some entry /\
    today - 180 <= Attendance.date a /\
    (forall e, employee_id = Some e -> e <> "" -> Attendance.employee_id a = e) /\
    r = to_record a entry.
Proof.
  rewrite dataframe_rows, in_flat_map. split.
  - intros (a & Ha & Hr). apply queried_iff in Ha. destruct Ha as (Hin & Hd & He).
    unfold records_of in Hr. destruct (Attendance.entry_time a) as [entry|] eqn:T.
    + destruct Hr as [<- | []]. exists a, entry. auto.
    + destruct Hr.
  - intros (a & entry & Hin & T & Hd & He & ->). exists a. split.
    + apply queried_iff. auto.
    + unfold records_of. rewrite T. now left.
Qed.

End ExtractorFacts.

Module ExtractorTheorems.

Import Frame Intelligence Analytics ExtractorFacts.

(** C6, as amended.  The extractor returns exactly the raw facts that have an
    entry timestamp and are dated on or after today minus 180 days, of the
    given employee when a non-empty identifier is supplied and of all
    employees otherwise, one row per fact and in the order of the store; the
    duration of a row is the fact's, and 0 when the fact has none. *)
Theorem extractor_rows :
  forall (today : Calendar.date) (db : DB) (employee_id : option string),
    let df := get_attendance_dataframe today db employee_id in
    (forall r,
        In r (rows df) <->
        exists a entry,
          In a (attendance db) /\
          Attendance.entry_time a = Some entry /\
          today - 180 <= Attendance.date a /\
          (forall e, employee_id = Some e -> e <> "" -> Attendance.employee_id a = e) /\
          r = to_record a entry) /\
    len df =
      count_if (fun a => match Attendance.entry_time a with
                         | Some _ => true
                         | None => false
                         end)
               (queried today db employee_id) /\
    (forall a entry,
        Attendance.duration a = None ->
        Frame.duration (to_record a entry) = Flt.fzero) /\
    (forall a entry x,
        Attendance.duration a = Some x -> PrimFloat.eqb x Flt.fzero = false ->
        Frame.duration (to_record a entry) = x).
Proof.
  intros today db employee_id df. unfold df.
  split; [|split; [|split]].
  - intro r. apply extractor_rows_aux.
  - unfold len. rewrite dataframe_rows. unfold count_if. f_equal.
    induction (queried today db employee_id) as [|a l IH]; [reflexivity|].
    simpl. rewrite length_app, IH. unfold records_of.
    now destruct (Attendance.entry_time a).
  - intros a entry H. unfold to_record. simpl. now rewrite H.
  - intros a entry x H Hx. unfold to_record. simpl. now rewrite H, Hx.
Qed.

(** C6, the claim as stated fails: with [today] the sample Monday, the
    extractor returns a row dated the day after, outside the window that
    ends today. *)
Lemma extractor_returns_future_row :
  exists r,
    In r (rows (get_attendance_dataframe Samples.monday Samples.ahead None)) /\
    Samples.monday < Frame.date r /\
    ~ in_trailing_window Samples.monday 180 (Frame.date r).
Proof.
  eexists. split; [left; reflexivity|]. simpl. unfold in_trailing_window.
  unfold Samples.monday. split; lia.
Qed.

(** C10.  The empty string as employee identifier behaves as no identifier:
    the extractor returns the same table as for [None], which on the sample
    store holds the rows of two employees, while a non-empty identifier
    restricts the rows to that employee; and the metrics engine, given the
    empty string, reports what it reports without an identifier, with 0 leave
    days whatever store is supplied. *)
Theorem empty_identifier_is_no_identifier :
  forall (today : Calendar.date) (db : DB),
    get_attendance_dataframe today db (Some "") = get_attendance_dataframe today db None /\
    (forall e r, e <> "" ->
                 In r (rows (get_attendance_dataframe today db (Some e))) ->
                 Frame.employee_id r = e) /\
    map Frame.employee_id
        (rows (get_attendance_dataframe Samples.monday Samples.office (Some "")))
    = ["E1"; "E4"] /\
    (forall df odb,
        compute_behavior_metrics df odb (Some "") = compute_behavior_metrics df odb None) /\
    (forall df db' m,
        compute_behavior_metrics df (Some db') (Some "") = Ok m -> leave_days m = 0).
Proof.
  intros today db. split; [reflexivity|]. split; [|split; [reflexivity|split]].
  - intros e r Hne Hr.
    apply (proj1 (extractor_rows_aux today db (Some e) r)) in Hr.
    destruct Hr as (a & entry & _ & _ & _ & He & ->).
    simpl. now apply He.
  - intros df odb. unfold compute_behavior_metrics, count_leave_days. simpl.
    now destruct odb.
  - intros df db' m H.
    unfold compute_behavior_metrics in H.
    destruct (Frame.empty df); [now injection H as <-|].
    destruct (has_column "entry_time" df); simpl in H; [|now injection H as <-].
    destruct (column "entry_time" Frame.entry_time df); simpl in H; [|discriminate].
    destruct (column "status" Frame.status df); simpl in H; [|discriminate].
    destruct (column "duration" Frame.duration df); simpl in H; [|discriminate].
    now injection H as <-.
Qed.

End ExtractorTheorems.

(* ================================================================= *)
(** ** Absenteeism risk *)

Module RiskTheorems.

Import Frame Intelligence Analytics ExtractorFacts.

Lemma tier_spec risk_score :
  (20 <= risk_score -> tier risk_score = "high") /\
  (10 <= risk_score < 20 -> tier risk_score = "medium") /\
  (risk_score < 10 -> tier risk_score = "low").
Proof.
  unfold tier.
  destruct (Z.geb_spec risk_score 20); destruct (Z.geb_spec risk_score 10);
    repeat split; intros; try reflexivity; lia.
Qed.

Lemma recent_absents_windowed today db e :
  (forall a, In a (attendance db) -> Attendance.date a <= today) ->
  recent_absents today db e = absences_in_trailing_90 today db e.
Proof.
  intro H. unfold recent_absents, absences_in_trailing_90, count_if.
  do 2 f_equal. apply filter_ext_in. intros a Ha.
  specialize (H a Ha). apply Z.leb_le in H. rewrite H, andb_true_r.
  f_equal. rewrite Z.geb_leb. reflexivity.
Qed.

(** C8, as amended.  For every employee identifier the predictor returns
    twice the number of raw ABSENT facts of the employee dated on or after
    today minus 90 days, plus 10 exactly when the score the metrics engine
    computes on the extractor's table for that identifier is below 70; the
    risk is high from 20, medium from 10 and low below; 2 such absences with
    a score of 65 give 14 and medium; and the count is the count within the
    trailing 90 days when no fact of the store is dated after today. *)
Theorem risk_score_formula :
  forall (today : Calendar.date) (db : DB) (employee_id : string),
    exists m,
      compute_behavior_metrics (get_attendance_dataframe today db (Some employee_id))
                               (Some db) (Some employee_id) = Ok m /\
      let absences :=
        count_if (fun a => String.eqb (Attendance.employee_id a) employee_id
                           && String.eqb (Attendance.status a) "ABSENT"
                           && (today - 90 <=? Attendance.date a))%bool
                 (attendance db) in
      let risk_score := 2 * absences + (if attendance_score m <? 70 then 10 else 0) in
      predict_absenteeism_risk today db employee_id
      = Ok (mk_risk employee_id (tier risk_score) risk_score) /\
      (20 <= risk_score -> tier risk_score = "high") /\
      (10 <= risk_score < 20 -> tier risk_score = "medium") /\
      (risk_score < 10 -> tier risk_score = "low") /\
      (absences = 2 -> attendance_score m = 65 ->
       predict_absenteeism_risk today db employee_id
       = Ok (mk_risk employee_id "medium" 14)) /\
      ((forall a, In a (attendance db) -> Attendance.date a <= today) ->
       absences = absences_in_trailing_90 today db employee_id).
Proof.
  intros today db employee_id.
  destruct (metrics_on_dataframe today db (Some employee_id) (Some db) (Some employee_id))
    as [m Hm].
  exists m. split; [exact Hm|]. cbv zeta.
  assert (Hcount :
            count_if (fun a => String.eqb (Attendance.employee_id a) employee_id
                               && String.eqb (Attendance.status a) "ABSENT"
                               && (today - 90 <=? Attendance.date a))%bool
                     (attendance db)
            = recent_absents today db employee_id).
  { unfold recent_absents, count_if. do 2 f_equal. apply filter_ext. intro a.
    now rewrite Z.geb_leb. }
  rewrite Hcount.
  assert (Hp : predict_absenteeism_risk today db employee_id
               = Ok (mk_risk employee_id
                       (tier (2 * recent_absents today db employee_id
                              + (if attendance_score m <? 70 then 10 else 0)))
                       (2 * recent_absents today db employee_id
                        + (if attendance_score m <? 70 then 10 else 0)))).
  { unfold predict_absenteeism_risk. rewrite Hm. unfold Py.bind, tier.
    replace (recent_absents today db employee_id * 2)
      with (2 * recent_absents today db employee_id) by lia.
    destruct (attendance_score m <? 70); rewrite ?Z.add_0_r; reflexivity. }
  split; [exact Hp|].
  destruct (tier_spec (2 * recent_absents today db employee_id
                       + (if attendance_score m <? 70 then 10 else 0)))
    as (Hh & Hmed & Hl).
  split; [exact Hh|]. split; [exact Hmed|]. split; [exact Hl|].
  split.
  - intros H2 H65. rewrite Hp, H2, H65. reflexivity.
  - apply recent_absents_windowed.
Qed.

(** On the sample store Ann has 2 recent absences and a score of 65. *)
Lemma risk_score_formula_witness :
  predict_absenteeism_risk Samples.monday Samples.office "E1"
  = Ok (mk_risk "E1" "medium" 14).
Proof.
  destruct (risk_score_formula Samples.monday Samples.office "E1")
    as (m & Hm & _ & _ & _ & _ & H & _).
  apply H.
  - reflexivity.
  - vm_compute in Hm. injection Hm as <-. reflexivity.
Defined.

(** C8, the claim as stated fails: with [today] the sample Monday, Ann has no
    ABSENT fact within the trailing 90 days and the engine's score is 100,
    so the stated formula gives 0; the predictor counts the fact dated the
    day after and returns 2. *)
Lemma risk_counts_future_absence :
  absences_in_trailing_90 Samples.monday Samples.ahead "E1" = 0 /\
  (exists m,
      compute_behavior_metrics
        (get_attendance_dataframe Samples.monday Samples.ahead (Some "E1"))
        (Some Samples.ahead) (Some "E1") = Ok m /\
      attendance_score m = 100) /\
  predict_absenteeism_risk Samples.monday Samples.ahead "E1"
  = Ok (mk_risk "E1" "low" 2).
Proof.
  split; [reflexivity|]. split; [|vm_compute; reflexivity].
  eexists. split; [vm_compute; reflexivity|]. reflexivity.
Qed.

End RiskTheorems.

(* ================================================================= *)
(** ** Anomaly detection *)

Module SumFacts.

(** The length of the block is fuel enough: with that much, the value of
    the pairwise sum does not depend on the fuel. *)
Lemma pairwise_sum_fuel : forall (f1 f2 : nat) (l : list float),
  (List.length l <= f1)%nat -> (List.length l <= f2)%nat ->
  Flt.pairwise_sum f1 l = Flt.pairwise_sum f2 l.
Proof.
  induction f1 as [|f1 IH]; intros f2 l H1 H2.
  - destruct l; [|simpl in H1; lia]. now destruct f2.
  - destruct f2 as [|f2].
    + destruct l; [reflexivity|simpl in H2; lia].
    + cbn [Flt.pairwise_sum].
      destruct (Nat.ltb_spec (List.length l) 8) as [|H8]; [reflexivity|].
      destruct (Nat.leb_spec (List.length l) 128) as [|H128]; [reflexivity|].
      pose proof (Nat.div_mod_eq (List.length l) 2) as Hdiv.
      pose proof (Nat.mod_upper_bound (List.length l) 2 ltac:(lia)) as Hmod.
      pose proof (Nat.mod_upper_bound (List.length l / 2) 8 ltac:(lia)) as Hmod8.
      f_equal; apply IH; rewrite ?length_firstn, ?length_skipn; lia.
Qed.

End SumFacts.

Module AnomalyFacts.

Import Frame Intelligence Analytics.

Lemma select_map {A : Type} (f : A -> bool) (cell : Row -> A) (l : list Row) :
  map fst (filter snd (combine l (map f (map cell l)))) =
  filter (fun r => f (cell r)) l.
Proof.
  induction l as [|r l IH]; [reflexivity|].
  simpl. destruct (f (cell r)); simpl; now rewrite IH.
Qed.

Lemma for_each_ok {A B : Type} (f : A -> result B) (g : A -> B) (l : list A) :
  (forall x, In x l -> f x = Ok (g x)) ->
  for_each f l = Ok (map g l).
Proof.
  induction l as [|x l IH]; intro H; [reflexivity|].
  simpl. rewrite (H x (or_introl eq_refl)). simpl.
  rewrite IH; [reflexivity|]. intros y Hy. apply H. now right.
Qed.

Lemma has_column_set_z c df series :
  has_column c df = true -> has_column c (set_z df series) = true.
Proof.
  intro H. unfold set_z. unfold has_column at 1. cbn [columns].
  destruct (has_column "z" df); [exact H|].
  rewrite existsb_app. unfold has_column in H. now rewrite H.
Qed.

(** The early return of line 144. *)
Lemma detect_guarded df :
  Frame.empty df = true \/ has_column "duration" df = false \/ len df < 10 ->
  detect_attendance_anomalies df = (df, Ok []).
Proof.
  unfold detect_attendance_anomalies. intros [H | [H | H]].
  - now rewrite H.
  - rewrite H. simpl. now rewrite orb_true_r.
  - apply Z.ltb_lt in H. rewrite H. now rewrite orb_true_r.
Qed.

(** Past the guards. *)
Lemma detect_computed df :
  Frame.empty df = false -> has_column "duration" df = true -> 10 <= len df ->
  let duration := map Frame.duration (rows df) in
  let sigma := Flt.std duration in
  let unusual := fun r =>
    (2 <? abs ((Frame.duration r - Flt.mean duration) / sigma))%float in
  ((0 <? sigma)%float = false -> detect_attendance_anomalies df = (df, Ok [])) /\
  ((0 <? sigma)%float = true ->
   fst (detect_attendance_anomalies df) = set_z df (z_scores duration) /\
   (has_column "employee_id" df = true -> has_column "date" df = true ->
    snd (detect_attendance_anomalies df) = Ok (map anomaly_of (filter unusual (rows df))))).
Proof.
  intros He Hd Hn duration sigma unusual.
  unfold detect_attendance_anomalies. rewrite He, Hd.
  assert (Hlt : (len df <? 10) = false) by (apply Z.ltb_ge; exact Hn).
  rewrite Hlt. simpl orb. cbv iota. fold duration. fold sigma.
  split; intro Hs; rewrite Hs; [reflexivity|].
  split; [reflexivity|]. intros Hc1 Hc2. simpl snd.
  unfold select. simpl z. simpl rows. unfold z_scores.
  rewrite map_map.
  change (map (fun x => (2 <? abs ((x - Flt.mean duration) / Flt.std duration))%float)
              duration)
    with (map (fun x => (2 <? abs ((x - Flt.mean duration) / Flt.std duration))%float)
              (map Frame.duration (rows df))).
  rewrite select_map. fold sigma.
  apply for_each_ok. intros r _. unfold item.
  rewrite (has_column_set_z _ _ _ Hc1), (has_column_set_z _ _ _ Hc2).
  reflexivity.
Qed.

Lemma valid_cells v :
  forallb (fun x => negb (Flt.is_nan x)) v = true ->
  filter (fun x => negb (Flt.is_nan x)) v = v /\ Flt.fill0 v = v.
Proof.
  induction v as [|x v IH]; [now split|].
  cbn [forallb filter]. intro H. apply andb_true_iff in H. destruct H as [Hx Hv].
  destruct (IH Hv) as [Hf H0]. rewrite Hx, Hf. split; [reflexivity|].
  unfold Flt.fill0 in *. cbn [map].
  apply negb_true_iff in Hx. now rewrite Hx, H0.
Qed.

Lemma std_formula v :
  forallb (fun x => negb (Flt.is_nan x)) v = true ->
  (2 <= List.length v)%nat ->
  let avg := (Flt.np_sum v / Flt.count_f v)%float in
  Flt.std v =
  PrimFloat.sqrt (Flt.np_sum (map (fun x => ((avg - x) * (avg - x))%float) v)
                  / Flt.of_Z (Z.of_nat (List.length v) - 1))%float.
Proof.
  intros Hnan Hlen avg. unfold Flt.std, Flt.count_valid.
  destruct (valid_cells v Hnan) as [Hf H0]. rewrite Hf, H0.
  destruct (Z.leb_spec (Z.of_nat (List.length v) - 1) 0); [lia|].
  do 3 f_equal. apply map_ext_in. intros x Hx.
  rewrite forallb_forall in Hnan. specialize (Hnan x Hx).
  apply negb_true_iff in Hnan. now rewrite Hnan.
Qed.

End AnomalyFacts.


Module OutlierFacts.

Import Frame Intelligence Analytics AnomalyFacts.

Lemma only_outlier_beyond_all k : (k <= 9)%nat -> only_outlier_beyond k = true.
Proof.
  intro H.
  assert (Hall : forallb only_outlier_beyond (seq 0 10) = true)
    by (vm_compute; reflexivity).
  rewrite forallb_forall in Hall. apply Hall. apply in_seq. lia.
Qed.

Lemma map_constant {A B : Type} (f : A -> B) (c : B) (l : list A) :
  Forall (fun x => f x = c) l -> map f l = repeat c (List.length l).
Proof.
  induction 1 as [|x l Hx _ IH]; [reflexivity|]. simpl. now rewrite Hx, IH.
Qed.

Lemma filter_none {A : Type} (p : A -> bool) (l : list A) :
  Forall (fun x => p x = false) l -> filter p l = [].
Proof.
  induction 1 as [|x l Hx _ IH]; [reflexivity|]. simpl. now rewrite Hx.
Qed.

(** A table of nine rows of 8.0 hours and one of 20.0: the detector flags
    the one. *)
Lemma ten_rows_outlier df pre post o :
  rows df = pre ++ o :: post ->
  (List.length pre + List.length post = 9)%nat ->
  Forall (fun r => Frame.duration r = 8%float) (pre ++ post) ->
  Frame.duration o = 20%float ->
  has_column "duration" df = true ->
  has_column "employee_id" df = true ->
  has_column "date" df = true ->
  snd (detect_attendance_anomalies df) = Ok [anomaly_of o].
Proof.
  intros Hrows Hlen Hall Ho Hd He Hdt.
  apply Forall_app in Hall. destruct Hall as [Hpre Hpost].
  assert (Hdur : map Frame.duration (rows df) = nine_and_one (List.length pre)).
  { rewrite Hrows, map_app. simpl. rewrite Ho.
    rewrite (map_constant _ _ _ Hpre), (map_constant _ _ _ Hpost).
    unfold nine_and_one. do 3 f_equal. lia. }
  assert (Hne : Frame.empty df = false).
  { unfold Frame.empty. rewrite Hrows.
    unfold has_column in Hd. destruct (columns df); [discriminate|].
    now destruct pre. }
  assert (Hn : 10 <= len df).
  { unfold len. rewrite Hrows, length_app. simpl. lia. }
  pose proof (only_outlier_beyond_all (List.length pre) ltac:(lia)) as Hk.
  unfold only_outlier_beyond in Hk.
  apply andb_true_iff in Hk. destruct Hk as [Hk H20].
  apply andb_true_iff in Hk. destruct Hk as [Hpos H8].
  apply negb_true_iff in H8.
  destruct (detect_computed df Hne Hd Hn) as [_ Hc].
  rewrite Hdur in Hc. destruct (Hc Hpos) as [_ Hout].
  rewrite (Hout He Hdt), Hrows, filter_app. simpl filter.
  fold (beyond (nine_and_one (List.length pre)) (Frame.duration o)).
  rewrite Ho, H20.
  rewrite !filter_none; [reflexivity| |].
  - eapply Forall_impl; [|exact Hpost]. intros r Hr. cbv beta.
    fold (beyond (nine_and_one (List.length pre)) (Frame.duration r)).
    now rewrite Hr.
  - eapply Forall_impl; [|exact Hpre]. intros r Hr. cbv beta.
    fold (beyond (nine_and_one (List.length pre)) (Frame.duration r)).
    now rewrite Hr.
Qed.

End OutlierFacts.
Module AnomalyTheorems.

Import Frame Intelligence Analytics AnomalyFacts.

(** C5, as amended.  The detector returns the empty list for a table that is
    empty, has no duration field or has fewer than 10 rows; otherwise it
    takes the sample standard deviation of the durations (denominator n - 1,
    sums as pandas and numpy take them) and, when it is greater than 0, on a
    table that has the employee_id and date fields it flags exactly the rows
    whose z-score against it exceeds 2 in absolute value, in table order,
    each with the employee id, the date as a string and the reason citing
    the duration with two decimals; it emits nothing when the deviation is
    not greater than 0, in particular when it is 0; and on a 10-row table
    with the duration, employee_id and date fields, nine durations of 8.0
    and one of 20.0, wherever it stands, it flags exactly the outlier. *)
Theorem anomalies_by_sample_deviation :
  forall (df : DataFrame),
    let duration := map Frame.duration (rows df) in
    let sigma := Flt.std duration in
    let unusual := fun r =>
      (2 <? abs ((Frame.duration r - Flt.mean duration) / sigma))%float in
    (Frame.empty df = true \/ has_column "duration" df = false \/ len df < 10 ->
     snd (detect_attendance_anomalies df) = Ok []) /\
    (Frame.empty df = false -> has_column "duration" df = true -> 10 <= len df ->
     ((0 <? sigma)%float = true ->
      has_column "employee_id" df = true -> has_column "date" df = true ->
      snd (detect_attendance_anomalies df)
      = Ok (map (fun r => mk_anomaly
                            (Frame.employee_id r)
                            (isoformat (Frame.date r))
                            ("Unusual work duration ("
                               ++ Flt.format_2f (Frame.duration r) ++ "h)")%string)
                (filter unusual (rows df)))) /\
     ((0 <? sigma)%float = false -> snd (detect_attendance_anomalies df) = Ok []) /\
     (sigma = 0%float -> snd (detect_attendance_anomalies df) = Ok [])) /\
    (forallb (fun x => negb (Flt.is_nan x)) duration = true ->
     (2 <= List.length duration)%nat ->
     sigma =
     PrimFloat.sqrt
       (Flt.np_sum (map (fun x => ((Flt.np_sum duration / Flt.count_f duration - x)
                                   * (Flt.np_sum duration / Flt.count_f duration - x))%float)
                      duration)
        / Flt.of_Z (Z.of_nat (List.length duration) - 1))%float) /\
    (forall table pre post o,
        rows table = pre ++ o :: post ->
        (List.length pre + List.length post = 9)%nat ->
        Forall (fun r => Frame.duration r = 8%float) (pre ++ post) ->
        Frame.duration o = 20%float ->
        has_column "duration" table = true ->
        has_column "employee_id" table = true ->
        has_column "date" table = true ->
        snd (detect_attendance_anomalies table)
        = Ok [mk_anomaly (Frame.employee_id o) (isoformat (Frame.date o))
                         "Unusual work duration (20.00h)"]).
Proof.
  intros df duration sigma unusual.
  split; [|split; [|split]].
  - intro H. now rewrite (detect_guarded df H).
  - intros He Hd Hn.
    destruct (detect_computed df He Hd Hn) as [Hzero Hpos].
    fold duration in Hzero, Hpos. fold sigma in Hzero, Hpos.
    split; [|split].
    + intros Hs Hc1 Hc2. destruct (Hpos Hs) as [_ Hout].
      now rewrite (Hout Hc1 Hc2).
    + intro Hs. now rewrite (Hzero Hs).
    + intro Hs. rewrite Hzero; [reflexivity|]. now rewrite Hs.
  - intros Hnan Hlen. apply (std_formula duration Hnan Hlen).
  - intros table pre post o Hrows Hlen Hall Ho Hd He Hdt.
    rewrite (OutlierFacts.ten_rows_outlier table pre post o Hrows Hlen Hall Ho Hd He Hdt).
    unfold anomaly_of. now rewrite Ho.
Qed.

(** On a table with the fields the detector reads, and durations that
    deviate, the flagged rows are the rows of the table beyond the
    threshold. *)
Lemma anomalies_by_sample_deviation_witness :
  snd (detect_attendance_anomalies Samples.outlier_table)
  = Ok (map anomaly_of
            (filter (fun r =>
                       (2 <? abs ((Frame.duration r
                                   - Flt.mean (map Frame.duration (rows Samples.outlier_table)))
                                  / Flt.std (map Frame.duration (rows Samples.outlier_table))))%float)
                    (rows Samples.outlier_table))).
Proof.
  destruct (anomalies_by_sample_deviation Samples.outlier_table) as (_ & H & _).
  specialize (H eq_refl eq_refl ltac:(vm_compute; discriminate)).
  destruct H as (H & _).
  apply H; reflexivity.
Defined.

(** C5, the claim as stated fails: on the sample with durations 8.0 (eight
    times), 13.0 and 13.25 the population standard deviation is positive and
    the last row's z-score against it exceeds 2, yet the detector flags no
    row. *)
Lemma population_outlier_not_flagged :
  let df := Samples.two_long_days in
  let duration := map Frame.duration (rows df) in
  Frame.empty df = false /\ has_column "duration" df = true /\ len df = 10 /\
  (0 <? population_std duration)%float = true /\
  (exists r, In r (rows df) /\
             (2 <? abs (population_z duration (Frame.duration r)))%float = true) /\
  snd (detect_attendance_anomalies df) = Ok [].
Proof.
  cbv zeta. repeat split.
  exists (Samples.shift "E2" Samples.monday 11 13.25).
  split; [|reflexivity]. do 9 right. now left.
Qed.

(** C9.  On the 10-row sample the call leaves the caller's table with a
    label more, [z], and a z-score per row: the table is not what it was. *)
Theorem detector_writes_z_column :
  let df := Samples.outlier_table in
  let after := fst (detect_attendance_anomalies df) in
  has_column "z" df = false /\
  columns after = columns df ++ ["z"] /\
  List.length (z after) = 10%nat /\
  after <> df.
Proof.
  cbv zeta. split; [reflexivity|]. split; [reflexivity|]. split; [reflexivity|].
  intro H. apply (f_equal columns) in H. vm_compute in H. discriminate.
Qed.

End AnomalyTheorems.

(* ================================================================= *)
(** ** Department leave abuse *)

Module DictFacts.

Import Analytics.

Lemma Zsum_from l : forall acc, fold_left Z.add l acc = acc + Zsum l.
Proof.
  unfold Zsum. induction l as [|x l IH]; intro acc; simpl; [lia|].
  rewrite IH, (IH x). lia.
Qed.

Lemma Zsum_cons x l : Zsum (x :: l) = x + Zsum l.
Proof. unfold Zsum at 1. simpl. apply Zsum_from. Qed.

Lemma Zsum_app l1 l2 : Zsum (l1 ++ l2) = Zsum l1 + Zsum l2.
Proof.
  induction l1 as [|x l1 IH]; simpl; [reflexivity|].
  rewrite !Zsum_cons, IH. lia.
Qed.

Lemma Zsum_ones {A : Type} (l : list A) :
  Zsum (map (fun _ => 1) l) = Z.of_nat (List.length l).
Proof.
  induction l as [|x l IH]; [reflexivity|].
  simpl map. rewrite Zsum_cons, IH. simpl List.length. lia.
Qed.

Section WithValues.

Context {V : Type}.

Lemma get_set_same (d : Dict.t V) k v default :
  Dict.get (Dict.set d k v) k default = v.
Proof.
  induction d as [|[k' v'] d IH]; simpl.
  - now rewrite String.eqb_refl.
  - destruct (String.eqb k' k) eqn:E; simpl; rewrite E; [reflexivity | exact IH].
Qed.

Lemma get_set_other (d : Dict.t V) k k' v default :
  k' <> k -> Dict.get (Dict.set d k v) k' default = Dict.get d k' default.
Proof.
  intro Hne. induction d as [|[k0 v0] d IH]; simpl.
  - destruct (String.eqb k k') eqn:E; [|reflexivity].
    apply String.eqb_eq in E. congruence.
  - destruct (String.eqb k0 k) eqn:E; simpl.
    + apply String.eqb_eq in E. subst k0.
      destruct (String.eqb k k') eqn:E'; [|reflexivity].
      apply String.eqb_eq in E'. congruence.
    + now rewrite IH.
Qed.

Lemma keys_set (d : Dict.t V) k v k' :
  In k' (Dict.keys (Dict.set d k v)) <-> k' = k \/ In k' (Dict.keys d).
Proof.
  induction d as [|[k0 v0] d IH]; simpl.
  - intuition.
  - destruct (String.eqb k0 k) eqn:E; simpl.
    + apply String.eqb_eq in E. subst k0. intuition.
    + rewrite IH. intuition.
Qed.

Lemma keys_set_nodup (d : Dict.t V) k v :
  NoDup (Dict.keys d) -> NoDup (Dict.keys (Dict.set d k v)).
Proof.
  induction d as [|[k0 v0] d IH]; simpl; intro H.
  - constructor; [intros [] | constructor].
  - destruct (String.eqb k0 k) eqn:E; simpl; [exact H|].
    apply NoDup_cons_iff in H. destruct H as [Hn Hd].
    constructor; [|now apply IH].
    intro Hin. apply (keys_set d k v k0) in Hin. destruct Hin as [-> | Hin].
    + now rewrite String.eqb_refl in E.
    + contradiction.
Qed.

Lemma get_absent (d : Dict.t V) k default :
  ~ In k (Dict.keys d) -> Dict.get d k default = default.
Proof.
  induction d as [|[k0 v0] d IH]; simpl; intro H; [reflexivity|].
  destruct (String.eqb k0 k) eqn:E.
  - apply String.eqb_eq in E. exfalso. auto.
  - apply IH. intro Hin. auto.
Qed.

Lemma get_present (d : Dict.t V) k a b :
  In k (Dict.keys d) -> Dict.get d k a = Dict.get d k b.
Proof.
  induction d as [|[k0 v0] d IH]; simpl; intro H; [destruct H|].
  destruct (String.eqb k0 k) eqn:E; [reflexivity|].
  apply IH. destruct H as [-> | H]; [|exact H].
  now rewrite String.eqb_refl in E.
Qed.

Lemma get_item (d : Dict.t V) k v default :
  NoDup (Dict.keys d) -> In (k, v) d -> Dict.get d k default = v.
Proof.
  induction d as [|[k0 v0] d IH]; simpl; intros Hnd Hin; [destruct Hin|].
  apply NoDup_cons_iff in Hnd. destruct Hnd as [Hn Hd].
  destruct Hin as [[= -> ->] | Hin].
  - now rewrite String.eqb_refl.
  - destruct (String.eqb k0 k) eqn:E; [|now apply IH].
    apply String.eqb_eq in E. subst k0. exfalso. apply Hn.
    change k with (fst (k, v)). now apply in_map.
Qed.

End WithValues.

Lemma values_set_add (d : Dict.t Z) k v :
  Zsum (Dict.values (Dict.set d k (Dict.get d k 0 + v))) = Zsum (Dict.values d) + v.
Proof.
  unfold Dict.values. induction d as [|[k0 v0] d IH]; simpl.
  - rewrite Zsum_cons. unfold Zsum. simpl. lia.
  - destruct (String.eqb k0 k) eqn:E; simpl; rewrite !Zsum_cons; [lia|].
    rewrite IH. lia.
Qed.

Section Tally.

Context {A : Type} (key : A -> string) (val : A -> Z).

Lemma tally_get l : forall d0 k,
  Dict.get (tally key val l d0) k 0 =
  Dict.get d0 k 0 + Zsum (map val (filter (fun x => String.eqb (key x) k) l)).
Proof.
  unfold tally. induction l as [|x l IH]; intros d0 k; simpl.
  - unfold Zsum. simpl. lia.
  - rewrite IH. destruct (String.eqb (key x) k) eqn:E.
    + apply String.eqb_eq in E. subst k. rewrite get_set_same.
      simpl map. rewrite Zsum_cons. lia.
    + rewrite get_set_other; [reflexivity|].
      intro H. subst k. now rewrite String.eqb_refl in E.
Qed.

Lemma tally_keys l : forall d0 k,
  In k (Dict.keys (tally key val l d0)) <->
  In k (Dict.keys d0) \/ exists x, In x l /\ key x = k.
Proof.
  unfold tally. induction l as [|x l IH]; intros d0 k; simpl.
  - split; [auto | intros [H | (x & [] & _)]; exact H].
  - rewrite IH, keys_set. split.
    + intros [[-> | H] | (y & Hy & Hk)]; eauto.
    + intros [H | (y & [-> | Hy] & Hk)]; eauto.
Qed.

Lemma tally_nodup l : forall d0,
  NoDup (Dict.keys d0) -> NoDup (Dict.keys (tally key val l d0)).
Proof.
  unfold tally. induction l as [|x l IH]; intros d0 H; simpl; [exact H|].
  apply IH. now apply keys_set_nodup.
Qed.

Lemma tally_total l : forall d0,
  Zsum (Dict.values (tally key val l d0)) = Zsum (Dict.values d0) + Zsum (map val l).
Proof.
  unfold tally. induction l as [|x l IH]; intro d0; simpl.
  - unfold Zsum at 3. simpl. lia.
  - rewrite IH, values_set_add, Zsum_cons. lia.
Qed.

End Tally.

End DictFacts.

Module AbuseFacts.

Import Intelligence Analytics DictFacts.

Lemma sum_by_department_tally leaves :
  sum_by_department leaves = tally dept_of span leaves [].
Proof.
  unfold sum_by_department, tally.
  generalize (@nil (string * Z)).
  induction leaves as [|[[dept start] end_] leaves IH]; intro d0; [reflexivity|].
  simpl. apply IH.
Qed.

Lemma count_by_department_tally db :
  count_by_department db = tally User.department (fun _ => 1) (active_users db) [].
Proof. reflexivity. Qed.

(** The departments of the joined rows are departments of active users. *)
Lemma joined_leaves_iff db dept :
  (exists row, In row (joined_leaves db) /\ dept_of row = dept) <->
  (exists l u,
      In l (leave_requests db) /\ LeaveRequest.status l = "Approved" /\
      In u (users db) /\ User.is_active u = true /\
      User.employee_id u = LeaveRequest.employee_id l /\
      User.department u = dept).
Proof.
  unfold joined_leaves. split.
  - intros (row & Hrow & Hd). apply in_flat_map in Hrow.
    destruct Hrow as (l & Hl & Hrow).
    destruct (String.eqb (LeaveRequest.status l) "Approved") eqn:S; [|destruct Hrow].
    apply in_map_iff in Hrow. destruct Hrow as (u & <- & Hu).
    apply filter_In in Hu. destruct Hu as [Hu He].
    apply filter_In in Hu. destruct Hu as [Hu Ha].
    exists l, u. apply String.eqb_eq in S, He. simpl in Hd. auto 10.
  - intros (l & u & Hl & S & Hu & Ha & He & Hd).
    exists (User.department u, LeaveRequest.start_date l, LeaveRequest.end_date l).
    split; [|exact Hd].
    apply in_flat_map. exists l. split; [exact Hl|].
    apply String.eqb_eq in S. rewrite S.
    apply in_map_iff. exists u. split; [reflexivity|].
    apply filter_In. split; [|now apply String.eqb_eq].
    apply filter_In. auto.
Qed.

Lemma headcount_tally db dept :
  Dict.get (count_by_department db) dept 0 = headcount db dept.
Proof.
  rewrite count_by_department_tally, tally_get. simpl.
  rewrite Zsum_ones. reflexivity.
Qed.

Lemma headcount_pos db dept :
  1 <= headcount db dept <-> In dept (Dict.keys (count_by_department db)).
Proof.
  rewrite count_by_department_tally, tally_keys. unfold headcount, count_if.
  split.
  - intro H.
    destruct (filter (fun u => String.eqb (User.department u) dept) (active_users db))
      as [|u l] eqn:F; [simpl in H; lia|].
    assert (Hu : In u (filter (fun u => String.eqb (User.department u) dept)
                              (active_users db))) by (rewrite F; now left).
    apply filter_In in Hu. destruct Hu as [Hu Hd]. apply String.eqb_eq in Hd.
    right. now exists u.
  - intros [[] | (u & Hu & Hd)].
    assert (Hin : In u (filter (fun u => String.eqb (User.department u) dept)
                               (active_users db))).
    { apply filter_In. split; [exact Hu|]. now apply String.eqb_eq. }
    destruct (filter (fun u => String.eqb (User.department u) dept) (active_users db));
      [destruct Hin | simpl; lia].
Qed.

(** [emp_counts.get(dept, 1)] is the headcount floored at 1. *)
Lemma emp_counts_get db dept :
  Dict.get (count_by_department db) dept 1 = Z.max 1 (headcount db dept).
Proof.
  destruct (in_dec string_dec dept (Dict.keys (count_by_department db))) as [Hin | Hout].
  - rewrite (get_present _ _ 1 0 Hin), headcount_tally.
    apply headcount_pos in Hin. lia.
  - rewrite (get_absent _ _ _ Hout).
    assert (H : ~ 1 <= headcount db dept) by (now rewrite headcount_pos).
    lia.
Qed.

Lemma total_emp db : Zsum (Dict.values (count_by_department db)) = total_active db.
Proof.
  rewrite count_by_department_tally, tally_total. simpl.
  rewrite Zsum_ones. unfold Zsum. simpl. reflexivity.
Qed.

Lemma total_leave db :
  Zsum (Dict.values (sum_by_department (joined_leaves db))) = total_leave_days db.
Proof.
  rewrite sum_by_department_tally, tally_total. unfold Zsum at 1. simpl. reflexivity.
Qed.

Lemma dept_leave_item db dept days :
  In (dept, days) (sum_by_department (joined_leaves db)) ->
  days = department_total db dept.
Proof.
  intro Hin. rewrite sum_by_department_tally in Hin.
  assert (Hnd : NoDup (Dict.keys (tally dept_of span (joined_leaves db) [])))
    by (apply tally_nodup; constructor).
  rewrite <- (get_item _ _ _ 0 Hnd Hin), tally_get. reflexivity.
Qed.

Lemma org_avg_ok db :
  (if Zsum (Dict.values (count_by_department db)) =? 0 then Ok Flt.fzero
   else truediv (Zsum (Dict.values (sum_by_department (joined_leaves db))))
                (Zsum (Dict.values (count_by_department db))))
  = Ok (organization_average db).
Proof.
  rewrite total_emp, total_leave. unfold organization_average, truediv.
  now destruct (total_active db =? 0).
Qed.

Lemma concat_flags {K : Type} (p : K -> bool) (f : K -> Abuse) (l : list K) :
  List.concat (map (fun k => if p k then [f k] else []) l) = map f (filter p l).
Proof.
  induction l as [|k l IH]; [reflexivity|].
  simpl. destruct (p k); simpl; now rewrite IH.
Qed.

(** The detector returns, and what it returns. *)
Lemma abuse_computed db :
  let departments := Dict.keys (sum_by_department (joined_leaves db)) in
  detect_department_leave_abuse db
  = Ok (map (report db) (filter (exceeds db) departments)).
Proof.
  intro departments. subst departments. unfold detect_department_leave_abuse.
  destruct (joined_leaves db) as [|row rest] eqn:J; [reflexivity|].
  rewrite <- J. rewrite org_avg_ok. simpl bind.
  rewrite (AnomalyFacts.for_each_ok _
             (fun item => if exceeds db (fst item) then [report db (fst item)] else [])).
  - simpl bind. f_equal. unfold Dict.keys.
    rewrite <- (concat_flags (exceeds db) (report db)), map_map. reflexivity.
  - intros [dept days] Hin. apply dept_leave_item in Hin. subst days.
    rewrite emp_counts_get. unfold truediv.
    destruct (Z.eqb_spec (Z.max 1 (headcount db dept)) 0) as [H0 | _]; [lia|].
    reflexivity.
Qed.

End AbuseFacts.

Module AbuseTheorems.

Import Intelligence Analytics DictFacts AbuseFacts.


End AbuseTheorems.

(* ================================================================= *)
(** ** The theorems on the sample data *)

Module OnSamples.

Import Compiler Reading Frame Intelligence Analytics.

(** Bob is on approved leave on a Monday that is also an office holiday: the
    compiled row says LEAVE. *)
Lemma resolver_precedence_witness :
  In Samples.bob (active_users Samples.office) /\
  rows_for (attendance_daily Samples.office) "E2" Samples.monday = 0%nat /\
  exists status check_in,
    In (AttendanceDaily.mk "E2" Samples.monday status check_in)
       (attendance_daily
          (compile_daily_attendance true Samples.monday Samples.office None)) /\
    status = "LEAVE" /\ check_in = None.
Proof.
  assert (Hu : In Samples.bob (active_users Samples.office))
    by (right; left; reflexivity).
  split; [exact Hu|]. split; [reflexivity|].
  destruct (CompilerTheorems.resolver_precedence
              true Samples.monday Samples.office None Samples.bob Hu eq_refl)
    as (status & check_in & Hin & _ & Hprec & _).
  exists status, check_in. split; [exact Hin|].
  destruct Hprec as [Hleave _]. apply Hleave.
  exists (LeaveRequest.mk "E2" (Samples.monday - 1) (Samples.monday + 1) "Approved").
  split; [left; reflexivity|]. split; [reflexivity|]. split; [reflexivity|].
  simpl. unfold Samples.monday. lia.
Defined.

Lemma sample_ids_distinct :
  NoDup (map User.employee_id (active_users Samples.office)).
Proof. repeat constructor; simpl; intuition discriminate. Qed.

(** Three runs over the sample store leave one row for Ann. *)
Lemma compile_idempotent_witness :
  rows_for (attendance_daily (runs false Samples.monday 3 Samples.office None))
           "E1" Samples.monday = 1%nat.
Proof.
  destruct (IdempotenceTheorems.compile_idempotent
              false Samples.monday Samples.office None) as (_ & _ & _ & _ & H).
  apply (H (fun e => Nat.le_0_l 1) (or_intror sample_ids_distinct) 2%nat Samples.ann).
  left. reflexivity.
Defined.

(** The 10-row sample has one late arrival and no absence: the score is 98. *)
Lemma attendance_score_formula_witness :
  exists m,
    compute_behavior_metrics Samples.outlier_table None None = Ok m /\
    attendance_score m = 98.
Proof.
  destruct (MetricsTheorems.attendance_score_formula
              Samples.outlier_table None None eq_refl eq_refl eq_refl eq_refl)
    as (m & Hm & Hscore & _).
  exists m. split; [exact Hm|].
  rewrite Hscore. vm_compute in Hm. injection Hm as <-. reflexivity.
Defined.

(** On the sample store Engineering averages 19 leave days per employee
    against 9.5 for the organization. *)
Example abuse_on_sample :
  detect_department_leave_abuse Samples.office
  = Ok [mk_abuse "Engineering" 19 9.5].
Proof. vm_compute. reflexivity. Qed.

End OnSamples.

(* ================================================================= *)
(** * Further properties of the code *)

(** Case analysis on the outcome of a call. *)
Ltac outcome :=
  repeat match goal with
         | |- _ /\ _ => split
         | |- _ <-> _ => split
         | |- forall _, _ => intro
         | H : _ /\ _ |- _ => destruct H
         | H : _ \/ _ |- _ => destruct H
         | H : exists _, _ |- _ => destruct H
         | H : Raise _ = Raise _ |- _ => injection H as <-
         | H : Ok _ = Raise _ |- _ => discriminate H
         | H : Raise _ = Ok _ |- _ => discriminate H
         | H : true = false |- _ => discriminate H
         | H : false = true |- _ => discriminate H
         | H : KeyError _ = KeyError _ |- _ => discriminate H
         | H : ?x <> ?x |- _ => contradiction (H eq_refl)
         | H : _ :: _ = [] |- _ => discriminate H
         end;
  try reflexivity; try discriminate; eauto.

(** ** The metrics report *)

Module ReportTheorems.

Import Frame Intelligence MetricsFacts.

(** The engine returns the all-zero report (score 0, risk high, empty chart)
    for every table that is empty or has no [entry_time] label, whatever
    store and employee identifier come with it. *)
Theorem default_report_on_missing_input :
  forall (df : DataFrame) (db : option DB) (employee_id : option string),
    Frame.empty df = true \/ has_column "entry_time" df = false ->
    compute_behavior_metrics df db employee_id
    = Ok (mk_metrics 0%float 0%float 0 0 0 0 0%float 0%float 0 "stable" 0 "high"
                     (mk_chart [] [])).
Proof.
  intros df db employee_id H. now rewrite (metrics_default df db employee_id H).
Qed.

Lemma default_report_on_missing_input_witness :
  compute_behavior_metrics (mk_df ["employee_id"; "date"] (rows Samples.outlier_table) [])
                           (Some Samples.office) (Some "E1")
  = Ok default_metrics.
Proof.
  apply default_report_on_missing_input. right. reflexivity.
Defined.

(** The only exceptions of the engine are [KeyError('status')] and
    [KeyError('duration')]: the first exactly on a non-empty table that has
    [entry_time] but no [status], the second exactly on one that has
    [entry_time] and [status] but no [duration]; on every other table it
    returns a report. *)
Theorem metrics_outcome :
  forall (df : DataFrame) (db : option DB) (employee_id : option string),
    let run := compute_behavior_metrics df db employee_id in
    (run = Raise (KeyError "status") <->
     Frame.empty df = false /\ has_column "entry_time" df = true /\
     has_column "status" df = false) /\
    (run = Raise (KeyError "duration") <->
     Frame.empty df = false /\ has_column "entry_time" df = true /\
     has_column "status" df = true /\ has_column "duration" df = false) /\
    (forall e, run = Raise e -> e = KeyError "status" \/ e = KeyError "duration") /\
    ((exists m, run = Ok m) <->
     Frame.empty df = true \/ has_column "entry_time" df = false \/
     (has_column "status" df = true /\ has_column "duration" df = true)).
Proof.
  intros df db employee_id run. unfold run, compute_behavior_metrics.
  destruct (Frame.empty df) eqn:He.
  { outcome. }
  destruct (has_column "entry_time" df) eqn:Ht; simpl negb; cbv iota.
  2:{ outcome. }
  rewrite (column_ok _ _ _ Ht). simpl bind.
  destruct (has_column "status" df) eqn:Hs.
  2:{ rewrite (column_missing _ _ _ Hs). simpl bind. outcome. }
  rewrite (column_ok _ _ _ Hs). simpl bind.
  destruct (has_column "duration" df) eqn:Hd.
  2:{ rewrite (column_missing _ _ _ Hd). simpl bind. outcome. }
  rewrite (column_ok _ _ _ Hd). simpl bind. outcome.
Qed.

Lemma count_if_le_length {A : Type} (p : A -> bool) (l : list A) :
  count_if p l <= Z.of_nat (List.length l).
Proof.
  unfold count_if. apply inj_le. apply filter_length_le.
Qed.

Lemma count_if_disjoint {A : Type} (p q : A -> bool) (l : list A) :
  (forall x, p x = true -> q x = false) ->
  count_if p l + count_if q l <= Z.of_nat (List.length l).
Proof.
  intro H. unfold count_if. induction l as [|x l IH]; simpl; [lia|].
  destruct (p x) eqn:P.
  - rewrite (H x P). simpl List.length. lia.
  - destruct (q x); simpl List.length; lia.
Qed.

Lemma present_is_not_absent x :
  String.eqb "PRESENT" x = true -> String.eqb "ABSENT" x = false.
Proof. intro H. apply String.eqb_eq in H. now subst x. Qed.

(** Every report the engine returns is consistent: the risk level is the
    tier of the score (high below 60, medium below 80, low from 80), the
    score is 0 without a present day and never negative, the chart pairs as
    many values as labels and, when it is not empty, lists the present,
    absent, leave and late counts in that order, and the present and absent
    days together, like the late days, never exceed the days analysed. *)
Theorem report_consistent :
  forall (df : DataFrame) (db : option DB) (employee_id : option string) (m : Metrics),
    compute_behavior_metrics df db employee_id = Ok m ->
    (attendance_score m < 60 -> risk_level m = "high") /\
    (60 <= attendance_score m < 80 -> risk_level m = "medium") /\
    (80 <= attendance_score m -> risk_level m = "low") /\
    0 <= attendance_score m /\
    (present_days m = 0 -> attendance_score m = 0) /\
    List.length (labels (chart_breakdown m)) = List.length (values (chart_breakdown m)) /\
    (values (chart_breakdown m) = [] \/
     (labels (chart_breakdown m) = ["Present"; "Absent"; "Leave"; "Late"] /\
      values (chart_breakdown m)
      = [present_days m; absent_days m; leave_days m; late_arrival_days m])) /\
    0 <= present_days m /\ 0 <= absent_days m /\ 0 <= late_arrival_days m /\
    present_days m + absent_days m <= total_days_analyzed m /\
    late_arrival_days m <= total_days_analyzed m /\
    absence_trend m = "stable".
Proof.
  intros df db employee_id m H.
  assert (Hrisk : forall s,
             (s < 60 -> risk_of s = "high") /\
             (60 <= s < 80 -> risk_of s = "medium") /\
             (80 <= s -> risk_of s = "low")).
  { intro s. unfold risk_of.
    destruct (Z.ltb_spec s 60); destruct (Z.ltb_spec s 80);
      repeat split; intros; try reflexivity; lia. }
  unfold compute_behavior_metrics in H.
  destruct (Frame.empty df).
  { injection H as <-. simpl. repeat split; auto; try lia; try discriminate. }
  destruct (has_column "entry_time" df) eqn:Ht; simpl negb in H; cbv iota in H.
  2:{ injection H as <-. simpl. repeat split; auto; try lia; try discriminate. }
  rewrite (column_ok _ _ _ Ht) in H.
  destruct (has_column "status" df) eqn:Hs;
    [rewrite (column_ok _ _ _ Hs) in H
    | rewrite (column_missing _ _ _ Hs) in H; discriminate H].
  destruct (has_column "duration" df) eqn:Hd;
    [rewrite (column_ok _ _ _ Hd) in H
    | rewrite (column_missing _ _ _ Hd) in H; discriminate H].
  cbv beta iota delta [bind] in H.
  injection H as <-.
  cbn [attendance_score risk_level present_days absent_days late_arrival_days
       leave_days total_days_analyzed absence_trend chart_breakdown labels values].
  destruct (Hrisk (score_of (count_if (String.eqb "PRESENT") (map Frame.status (rows df)))
                            (count_if (String.eqb "ABSENT") (map Frame.status (rows df)))
                            (count_if (fun h => h >? 10)
                                      (map hour_of (map Frame.entry_time (rows df))))
                            (count_leave_days db employee_id)))
    as (Hh & Hmed & Hl).
  split; [exact Hh|]. split; [exact Hmed|]. split; [exact Hl|].
  split; [unfold score_of; lia|].
  split; [intro Hp; unfold score_of; rewrite Hp; reflexivity|].
  split; [reflexivity|]. split; [right; split; reflexivity|].
  split; [apply count_if_nonneg|]. split; [apply count_if_nonneg|].
  split; [apply count_if_nonneg|].
  split.
  - unfold len. rewrite <- (length_map Frame.status).
    apply count_if_disjoint. exact present_is_not_absent.
  - split; [|reflexivity].
    unfold len. rewrite <- (length_map Frame.entry_time), <- (length_map hour_of).
    apply count_if_le_length.
Qed.

(** The report on the 10-row sample: one late arrival, score 98, risk low. *)
Lemma report_consistent_witness :
  exists m,
    compute_behavior_metrics Samples.outlier_table None None = Ok m /\
    risk_level m = "low" /\
    values (chart_breakdown m) = [10; 0; 0; 1].
Proof.
  eexists. split; [vm_compute; reflexivity|].
  match goal with
  | |- risk_level ?m = _ /\ _ =>
      pose proof (report_consistent Samples.outlier_table None None m
                                    ltac:(vm_compute; reflexivity)) as H
  end.
  destruct H as (_ & _ & Hlow & _).
  split; [apply Hlow; vm_compute; discriminate | reflexivity].
Defined.

End ReportTheorems.

(* ================================================================= *)
(** ** The extractor and what consumes its table *)

Module PipelineTheorems.

Import Frame Intelligence Analytics ExtractorFacts AnomalyFacts.

Lemma records_of_employee a r :
  In r (records_of a) -> Frame.employee_id r = Attendance.employee_id a.
Proof.
  unfold records_of. destruct (Attendance.entry_time a); [|intros []].
  intros [<- | []]. reflexivity.
Qed.

Lemma filter_records_of e a :
  filter (fun r => String.eqb (Frame.employee_id r) e) (records_of a) =
  if String.eqb (Attendance.employee_id a) e then records_of a else [].
Proof.
  unfold records_of. destruct (Attendance.entry_time a); simpl.
  - now destruct (String.eqb (Attendance.employee_id a) e).
  - now destruct (String.eqb (Attendance.employee_id a) e).
Qed.

(** The table of one employee is the table of all employees restricted to
    the rows of that employee, in the same order. *)
Theorem employee_table_is_restriction :
  forall (today : Calendar.date) (db : DB) (e : string),
    e <> "" ->
    rows (get_attendance_dataframe today db (Some e)) =
    filter (fun r => String.eqb (Frame.employee_id r) e)
           (rows (get_attendance_dataframe today db None)).
Proof.
  intros today db e Hne. rewrite !dataframe_rows. unfold queried.
  apply str_truthy_iff in Hne. rewrite Hne.
  induction (attendance db) as [|a l IH]; [reflexivity|].
  simpl filter at 2 3. destruct (String.eqb (Attendance.employee_id a) e) eqn:E.
  - simpl filter at 1. destruct (Attendance.date a >=? today - 180).
    + simpl flat_map. rewrite filter_app, filter_records_of, E, IH. reflexivity.
    + exact IH.
  - destruct (Attendance.date a >=? today - 180).
    + simpl flat_map. rewrite filter_app, filter_records_of, E. exact IH.
    + exact IH.
Qed.

Lemma employee_table_is_restriction_witness :
  map Frame.employee_id
      (filter (fun r => String.eqb (Frame.employee_id r) "E4")
              (rows (get_attendance_dataframe Samples.monday Samples.office None)))
  = ["E4"].
Proof.
  rewrite <- (employee_table_is_restriction Samples.monday Samples.office "E4");
    [reflexivity | discriminate].
Defined.

Lemma detect_total df :
  has_column "employee_id" df = true -> has_column "date" df = true ->
  exists out, snd (detect_attendance_anomalies df) = Ok out /\
              forall a, In a out -> exists r, In r (rows df) /\ a = anomaly_of r.
Proof.
  intros He Hd.
  destruct (Frame.empty df) eqn:Hem.
  { exists []. rewrite detect_guarded by auto. split; [reflexivity | intros a []]. }
  destruct (has_column "duration" df) eqn:Hdu.
  2:{ exists []. rewrite detect_guarded by auto. split; [reflexivity | intros a []]. }
  destruct (Z.lt_ge_cases (len df) 10) as [Hn | Hn].
  { exists []. rewrite detect_guarded by auto. split; [reflexivity | intros a []]. }
  destruct (detect_computed df Hem Hdu Hn) as [Hzero Hpos].
  destruct (0 <? Flt.std (map Frame.duration (rows df)))%float eqn:S.
  - destruct (Hpos eq_refl) as [_ Hout]. rewrite (Hout He Hd).
    eexists. split; [reflexivity|].
    intros a Ha. apply in_map_iff in Ha. destruct Ha as (r & <- & Hr).
    apply filter_In in Hr. exists r. tauto.
  - exists []. rewrite (Hzero eq_refl). split; [reflexivity | intros a []].
Qed.

(** Neither the metrics engine nor the anomaly detector raises on a table
    the extractor built, whatever the store, the clock and the identifiers;
    and every anomaly reported on such a table is about one of its rows,
    that is about a raw fact with an entry timestamp dated on or after today
    minus 180 days. *)
Theorem history_analysis_never_raises :
  forall (today : Calendar.date) (db : DB) (employee_id : option string)
         (odb : option DB) (oe : option string),
    let df := get_attendance_dataframe today db employee_id in
    (exists m, compute_behavior_metrics df odb oe = Ok m) /\
    (exists out,
        snd (detect_attendance_anomalies df) = Ok out /\
        forall a, In a out ->
          exists fact entry,
            In fact (attendance db) /\
            Attendance.entry_time fact = Some entry /\
            today - 180 <= Attendance.date fact /\
            an_employee_id a = Attendance.employee_id fact /\
            an_date a = isoformat (Attendance.date fact)).
Proof.
  intros today db employee_id odb oe df. split.
  - apply metrics_on_dataframe.
  - destruct (dataframe_shape today db employee_id "employee_id") as [Hem | [_ He]].
    + exists []. fold df in Hem. rewrite detect_guarded by auto.
      split; [reflexivity | intros a []].
    + destruct (dataframe_shape today db employee_id "date") as [Hem | [_ Hd]].
      * exists []. fold df in Hem. rewrite detect_guarded by auto.
        split; [reflexivity | intros a []].
      * fold df in He, Hd. simpl in He, Hd.
        destruct (detect_total df He Hd) as (out & Hout & Hrows).
        exists out. split; [exact Hout|].
        intros a Ha. destruct (Hrows a Ha) as (r & Hr & ->).
        apply extractor_rows_aux in Hr.
        destruct Hr as (fact & entry & Hin & Ht & Hw & _ & ->).
        exists fact, entry. simpl. auto.
Qed.

End PipelineTheorems.

(* ================================================================= *)
(** ** Performer lists *)

Module PerformerTheorems.

Import Frame Intelligence Analytics ExtractorFacts Performers.

Lemma report_for_ok today db u :
  compute_behavior_metrics
    (get_attendance_dataframe today db (Some (User.employee_id u)))
    (Some db) (Some (User.employee_id u))
  = Ok (report_for today db u).
Proof.
  unfold report_for.
  destruct (metrics_on_dataframe today db (Some (User.employee_id u))
                                 (Some db) (Some (User.employee_id u))) as [m ->].
  reflexivity.
Qed.

Lemma rank_user_spec today db top low u :
  rank_user today db (top, low) u =
  Ok (top ++ (if is_top today db u then [record_for today db u] else []),
      low ++ (if is_low today db u then [record_for today db u] else [])).
Proof.
  unfold rank_user, is_top, is_low, record_for.
  rewrite report_for_ok. unfold Py.bind.
  destruct (present_days (report_for today db u) =? 0); simpl;
    [now rewrite !app_nil_r|].
  destruct (Z.geb_spec (attendance_score (report_for today db u)) 85) as [H | H];
    destruct (Z.ltb_spec (attendance_score (report_for today db u)) 60) as [H' | H'];
    rewrite ?app_nil_r; try reflexivity; lia.
Qed.

Lemma rank_all today db us : forall top low,
  fold_result (rank_user today db) us (top, low) =
  Ok (top ++ map (record_for today db) (filter (is_top today db) us),
      low ++ map (record_for today db) (filter (is_low today db) us)).
Proof.
  induction us as [|u us IH]; intros top low; cbn [fold_result filter map].
  - now rewrite !app_nil_r.
  - rewrite rank_user_spec. unfold Py.bind. rewrite IH.
    destruct (is_top today db u); destruct (is_low today db u); simpl;
      rewrite <- ?app_assoc; reflexivity.
Qed.

Lemma filter_disjoint_length {A : Type} (p q : A -> bool) (l : list A) :
  (forall x, p x = true -> q x = false) ->
  (List.length (filter p l) + List.length (filter q l) <= List.length l)%nat.
Proof.
  intro H. induction l as [|x l IH]; simpl; [lia|].
  destruct (p x) eqn:P.
  - rewrite (H x P). simpl. lia.
  - destruct (q x); simpl; lia.
Qed.

(** The ranker never raises.  Its first list holds, in the order of the
    active users, a record for each of them with a present day in the
    extractor's window and a score of at least 85, its second list one for
    each with a present day and a score below 60; nobody is in both, and the
    two lists together are no longer than the list of active users. *)
Theorem performer_lists :
  forall (today : Calendar.date) (db : DB),
    let report := report_for today db in
    let record := fun u =>
      mk_performer (User.name u) (User.employee_id u) (attendance_score (report u)) in
    let listed := fun u => negb (present_days (report u) =? 0) in
    let top := filter (fun u => listed u && (attendance_score (report u) >=? 85))%bool
                      (active_users db) in
    let low := filter (fun u => listed u && (attendance_score (report u) <? 60))%bool
                      (active_users db) in
    (forall u,
        compute_behavior_metrics
          (get_attendance_dataframe today db (Some (User.employee_id u)))
          (Some db) (Some (User.employee_id u)) = Ok (report u)) /\
    compute_performer_lists today db = Ok (map record top, map record low) /\
    (forall u, In u top -> ~ In u low) /\
    (List.length top + List.length low <= List.length (active_users db))%nat.
Proof.
  intros today db report record listed top low.
  split; [intro u; apply report_for_ok|].
  split; [unfold compute_performer_lists; rewrite rank_all; reflexivity|].
  split.
  - intros u Ht Hl. apply filter_In in Ht, Hl.
    destruct Ht as [_ Ht], Hl as [_ Hl].
    apply andb_true_iff in Ht, Hl. destruct Ht as [_ Ht], Hl as [_ Hl].
    apply Z.geb_le in Ht. apply Z.ltb_lt in Hl. lia.
  - apply filter_disjoint_length. intros u Hu.
    apply andb_true_iff in Hu. destruct Hu as [_ Hu]. apply Z.geb_le in Hu.
    apply andb_false_iff. right. apply Z.ltb_ge. lia.
Qed.

(** Whoever the ranker lists as a low performer is never predicted a low
    absenteeism risk: the predictor adds its 10 points, so the risk score is
    at least 10.  Whoever it lists as a top performer gets no such points:
    the risk score is twice the count of recent absences. *)
Theorem low_performers_are_at_risk :
  forall (today : Calendar.date) (db : DB) (top low : list Performer),
    compute_performer_lists today db = Ok (top, low) ->
    (forall p, In p low ->
       exists r,
         predict_absenteeism_risk today db (pf_employee_id p) = Ok r /\
         10 <= rk_risk_score r /\ rk_risk r <> "low" /\ pf_score p < 60) /\
    (forall p, In p top ->
       exists r,
         predict_absenteeism_risk today db (pf_employee_id p) = Ok r /\
         rk_risk_score r = 2 * recent_absents today db (pf_employee_id p) /\
         85 <= pf_score p).
Proof.
  intros today db top low H.
  unfold compute_performer_lists in H. rewrite rank_all in H.
  injection H as <- <-. cbn [app].
  assert (Hrec : forall today db e, 0 <= recent_absents today db e)
    by (intros; unfold recent_absents, count_if; lia).
  split; intros p Hp; apply in_map_iff in Hp; destruct Hp as (u & <- & Hu);
    apply filter_In in Hu; destruct Hu as [_ Hu];
    apply andb_true_iff in Hu; destruct Hu as [_ Hs];
    cbn [record_for pf_employee_id pf_score];
    unfold predict_absenteeism_risk; rewrite report_for_ok; unfold Py.bind.
  - apply Z.ltb_lt in Hs.
    assert (H70 : (attendance_score (report_for today db u) <? 70) = true)
      by (apply Z.ltb_lt; lia).
    rewrite H70. eexists. split; [reflexivity|]. cbn [rk_risk_score rk_risk].
    pose proof (Hrec today db (User.employee_id u)).
    split; [lia|]. split; [|exact Hs].
    destruct (Z.geb_spec (recent_absents today db (User.employee_id u) * 2 + 10) 20);
      [discriminate|].
    destruct (Z.geb_spec (recent_absents today db (User.employee_id u) * 2 + 10) 10);
      [discriminate | lia].
  - apply Z.geb_le in Hs.
    assert (H70 : (attendance_score (report_for today db u) <? 70) = false)
      by (apply Z.ltb_ge; lia).
    rewrite H70. eexists. split; [reflexivity|]. cbn [rk_risk_score].
    split; [lia | exact Hs].
Qed.

(** On the sample store Dee is the one top performer, and her risk score is
    twice her recent absences. *)
Lemma low_performers_are_at_risk_witness :
  exists r,
    predict_absenteeism_risk Samples.monday Samples.office "E4" = Ok r /\
    rk_risk_score r = 2 * recent_absents Samples.monday Samples.office "E4".
Proof.
  destruct (low_performers_are_at_risk
              Samples.monday Samples.office
              [mk_performer "Dee" "E4" 98] [] ltac:(vm_compute; reflexivity))
    as [_ Htop].
  destruct (Htop (mk_performer "Dee" "E4" 98) (or_introl eq_refl))
    as (r & Hr & Hscore & _).
  exists r. split; [exact Hr | exact Hscore].
Defined.

End PerformerTheorems.

(* ================================================================= *)
(** ** The anomaly detector's effect and errors *)

Module DetectorTheorems.

Import Frame Intelligence Analytics AnomalyFacts.

Lemma has_column_set_z_other c df series :
  c <> "z" -> has_column c (set_z df series) = has_column c df.
Proof.
  intro Hne. unfold set_z. unfold has_column at 1. cbn [columns].
  destruct (has_column "z" df); [reflexivity|].
  rewrite existsb_app. cbn [existsb].
  destruct (String.eqb_spec c "z") as [E | _]; [contradiction|].
  fold (has_column c df). now rewrite !orb_false_r.
Qed.

Lemma has_z_set_z df series : has_column "z" (set_z df series) = true.
Proof.
  unfold set_z. destruct (has_column "z" df) eqn:Z.
  - unfold has_column in *. exact Z.
  - unfold has_column. cbn [columns]. rewrite existsb_app. cbn [existsb].
    rewrite String.eqb_refl. now rewrite orb_true_r.
Qed.

Lemma set_z_again df series : set_z (set_z df series) series = set_z df series.
Proof.
  unfold set_z at 1. rewrite has_z_set_z. reflexivity.
Qed.

Lemma empty_set_z df series : Frame.empty df = false -> Frame.empty (set_z df series) = false.
Proof.
  unfold Frame.empty, set_z. cbn [rows columns].
  destruct (rows df); [discriminate|].
  destruct (columns df) eqn:C; [discriminate|].
  intros _. now destruct (has_column "z" df).
Qed.

(** What the detector does to the table it is given: it never touches the
    rows or any column but [z]; it leaves the table as it was when a guard
    fires or the deviation is not greater than 0, and writes the z-scores
    into column [z] otherwise; and a second call on the table it left
    changes nothing more and returns the same result. *)
Theorem detector_frame :
  forall (df : DataFrame),
    let after := fst (detect_attendance_anomalies df) in
    let duration := map Frame.duration (rows df) in
    rows after = rows df /\
    (forall c, c <> "z" -> has_column c after = has_column c df) /\
    (Frame.empty df = true \/ has_column "duration" df = false \/ len df < 10 \/
     (0 <? Flt.std duration)%float = false ->
     after = df) /\
    (Frame.empty df = false -> has_column "duration" df = true -> 10 <= len df ->
     (0 <? Flt.std duration)%float = true ->
     has_column "z" after = true /\
     z after = map (fun x => ((x - Flt.mean duration) / Flt.std duration)%float) duration) /\
    detect_attendance_anomalies after = (after, snd (detect_attendance_anomalies df)).
Proof.
  intros df after duration.
  assert (Hcases :
            (detect_attendance_anomalies df = (df, Ok []) /\
             (Frame.empty df = true \/ has_column "duration" df = false \/ len df < 10 \/
              (0 <? Flt.std duration)%float = false)) \/
            (Frame.empty df = false /\ has_column "duration" df = true /\ 10 <= len df /\
             (0 <? Flt.std duration)%float = true /\
             after = set_z df (z_scores duration))).
  { destruct (Frame.empty df) eqn:He; [left; split; [apply detect_guarded|]; auto|].
    destruct (has_column "duration" df) eqn:Hd;
      [|left; split; [apply detect_guarded|]; auto].
    destruct (Z.lt_ge_cases (len df) 10) as [Hn | Hn];
      [left; split; [apply detect_guarded|]; auto|].
    destruct (detect_computed df He Hd Hn) as [Hzero Hpos].
    destruct (0 <? Flt.std duration)%float eqn:S.
    - right. destruct (Hpos S) as [Hfst _]. auto.
    - left. split; [apply Hzero; exact S | auto]. }
  destruct Hcases as [[Hsame Hwhy] | (He & Hd & Hn & Hs & Hafter)].
  - assert (Ha : after = df) by (unfold after; now rewrite Hsame).
    rewrite Ha. split; [reflexivity|]. split; [reflexivity|]. split; [reflexivity|].
    split.
    + intros He Hd Hn Hs.
      destruct Hwhy as [H | [H | [H | H]]]; try congruence; lia.
    + now rewrite Hsame.
  - split; [now rewrite Hafter|].
    split; [intros c Hc; rewrite Hafter; now apply has_column_set_z_other|].
    split; [intros [H | [H | [H | H]]]; try congruence; lia|].
    split; [intros _ _ _ _; rewrite Hafter; split; [apply has_z_set_z | reflexivity]|].
    rewrite Hafter.
    assert (He' : Frame.empty (set_z df (z_scores duration)) = false)
      by now apply empty_set_z.
    assert (Hd' : has_column "duration" (set_z df (z_scores duration)) = true)
      by now apply has_column_set_z.
    unfold detect_attendance_anomalies.
    rewrite He, Hd, He', Hd'.
    assert (Hlt : (len df <? 10) = false) by (apply Z.ltb_ge; exact Hn).
    change (len (set_z df (z_scores duration))) with (len df).
    rewrite Hlt. cbn [orb negb rows set_z].
    fold duration. rewrite Hs.
    fold (set_z df (z_scores duration)).
    cbn [snd]. rewrite set_z_again. reflexivity.
Qed.

Lemma for_each_raise {A B : Type} (f : A -> result B) (e : exn) (x : A) (l : list A) :
  f x = Raise e -> for_each f (x :: l) = Raise e.
Proof. intro H. simpl. now rewrite H. Qed.

(** The detector raises nothing but [KeyError('employee_id')] and
    [KeyError('date')], and only while reporting a flagged row: the first
    exactly when some row is flagged and the table has no [employee_id]
    label, the second exactly when some row is flagged and the table has
    [employee_id] but no [date]; with both labels, or with no row flagged, it
    returns a list. *)
Theorem detector_errors :
  forall (df : DataFrame),
    let duration := map Frame.duration (rows df) in
    let flagged :=
      if (Frame.empty df || negb (has_column "duration" df) || (len df <? 10))%bool
      then []
      else if (0 <? Flt.std duration)%float
           then filter (fun r => (2 <? abs ((Frame.duration r - Flt.mean duration)
                                             / Flt.std duration))%float)
                       (rows df)
           else [] in
    let out := snd (detect_attendance_anomalies df) in
    (out = Raise (KeyError "employee_id") <->
     flagged <> [] /\ has_column "employee_id" df = false) /\
    (out = Raise (KeyError "date") <->
     flagged <> [] /\ has_column "employee_id" df = true /\ has_column "date" df = false) /\
    (forall e, out = Raise e -> e = KeyError "employee_id" \/ e = KeyError "date") /\
    (flagged = [] -> out = Ok []) /\
    (has_column "employee_id" df = true -> has_column "date" df = true ->
     out = Ok (map anomaly_of flagged)).
Proof.
  intros df duration flagged out.
  assert (Hout : out =
                 for_each (fun r =>
                             e <- item "employee_id" Frame.employee_id df r ;;
                             d <- item "date" Frame.date df r ;;
                             Ok (mk_anomaly e (isoformat d) (reason_of (Frame.duration r))))
                          flagged).
  { unfold out, flagged, detect_attendance_anomalies.
    destruct (Frame.empty df || negb (has_column "duration" df) || (len df <? 10))%bool;
      [reflexivity|].
    fold duration. destruct (0 <? Flt.std duration)%float; [|reflexivity].
    cbn [snd]. unfold select. cbn [z rows set_z]. unfold z_scores.
    rewrite map_map.
    change (map (fun x => (2 <? abs ((x - Flt.mean duration) / Flt.std duration))%float)
                duration)
      with (map (fun x => (2 <? abs ((x - Flt.mean duration) / Flt.std duration))%float)
                (map Frame.duration (rows df))).
    rewrite select_map. unfold item.
    rewrite !has_column_set_z_other by discriminate. reflexivity. }
  clearbody out flagged. subst out.
  destruct flagged as [|r rest]; [simpl; outcome|].
  destruct (has_column "employee_id" df) eqn:He.
  2:{ rewrite (for_each_raise _ (KeyError "employee_id"));
        [|unfold item; rewrite He; reflexivity].
      outcome. }
  destruct (has_column "date" df) eqn:Hd.
  2:{ rewrite (for_each_raise _ (KeyError "date"));
        [|unfold item; rewrite He, Hd; reflexivity].
      outcome. }
  rewrite (for_each_ok _ anomaly_of);
    [|intros x _; unfold item; rewrite He, Hd; reflexivity].
  outcome.
Qed.

(** Ten equal durations of 0.1: added pairwise they give a mean of exactly
    0.1, so the deviation is 0, nothing is flagged and the table is left as
    it was. *)
Lemma equal_durations_leave_table :
  Flt.std (map Frame.duration (rows Samples.ten_short_days)) = 0%float /\
  detect_attendance_anomalies Samples.ten_short_days = (Samples.ten_short_days, Ok []).
Proof. split; vm_compute; reflexivity. Qed.

End DetectorTheorems.

(* ================================================================= *)
(** ** The rows a compilation run writes *)

Module CompiledRowTheorems.

Import Compiler Reading CompilerFacts ResolverFacts.

Lemma resolve_shape db e d :
  let status := fst (resolve db e d) in
  let check_in := snd (resolve db e d) in
  In status ["LEAVE"; "HOLIDAY"; "WEEKEND"; "PRESENT"; "ABSENT"] /\
  (status = "PRESENT" <-> exists a, attendance_query db e d = Some a /\
                                    leave_query db e d = None /\
                                    holiday_query db d = None /\
                                    (weekday d >=? 5) = false) /\
  (forall t, check_in = Some t ->
     status = "PRESENT" /\
     exists a entry, attendance_query db e d = Some a /\
                     Attendance.entry_time a = Some entry /\ t = time_of entry).
Proof.
  unfold resolve.
  destruct (leave_query db e d).
  { cbn [fst snd]. split; [simpl; tauto|]. split; [|discriminate].
    split; [discriminate | intros (a & _ & H & _); discriminate]. }
  destruct (holiday_query db d).
  { cbn [fst snd]. split; [simpl; tauto|]. split; [|discriminate].
    split; [discriminate | intros (a & _ & _ & H & _); discriminate]. }
  destruct (weekday d >=? 5).
  { cbn [fst snd]. split; [simpl; tauto|]. split; [|discriminate].
    split; [discriminate | intros (a & _ & _ & _ & H); discriminate]. }
  destruct (attendance_query db e d) as [a|]; cbn [fst snd].
  - split; [simpl; tauto|]. split.
    + split; [intros _; exists a; repeat split | reflexivity].
    + intros t Ht. split; [reflexivity|].
      destruct (Attendance.entry_time a) as [entry|] eqn:T; [|discriminate].
      injection Ht as <-. exists a, entry.
      split; [reflexivity|]. split; [exact T | reflexivity].
  - split; [simpl; tauto|]. split; [|discriminate].
    split; [discriminate | intros (a & H & _); discriminate].
Qed.

(** A run keeps the derived rows of the store in place and appends rows
    that all are dated the target date, belong to an active user who had no
    row for the date, carry one of the five statuses, say PRESENT only when
    a raw fact for (employee, date) exists, and carry a check-in time only
    when they say PRESENT, namely the time of day of the first such fact's
    entry timestamp.  Rows of other dates are never written. *)
Theorem compiled_rows_wellformed :
  forall (autoflush : bool) (today : date) (db : DB) (target_date : option date),
    let d := target_of today target_date in
    let after := attendance_daily (compile_daily_attendance autoflush today db target_date) in
    exists added,
      after = attendance_daily db ++ added /\
      (forall r, In r added ->
         AttendanceDaily.date r = d /\
         (exists u, In u (users db) /\ User.is_active u = true /\
                    User.employee_id u = AttendanceDaily.employee_id r) /\
         rows_for (attendance_daily db) (AttendanceDaily.employee_id r) d = 0%nat /\
         In (AttendanceDaily.status r) ["LEAVE"; "HOLIDAY"; "WEEKEND"; "PRESENT"; "ABSENT"] /\
         (AttendanceDaily.status r = "PRESENT" ->
          exists a, raw_fact db (AttendanceDaily.employee_id r) d a) /\
         (forall t, AttendanceDaily.check_in_time r = Some t ->
            AttendanceDaily.status r = "PRESENT" /\
            exists a entry,
              attendance_query db (AttendanceDaily.employee_id r) d = Some a /\
              Attendance.entry_time a = Some entry /\ t = time_of entry)) /\
      filter (fun r => negb (AttendanceDaily.date r =? d)) after
      = filter (fun r => negb (AttendanceDaily.date r =? d)) (attendance_daily db).
Proof.
  intros autoflush today db target_date d after.
  destruct (loop_added autoflush d (active_users db) (mk_session db []))
    as (added & Hp & Hall).
  simpl in Hp, Hall. rewrite Forall_forall in Hall.
  exists added.
  assert (Hafter : after = attendance_daily db ++ added).
  { unfold after. rewrite IdempotenceTheorems.compiled_rows. fold d. now rewrite Hp. }
  split; [exact Hafter|]. split.
  - intros r Hr. destruct (Hall r Hr) as (u & Hu & -> & Hz).
    rewrite new_row_eq. cbn [AttendanceDaily.date AttendanceDaily.employee_id
                             AttendanceDaily.status AttendanceDaily.check_in_time].
    destruct (resolve_shape db (User.employee_id u) d) as (Hst & Hpres & Hci).
    apply filter_In in Hu. destruct Hu as [Hu Hact].
    split; [reflexivity|]. split; [exists u; auto|]. split; [exact Hz|].
    split; [exact Hst|]. split; [|exact Hci].
    intro Hp'. apply Hpres in Hp'. destruct Hp' as (a & Ha & _).
    exists a. now apply attendance_query_some.
  - rewrite Hafter, filter_app.
    assert (Hnone : filter (fun r => negb (AttendanceDaily.date r =? d)) added = []).
    { apply OutlierFacts.filter_none. apply Forall_forall. intros r Hr.
      destruct (Hall r Hr) as (u & _ & -> & _).
      destruct (new_row_key db (User.employee_id u) d) as [_ ->].
      now rewrite Z.eqb_refl. }
    rewrite Hnone. apply app_nil_r.
Qed.

End CompiledRowTheorems.

(* ================================================================= *)
(** ** The order of the users does not matter *)

Module OrderTheorems.

Import Compiler Reading CompilerFacts.

Lemma filter_permutation {A : Type} (p : A -> bool) (l l' : list A) :
  Permutation l l' -> Permutation (filter p l) (filter p l').
Proof.
  induction 1 as [|x l l' _ IH|x y l|l l' l'' _ IH1 _ IH2]; simpl.
  - constructor.
  - destruct (p x); [now constructor | exact IH].
  - destruct (p x); destruct (p y); try reflexivity; constructor.
  - now transitivity (filter p l').
Qed.

Section Loop.

Variable d : date.

(** Without flushing, a query sees the rows of the store only: the loop
    appends one row per user without a row in the store. *)
Lemma plain_loop us : forall s,
  pending (fold_left (compile_user false d) us s) =
  pending s ++
  map (fun u => new_row (store s) (User.employee_id u) d)
      (filter (fun u => Nat.eqb (rows_for (attendance_daily (store s))
                                          (User.employee_id u) d) 0)
              us).
Proof.
  induction us as [|u us IH]; intro s; simpl; [now rewrite app_nil_r|].
  rewrite IH, compile_user_store. unfold compile_user, visible.
  rewrite app_nil_r.
  destruct (daily_query (attendance_daily (store s)) (User.employee_id u) d) eqn:Q.
  - assert (H : rows_for (attendance_daily (store s)) (User.employee_id u) d <> 0%nat).
    { intro H. apply daily_query_none in H. congruence. }
    apply Nat.eqb_neq in H. now rewrite H.
  - apply daily_query_none in Q. rewrite Q. simpl. now rewrite <- app_assoc.
Qed.

(** With flushing, the rows the loop appends are for distinct employees,
    none of whom had a visible row. *)
Lemma flushing_loop us : forall s,
  exists added,
    pending (fold_left (compile_user true d) us s) = pending s ++ added /\
    NoDup (map AttendanceDaily.employee_id added) /\
    forall r, In r added ->
      rows_for (attendance_daily (store s) ++ pending s)
               (AttendanceDaily.employee_id r) d = 0%nat.
Proof.
  induction us as [|u us IH]; intro s; simpl.
  - exists []. rewrite app_nil_r. split; [reflexivity|]. split; [constructor | intros r []].
  - destruct (IH (compile_user true d s u)) as (added & Hp & Hnd & Hfresh).
    rewrite compile_user_store in Hfresh.
    unfold compile_user in Hp, Hfresh |- *. unfold visible in *.
    destruct (daily_query (attendance_daily (store s) ++ pending s)
                          (User.employee_id u) d) eqn:Q.
    + exists added. auto.
    + apply daily_query_none in Q. simpl in Hp, Hfresh.
      exists (new_row (store s) (User.employee_id u) d :: added).
      split; [rewrite Hp, <- app_assoc; reflexivity|].
      assert (Hlater : forall r, In r added ->
                 rows_for (attendance_daily (store s) ++ pending s)
                          (AttendanceDaily.employee_id r) d = 0%nat /\
                 AttendanceDaily.employee_id r <> User.employee_id u).
      { intros r Hr. specialize (Hfresh r Hr).
        rewrite app_assoc, rows_for_app in Hfresh.
        split; [lia|]. intro E. rewrite E in Hfresh.
        unfold rows_for at 2 in Hfresh. simpl in Hfresh.
        destruct (new_row_key (store s) (User.employee_id u) d) as [Ke Kd].
        rewrite Ke, Kd, String.eqb_refl, Z.eqb_refl in Hfresh. simpl in Hfresh. lia. }
      split.
      * simpl. constructor; [|exact Hnd].
        destruct (new_row_key (store s) (User.employee_id u) d) as [-> _].
        intro Hin. apply in_map_iff in Hin. destruct Hin as (r & He & Hr).
        now apply (proj2 (Hlater r Hr)).
      * intros r [<- | Hr]; [|now apply Hlater].
        now destruct (new_row_key (store s) (User.employee_id u) d) as [-> _].
Qed.

End Loop.

Lemma new_row_with_users db us e d : new_row (with_users db us) e d = new_row db e d.
Proof. reflexivity. Qed.

Lemma compile_appended autoflush today db us target_date :
  attendance_daily (compile_daily_attendance autoflush today (with_users db us) target_date)
  = attendance_daily db ++ appended autoflush (target_of today target_date) db us.
Proof. now rewrite IdempotenceTheorems.compiled_rows. Qed.

Lemma appended_member d db us r :
  In r (appended true d db us) <->
  exists u, In u us /\ User.is_active u = true /\
            rows_for (attendance_daily db) (User.employee_id u) d = 0%nat /\
            r = new_row db (User.employee_id u) d.
Proof.
  unfold appended. split.
  - intro Hr.
    destruct (loop_added true d (filter User.is_active us) (mk_session (with_users db us) []))
      as (added & Hp & Hall).
    simpl in Hp, Hall. rewrite Hp in Hr. rewrite Forall_forall in Hall.
    destruct (Hall r Hr) as (u & Hu & -> & Hz).
    apply filter_In in Hu. destruct Hu as [Hu Ha].
    exists u. auto.
  - intros (u & Hu & Ha & Hz & ->).
    assert (Hact : In u (filter User.is_active us)) by (apply filter_In; auto).
    pose proof (loop_covers true d (filter User.is_active us)
                            (mk_session (with_users db us) []) u Hact) as Hcov.
    simpl in Hcov. rewrite rows_for_app, Hz in Hcov.
    destruct (loop_added true d (filter User.is_active us) (mk_session (with_users db us) []))
      as (added & Hp & Hall).
    simpl in Hp, Hall. rewrite Hp in Hcov |- *. rewrite Forall_forall in Hall.
    unfold rows_for in Hcov. fold (key_is (User.employee_id u) d) in Hcov.
    destruct (filter (key_is (User.employee_id u) d) added) as [|r rest] eqn:F;
      [simpl in Hcov; lia|].
    assert (Hr : In r (filter (key_is (User.employee_id u) d) added))
      by (rewrite F; now left).
    apply filter_In in Hr. destruct Hr as [Hr K]. apply key_is_true in K.
    destruct K as [Ke _].
    destruct (Hall r Hr) as (u' & _ & Hr' & _).
    rewrite Hr' in Ke.
    destruct (new_row_key db (User.employee_id u') d) as [Ke' _].
    rewrite new_row_with_users in Ke. rewrite Ke' in Ke.
    rewrite <- Ke. rewrite new_row_with_users in Hr'. now rewrite <- Hr'.
Qed.

Lemma appended_nodup d db us : NoDup (appended true d db us).
Proof.
  unfold appended.
  destruct (flushing_loop d (filter User.is_active us) (mk_session (with_users db us) []))
    as (added & Hp & Hnd & _).
  simpl in Hp. rewrite Hp. now apply NoDup_map_inv in Hnd.
Qed.

(** The derived rows of a run do not depend on the order in which the query
    returns the users: for two orders of the same users the compiled tables
    hold the same rows, each as often, whether or not the session flushes
    before its queries. *)
Theorem compile_order_independent :
  forall (autoflush : bool) (today : date) (db : DB) (target_date : option date)
         (users' : list User.t),
    Permutation (users db) users' ->
    Permutation
      (attendance_daily (compile_daily_attendance autoflush today db target_date))
      (attendance_daily
         (compile_daily_attendance autoflush today (with_users db users') target_date)).
Proof.
  intros autoflush today db target_date users' Hperm.
  assert (Hdb : db = with_users db (users db)) by now destruct db.
  rewrite Hdb at 1. rewrite !compile_appended.
  apply Permutation_app_head.
  set (d := target_of today target_date).
  destruct autoflush.
  - apply NoDup_Permutation; try apply appended_nodup.
    intro r. rewrite !appended_member.
    split; intros (u & Hu & H); exists u; split; auto.
    + now apply (Permutation_in _ Hperm).
    + now apply (Permutation_in _ (Permutation_sym Hperm)).
  - unfold appended. rewrite !plain_loop. simpl.
    apply Permutation_map. apply filter_permutation. now apply filter_permutation.
Qed.

(** The sample store with its users reversed compiles to the same rows. *)
Lemma compile_order_independent_witness :
  Permutation
    (attendance_daily
       (compile_daily_attendance false Samples.monday Samples.office None))
    (attendance_daily
       (compile_daily_attendance false Samples.monday
          (with_users Samples.office (rev (users Samples.office))) None)).
Proof.
  apply compile_order_independent. apply Permutation_rev.
Defined.

End OrderTheorems.

(* ================================================================= *)
(** ** Risk tiers and the reach of the leave-abuse detector *)

Module TierTheorems.

Import Frame Intelligence Analytics ExtractorFacts.

(** The predictor's tiers in terms of its two inputs: with [a] the recent
    absences and [s] the score, the risk is high exactly when [a] is at least
    10, or at least 5 with [s] below 70; low exactly when [a] is below 5 and
    [s] at least 70; medium in between.  The risk score is even and never
    negative.  An employee with no row in the extractor's table (no entry
    timestamp in the window) is never rated low. *)
Theorem risk_tiers_by_inputs :
  forall (today : Calendar.date) (db : DB) (employee_id : string),
    exists m r,
      compute_behavior_metrics (get_attendance_dataframe today db (Some employee_id))
                               (Some db) (Some employee_id) = Ok m /\
      predict_absenteeism_risk today db employee_id = Ok r /\
      rk_employee_id r = employee_id /\
      let a := recent_absents today db employee_id in
      let s := attendance_score m in
      (rk_risk r = "high" <-> 10 <= a \/ (5 <= a /\ s < 70)) /\
      (rk_risk r = "medium" <-> (5 <= a < 10 /\ 70 <= s) \/ (a < 5 /\ s < 70)) /\
      (rk_risk r = "low" <-> a < 5 /\ 70 <= s) /\
      0 <= rk_risk_score r /\
      Z.even (rk_risk_score r) = true /\
      (rows (get_attendance_dataframe today db (Some employee_id)) = [] ->
       rk_risk r <> "low").
Proof.
  intros today db employee_id.
  destruct (metrics_on_dataframe today db (Some employee_id) (Some db) (Some employee_id))
    as [m Hm].
  exists m. eexists. split; [exact Hm|].
  unfold predict_absenteeism_risk. rewrite Hm. unfold Py.bind.
  split; [reflexivity|]. cbn [rk_employee_id rk_risk rk_risk_score].
  split; [reflexivity|].
  assert (Ha : 0 <= recent_absents today db employee_id)
    by (unfold recent_absents, count_if; lia).
  set (a := recent_absents today db employee_id) in *.
  assert (Hempty : rows (get_attendance_dataframe today db (Some employee_id)) = [] ->
                   attendance_score m = 0).
  { intro Hr. rewrite MetricsFacts.metrics_default in Hm.
    - now injection Hm as <-.
    - left. unfold Frame.empty. now rewrite Hr. }
  destruct (Z.ltb_spec (attendance_score m) 70) as [Hs | Hs].
  - destruct (Z.geb_spec (a * 2 + 10) 20); [|destruct (Z.geb_spec (a * 2 + 10) 10)];
      (split; [split; [intro Hx; try discriminate Hx; lia | intro; try reflexivity; lia]|]);
      (split; [split; [intro Hx; try discriminate Hx; lia | intro; try reflexivity; lia]|]);
      (split; [split; [intro Hx; try discriminate Hx; lia | intro; try reflexivity; lia]|]);
      (split; [lia|]);
      (split; [rewrite Z.even_add, Z.even_mul; simpl; now rewrite orb_true_r|]);
      intros _; first [discriminate | lia].
  - destruct (Z.geb_spec (a * 2) 20); [|destruct (Z.geb_spec (a * 2) 10)];
      (split; [split; [intro Hx; try discriminate Hx; lia | intro; try reflexivity; lia]|]);
      (split; [split; [intro Hx; try discriminate Hx; lia | intro; try reflexivity; lia]|]);
      (split; [split; [intro Hx; try discriminate Hx; lia | intro; try reflexivity; lia]|]);
      (split; [lia|]);
      (split; [rewrite Z.even_mul; simpl; now rewrite orb_true_r|]);
      intro Hr; apply Hempty in Hr; lia.
Qed.

End TierTheorems.

Module ReachTheorems.

Import Intelligence Analytics.

Lemma flat_map_filter {A B : Type} (p : A -> bool) (f : A -> list B) (l : list A) :
  (forall x, p x = false -> f x = []) ->
  flat_map f (filter p l) = flat_map f l.
Proof.
  intro H. induction l as [|x l IH]; [reflexivity|].
  simpl. destruct (p x) eqn:P; simpl; rewrite IH; [reflexivity|].
  now rewrite (H x P).
Qed.

Lemma filter_twice {A : Type} (p : A -> bool) (l : list A) :
  filter p (filter p l) = filter p l.
Proof.
  induction l as [|x l IH]; [reflexivity|].
  simpl. destruct (p x) eqn:P; simpl; rewrite ?P, IH; reflexivity.
Qed.

Lemma active_users_view db : active_users (leave_view db) = active_users db.
Proof. unfold active_users, leave_view. simpl. apply filter_twice. Qed.

Lemma joined_leaves_view db : joined_leaves (leave_view db) = joined_leaves db.
Proof.
  unfold joined_leaves. rewrite active_users_view.
  unfold leave_view at 1. cbn [leave_requests].
  apply flat_map_filter. intros l Hl. now rewrite Hl.
Qed.

(** The detector's result depends on the store only through its active users
    and its approved leave requests: inactive users, requests in any other
    state, attendance facts, derived rows and holidays do not change it. *)
Theorem abuse_reads_active_and_approved_only :
  forall (db : DB),
    detect_department_leave_abuse db =
    detect_department_leave_abuse
      (mk_db (filter User.is_active (users db))
             [] []
             (filter (fun l => String.eqb (LeaveRequest.status l) "Approved")
                     (leave_requests db))
             []).
Proof.
  intro db. change (mk_db _ _ _ _ _) with (leave_view db).
  unfold detect_department_leave_abuse, count_by_department.
  now rewrite joined_leaves_view, active_users_view.
Qed.

End ReachTheorems.

(* ================================================================= *)
(** ** Compiling different dates *)

Module DateTheorems.

Import Compiler Reading CompilerFacts.

Lemma new_row_same_sources db1 db2 e d :
  same_sources db1 db2 -> new_row db1 e d = new_row db2 e d.
Proof.
  intros (Ha & Hl & Hh).
  unfold new_row, resolve, leave_query, holiday_query, attendance_query.
  now rewrite Ha, Hl, Hh.
Qed.

(** The loop reads the derived rows of the store only through the number of
    rows per employee for the date. *)
Lemma loop_same_rows autoflush d us : forall s1 s2,
  same_sources (store s1) (store s2) ->
  (forall e, rows_for (attendance_daily (store s1)) e d
             = rows_for (attendance_daily (store s2)) e d) ->
  pending s1 = pending s2 ->
  pending (fold_left (compile_user autoflush d) us s1)
  = pending (fold_left (compile_user autoflush d) us s2).
Proof.
  induction us as [|u us IH]; intros s1 s2 Hsrc Hrows Hp; simpl; [exact Hp|].
  apply IH.
  - now rewrite !compile_user_store.
  - intro e. now rewrite !compile_user_store.
  - unfold compile_user.
    assert (Hq : rows_for (visible autoflush s1) (User.employee_id u) d
                 = rows_for (visible autoflush s2) (User.employee_id u) d).
    { unfold visible. now rewrite !rows_for_app, Hrows, Hp. }
    destruct (daily_query (visible autoflush s1) (User.employee_id u) d) eqn:Q1;
      destruct (daily_query (visible autoflush s2) (User.employee_id u) d) eqn:Q2.
    + exact Hp.
    + apply daily_query_none in Q2. rewrite <- Hq in Q2.
      apply daily_query_none in Q2. congruence.
    + apply daily_query_none in Q1. rewrite Hq in Q1.
      apply daily_query_none in Q1. congruence.
    + simpl. now rewrite Hp, (new_row_same_sources _ _ _ _ Hsrc).
Qed.

Lemma rows_for_other_date rows e d :
  Forall (fun r => AttendanceDaily.date r <> d) rows -> rows_for rows e d = 0%nat.
Proof.
  intro H. apply rows_for_zero. intros r Hr.
  rewrite Forall_forall in H. specialize (H r Hr).
  unfold key_is. apply Z.eqb_neq in H. rewrite H. apply andb_false_r.
Qed.

Lemma run_adds_rows autoflush today db d :
  attendance_daily (compile_daily_attendance autoflush today db (Some d))
  = attendance_daily db ++ run_adds autoflush db d.
Proof. apply IdempotenceTheorems.compiled_rows. Qed.

Lemma run_adds_dated autoflush db d :
  Forall (fun r => AttendanceDaily.date r = d) (run_adds autoflush db d).
Proof.
  unfold run_adds.
  destruct (loop_added autoflush d (active_users db) (mk_session db []))
    as (added & Hp & Hall).
  simpl in Hp, Hall. rewrite Hp.
  eapply Forall_impl; [|exact Hall].
  intros r (u & _ & -> & _). now destruct (new_row_key db (User.employee_id u) d).
Qed.

Lemma run_adds_after autoflush today db d1 d2 :
  d1 <> d2 ->
  run_adds autoflush (compile_daily_attendance autoflush today db (Some d1)) d2
  = run_adds autoflush db d2.
Proof.
  intro Hne. unfold run_adds. rewrite IdempotenceTheorems.compiled_users.
  apply loop_same_rows.
  - unfold same_sources, compile_daily_attendance, commit. simpl.
    now rewrite loop_store.
  - intro e. cbn [store]. rewrite run_adds_rows, rows_for_app.
    rewrite (rows_for_other_date (run_adds autoflush db d1)); [lia|].
    eapply Forall_impl; [|apply run_adds_dated].
    intros r Hr. cbv beta in Hr. congruence.
  - reflexivity.
Qed.

(** Runs for two different dates do not interfere: what the run for one date
    appends is the same whether or not the other date was compiled before,
    so the two orders give the same rows, the later run's rows last. *)
Theorem compile_dates_independent :
  forall (autoflush : bool) (today : date) (db : DB) (d1 d2 : date),
    d1 <> d2 ->
    exists added1 added2,
      attendance_daily (compile_daily_attendance autoflush today db (Some d1))
      = attendance_daily db ++ added1 /\
      attendance_daily (compile_daily_attendance autoflush today db (Some d2))
      = attendance_daily db ++ added2 /\
      attendance_daily
        (compile_daily_attendance autoflush today
           (compile_daily_attendance autoflush today db (Some d1)) (Some d2))
      = attendance_daily db ++ added1 ++ added2 /\
      attendance_daily
        (compile_daily_attendance autoflush today
           (compile_daily_attendance autoflush today db (Some d2)) (Some d1))
      = attendance_daily db ++ added2 ++ added1.
Proof.
  intros autoflush today db d1 d2 Hne.
  exists (run_adds autoflush db d1), (run_adds autoflush db d2).
  split; [apply run_adds_rows|]. split; [apply run_adds_rows|].
  split.
  - rewrite run_adds_rows, run_adds_after by exact Hne.
    now rewrite run_adds_rows, app_assoc.
  - rewrite run_adds_rows, run_adds_after by (intro E; now apply Hne).
    now rewrite run_adds_rows, app_assoc.
Qed.

(** On the sample store, the Monday and then the Tuesday: four rows each. *)
Lemma compile_dates_independent_witness :
  exists added1 added2,
    attendance_daily
      (compile_daily_attendance true Samples.monday
         (compile_daily_attendance true Samples.monday Samples.office
                                   (Some Samples.monday))
         (Some (Samples.monday + 1)))
    = attendance_daily Samples.office ++ added1 ++ added2 /\
    List.length added1 = 4%nat /\ List.length added2 = 4%nat.
Proof.
  destruct (compile_dates_independent true Samples.monday Samples.office
                                      Samples.monday (Samples.monday + 1)
                                      ltac:(discriminate))
    as (added1 & added2 & H1 & H2 & H12 & _).
  exists added1, added2. split; [exact H12|].
  assert (L1 : List.length
                 (attendance_daily
                    (compile_daily_attendance true Samples.monday Samples.office
                                              (Some Samples.monday))) = 4%nat)
    by (vm_compute; reflexivity).
  assert (L2 : List.length
                 (attendance_daily
                    (compile_daily_attendance true Samples.monday Samples.office
                                              (@Some date (Samples.monday + 1)))) = 4%nat)
    by (vm_compute; reflexivity).
  rewrite H1 in L1. rewrite H2 in L2. split; [exact L1 | exact L2].
Defined.

End DateTheorems.

(* ================================================================= *)
(** ** The hash-history log *)

Module HashHistoryTheorems.

Import HashHistory.

Section Codec.

Context {json : Type}.
Variable dumps : Payload -> string.
Variable loads : string -> option json.
Variable strip : string -> string.

Lemma decoded_app l1 l2 : decoded json loads (l1 ++ l2) = decoded json loads l1 ++ decoded json loads l2.
Proof. unfold decoded. apply flat_map_app. Qed.

Lemma decoded_length l : (List.length (decoded json loads l) <= List.length l)%nat.
Proof.
  induction l as [|x l IH]; simpl; [lia|].
  rewrite length_app. destruct (loads x); simpl; lia.
Qed.

Lemma slice_last_zero {A : Type} (l : list A) : slice_last l 0 = l.
Proof. unfold slice_last. simpl. rewrite Z.min_l by lia. reflexivity. Qed.

Lemma slice_last_all {A : Type} (l : list A) k :
  Z.of_nat (List.length l) <= k -> slice_last l k = l.
Proof.
  intro H. unfold slice_last.
  destruct (Z.ltb_spec (- k) 0).
  - rewrite Z.max_r by lia. reflexivity.
  - rewrite Z.min_l by lia.
    assert (E : Z.to_nat (- k) = 0%nat) by lia. now rewrite E.
Qed.

Lemma slice_last_length {A : Type} (l : list A) k :
  0 < k -> Z.of_nat (List.length (slice_last l k)) <= k.
Proof.
  intro H. unfold slice_last.
  destruct (Z.ltb_spec (- k) 0); [|lia].
  rewrite length_skipn. lia.
Qed.


(** Appending to a text that ends with a line feed starts a new line. *)
Lemma scan_app : forall (t w : string) (b : bool) (cur : string),
  (b = true -> cur = EmptyString) ->
  ends_with_lf t = true ->
  scan b cur (t ++ w) = scan b cur t ++ scan false "" w.
Proof.
  induction t as [|c t IH]; intros w b cur Hb Ht; [discriminate Ht|].
  destruct t as [|c' t'].
  - cbn [ends_with_lf] in Ht. cbn [append scan]. rewrite Ht.
    destruct b; [|reflexivity]. rewrite (Hb eq_refl). reflexivity.
  - assert (Ht' : ends_with_lf (String c' t') = true) by exact Ht.
    change (String c (String c' t') ++ w)%string
      with (String c (String c' t' ++ w)%string).
    cbn [scan]. destruct (Ascii.eqb c LF).
    + destruct b.
      * apply IH; [discriminate | exact Ht'].
      * rewrite IH; [reflexivity | reflexivity | exact Ht'].
    + destruct (Ascii.eqb c CR).
      * rewrite IH; [reflexivity | reflexivity | exact Ht'].
      * apply IH; [discriminate | exact Ht'].
Qed.

Lemma append_cons (cur : string) (c : ascii) (s : string) :
  ((cur ++ String c "") ++ s = cur ++ String c s)%string.
Proof. induction cur as [|a cur IH]; [reflexivity|]. simpl. now rewrite IH. Qed.

(** A text without line end, followed by a line feed, is read as one line,
    joined to what was read of the line so far. *)
Lemma scan_one_line : forall (d cur : string),
  one_line d = true ->
  scan false cur (d ++ newline) = [(cur ++ d ++ newline)%string].
Proof.
  induction d as [|c d IH]; intros cur Hd.
  - reflexivity.
  - cbn [one_line] in Hd. apply andb_true_iff in Hd. destruct Hd as [Hc Hd].
    apply andb_true_iff in Hc. destruct Hc as [Hlf Hcr].
    apply negb_true_iff in Hlf. apply negb_true_iff in Hcr.
    cbn [append scan]. rewrite Hlf, Hcr. rewrite (IH _ Hd).
    now rewrite append_cons.
Qed.

(** A text without line end is read as one line, when it is not empty. *)
Lemma scan_open_line : forall (d cur : string),
  one_line d = true ->
  scan false cur d = if String.eqb (cur ++ d) "" then [] else [(cur ++ d)%string].
Proof.
  induction d as [|c d IH]; intros cur Hd.
  - cbn [scan]. assert (E : (cur ++ "")%string = cur)
      by (clear; induction cur as [|a cur IH]; [reflexivity | simpl; now rewrite IH]).
    now rewrite E.
  - cbn [one_line] in Hd. apply andb_true_iff in Hd. destruct Hd as [Hc Hd].
    apply andb_true_iff in Hc. destruct Hc as [Hlf Hcr].
    apply negb_true_iff in Hlf. apply negb_true_iff in Hcr.
    cbn [scan]. rewrite Hlf, Hcr. rewrite (IH _ Hd). now rewrite append_cons.
Qed.

(** The lines of a terminated file, with more text appended. *)
Lemma lines_of_app (file : text_file) (w : string) :
  terminated file = true ->
  lines_of (match file with None => "" | Some text => text end ++ w)
  = match opened file with None => [] | Some lines => lines end ++ lines_of w.
Proof.
  intro H. destruct file as [[|c t]|]; [reflexivity| |reflexivity].
  cbn [opened option_map]. unfold lines_of.
  apply scan_app; [discriminate | exact H].
Qed.

Lemma nonempty_append (a b : string) : a <> EmptyString -> String.eqb (a ++ b) "" = false.
Proof. destruct a; [congruence | reflexivity]. Qed.



End Codec.



End HashHistoryTheorems.

(* ================================================================= *)
(** ** Deleting and editing tasks *)

Module LeaderFacts.

Import Leader.

Lemma mem_In x s : mem x s = true <-> In x s.
Proof.
  unfold mem. rewrite existsb_exists. split.
  - intros (y & Hy & E). apply String.eqb_eq in E. now subst y.
  - intro H. exists x. split; [exact H | apply String.eqb_refl].
Qed.

Lemma as_set_In x l : In x (as_set l) <-> In x l.
Proof.
  induction l as [|y l IH]; simpl; [tauto|].
  rewrite filter_In, IH, negb_true_iff. split.
  - intros [-> | [H _]]; auto.
  - intros [-> | H]; [now left|].
    destruct (String.eqb_spec x y) as [-> | Hne]; [now left | right; auto].
Qed.

Lemma difference_In x a b : In x (difference a b) <-> In x a /\ ~ In x b.
Proof.
  unfold difference. rewrite filter_In, negb_true_iff.
  pose proof (mem_In x b) as Hb.
  destruct (mem x b); intuition congruence.
Qed.

Lemma difference_empty a b :
  (forall x, In x a -> In x b) -> difference a b = [].
Proof.
  intro H. unfold difference. apply OutlierFacts.filter_none.
  apply Forall_forall. intros x Hx. apply negb_false_iff, mem_In. auto.
Qed.

Lemma filter_all {A : Type} (p : A -> bool) (l : list A) :
  (forall x, In x l -> p x = true) -> filter p l = l.
Proof.
  induction l as [|x l IH]; intro H; [reflexivity|].
  simpl. rewrite (H x (or_introl eq_refl)), IH; [reflexivity|].
  intros y Hy. apply H. now right.
Qed.

Lemma filter_after {A : Type} (p q : A -> bool) (l : list A) :
  filter p (filter q l) = filter (fun x => q x && p x)%bool l.
Proof.
  induction l as [|x l IH]; [reflexivity|].
  simpl. destruct (q x); simpl; [destruct (p x)|]; now rewrite IH.
Qed.

(** The deleting loop of lines 64 to 68 as one filter. *)
Lemma removal_loop task_id gone : forall rows,
  fold_left
    (fun rows emp_id =>
       filter (fun a => negb ((ProjectTaskAssignee.task_id a =? task_id)
                              && String.eqb (ProjectTaskAssignee.employee_id a) emp_id))%bool
              rows)
    gone rows
  = filter (fun a => negb ((ProjectTaskAssignee.task_id a =? task_id)
                           && mem (ProjectTaskAssignee.employee_id a) gone))%bool
           rows.
Proof.
  induction gone as [|e gone IH]; intro rows; simpl.
  - symmetry. apply filter_all. intros a _. now rewrite andb_false_r.
  - rewrite IH, filter_after. apply filter_ext. intro a.
    destruct (ProjectTaskAssignee.task_id a =? task_id); simpl; [|reflexivity].
    destruct (String.eqb (ProjectTaskAssignee.employee_id a) e); reflexivity.
Qed.

Lemma first_filter_map {A : Type} (p : A -> bool) (f : A -> A) (l : list A) :
  (forall x, p (f x) = p x) ->
  first (filter p (map f l)) =
  match first (filter p l) with
  | Some x => Some (f x)
  | None => None
  end.
Proof.
  intro H. induction l as [|x l IH]; [reflexivity|].
  simpl. rewrite H. destruct (p x); [reflexivity | exact IH].
Qed.

Lemma filter_map_fixed {A : Type} (p : A -> bool) (f : A -> A) (l : list A) :
  (forall x, p (f x) = p x) -> (forall x, p x = true -> f x = x) ->
  filter p (map f l) = filter p l.
Proof.
  intros H1 H2. induction l as [|x l IH]; [reflexivity|].
  simpl. rewrite H1. destruct (p x) eqn:P; [|exact IH].
  now rewrite (H2 x P), IH.
Qed.

Lemma task_of_id db task_id task :
  task_of db task_id = Some task -> In task (tasks db) /\ ProjectTask.id task = task_id.
Proof.
  unfold task_of. intro H. apply first_filter_some in H.
  destruct H as [Hin Hid]. apply Z.eqb_eq in Hid. auto.
Qed.

End LeaderFacts.

Module LeaderTheorems.

Import Leader LeaderFacts.

(** Deleting a task.  The handler answers 403, and leaves the store alone,
    exactly when the user leads no team or no task has the id.  Otherwise it
    redirects to the dashboard and, in the store it leaves, no task has the
    id and no assignee row refers to it, while the teams, the other tasks
    and the rows of the other tasks are as before; deleting the same id
    again answers 403.  The task's project plays no role. *)
Theorem delete_task_effect :
  forall (db : Store) (task_id : Z) (user : User.t),
    let after := fst (delete_task db task_id user) in
    let answer := snd (delete_task db task_id user) in
    (answer = HTTPException 403 <->
     my_team_of db user = None \/ task_of db task_id = None) /\
    (answer = HTTPException 403 -> after = db) /\
    (answer <> HTTPException 403 ->
     answer = RedirectResponse "/leader/dashboard" 303 /\
     teams after = teams db /\
     tasks after = filter (fun t => negb (ProjectTask.id t =? task_id)) (tasks db) /\
     assignees after
     = filter (fun a => negb (ProjectTaskAssignee.task_id a =? task_id)) (assignees db) /\
     (forall t, In t (tasks after) -> ProjectTask.id t <> task_id) /\
     (forall a, In a (assignees after) -> ProjectTaskAssignee.task_id a <> task_id) /\
     snd (delete_task after task_id user) = HTTPException 403).
Proof.
  intros db task_id user after answer. unfold after, answer, delete_task.
  destruct (my_team_of db user) as [team|] eqn:T.
  2:{ split; [split; auto|]. split; [reflexivity|]. intro H. now contradiction H. }
  destruct (task_of db task_id) as [task|] eqn:K.
  2:{ split; [split; auto|]. split; [reflexivity|]. intro H. now contradiction H. }
  destruct (task_of_id db task_id task K) as [Hin Hid]. rewrite Hid.
  cbn [fst snd].
  split; [split; [discriminate | intros [H | H]; discriminate]|].
  split; [discriminate|]. intros _.
  split; [reflexivity|]. split; [reflexivity|]. split; [reflexivity|].
  split; [reflexivity|].
  split.
  { intros t Ht. apply filter_In in Ht. destruct Ht as [_ Ht].
    apply negb_true_iff, Z.eqb_neq in Ht. exact Ht. }
  split.
  { intros a Ha. apply filter_In in Ha. destruct Ha as [_ Ha].
    apply negb_true_iff, Z.eqb_neq in Ha. exact Ha. }
  unfold my_team_of, task_of. cbn [teams tasks].
  fold (my_team_of db user). rewrite T.
  rewrite filter_after.
  rewrite OutlierFacts.filter_none; [reflexivity|].
  apply Forall_forall. intros t _. now destruct (ProjectTask.id t =? task_id).
Qed.

Section Edit.

Variable hash_employee_id : string -> string.
Variable strptime : string -> option datetime.

Lemma edit_effect_aux :
  forall (db : Store) (task_id : Z) (title description deadline : string)
         (assign_to_employee_id : list string) (user : User.t)
         (team : Team.t) (task : ProjectTask.t) (when : datetime),
    my_team_of db user = Some team ->
    task_of db task_id = Some task ->
    (forall t, In t (tasks db) ->
               ProjectTask.project_id t = ProjectTask.project_id task ->
               ProjectTask.title t = title -> ProjectTask.id t = task_id) ->
    strptime deadline = Some when ->
    let run := edit_task hash_employee_id strptime db task_id title description
                         deadline assign_to_employee_id user in
    let after := fst run in
    snd run = RedirectResponse
                ("/leader/project/" ++ str_int (ProjectTask.project_id task))%string 303 /\
    (forall e,
        (exists a, In a (assignees after) /\ ProjectTaskAssignee.task_id a = task_id /\
                   ProjectTaskAssignee.employee_id a = e)
        <-> In e assign_to_employee_id) /\
    (forall a, In a (assignees after) ->
               In a (assignees db) \/
               (a = ProjectTaskAssignee.mk task_id (ProjectTaskAssignee.employee_id a)
                      (hash_employee_id (ProjectTaskAssignee.employee_id a)) /\
                forall b, In b (assignees db) ->
                          ProjectTaskAssignee.task_id b = task_id ->
                          ProjectTaskAssignee.employee_id b
                          <> ProjectTaskAssignee.employee_id a)) /\
    (forall a, In a (assignees db) ->
               ProjectTaskAssignee.task_id a <> task_id \/
               In (ProjectTaskAssignee.employee_id a) assign_to_employee_id ->
               In a (assignees after)) /\
    filter (fun a => negb (ProjectTaskAssignee.task_id a =? task_id)) (assignees after)
    = filter (fun a => negb (ProjectTaskAssignee.task_id a =? task_id)) (assignees db) /\
    teams after = teams db /\
    (forall t, In t (tasks after) -> ProjectTask.id t = task_id ->
               ProjectTask.title t = title /\ ProjectTask.description t = description /\
               ProjectTask.deadline t = when) /\
    filter (fun t => negb (ProjectTask.id t =? task_id)) (tasks after)
    = filter (fun t => negb (ProjectTask.id t =? task_id)) (tasks db).
Proof.
  intros db task_id title description deadline ids user team task when
         Hteam Htask Hunique Hwhen run after.
  destruct (task_of_id db task_id task Htask) as [Hin Hid].
  assert (Hnodup : first (filter (fun t => (ProjectTask.project_id t =? ProjectTask.project_id task)
                                           && String.eqb (ProjectTask.title t) title
                                           && negb (ProjectTask.id t =? task_id))%bool
                                 (tasks db)) = None).
  { apply first_filter_none. intros t Ht.
    destruct (ProjectTask.project_id t =? ProjectTask.project_id task) eqn:P; [|reflexivity].
    destruct (String.eqb (ProjectTask.title t) title) eqn:S; [|reflexivity].
    apply Z.eqb_eq in P. apply String.eqb_eq in S.
    rewrite (Hunique t Ht P S), Z.eqb_refl. reflexivity. }
  assert (Hrun : run =
    (mk_store (teams db)
       (map (fun t => if ProjectTask.id t =? task_id
                      then ProjectTask.mk (ProjectTask.id t) (ProjectTask.project_id t)
                                          title description when (ProjectTask.status t)
                      else t)
            (tasks db))
       (filter (fun a => negb ((ProjectTaskAssignee.task_id a =? task_id)
                               && mem (ProjectTaskAssignee.employee_id a)
                                      (difference
                                         (as_set (map ProjectTaskAssignee.employee_id
                                                      (filter (fun a => ProjectTaskAssignee.task_id a =? task_id)
                                                              (assignees db))))
                                         (as_set ids))))%bool
               (assignees db)
        ++ map (fun emp_id => ProjectTaskAssignee.mk task_id emp_id (hash_employee_id emp_id))
               (difference (as_set ids)
                           (as_set (map ProjectTaskAssignee.employee_id
                                        (filter (fun a => ProjectTaskAssignee.task_id a =? task_id)
                                                (assignees db)))))),
     RedirectResponse ("/leader/project/" ++ str_int (ProjectTask.project_id task))%string 303)).
  { unfold run, edit_task. rewrite Hteam, Htask, Hnodup, Hwhen, Hid, removal_loop.
    reflexivity. }
  unfold after. rewrite Hrun. cbn [fst snd assignees teams tasks]. clear Hrun run after.
  set (current := as_set (map ProjectTaskAssignee.employee_id
                              (filter (fun a => ProjectTaskAssignee.task_id a =? task_id)
                                      (assignees db)))).
  assert (Hcur : forall e, In e current <->
                           exists a, In a (assignees db) /\
                                     ProjectTaskAssignee.task_id a = task_id /\
                                     ProjectTaskAssignee.employee_id a = e).
  { intro e. unfold current. rewrite as_set_In, in_map_iff. split.
    - intros (a & He & Ha). apply filter_In in Ha. destruct Ha as [Ha Ht].
      apply Z.eqb_eq in Ht. eauto.
    - intros (a & Ha & Ht & He). exists a. split; [exact He|].
      apply filter_In. split; [exact Ha | now apply Z.eqb_eq]. }
  assert (Hkept : forall a,
             In a (filter (fun a => negb ((ProjectTaskAssignee.task_id a =? task_id)
                                          && mem (ProjectTaskAssignee.employee_id a)
                                                 (difference current (as_set ids))))%bool
                          (assignees db)) <->
             In a (assignees db) /\
             (ProjectTaskAssignee.task_id a <> task_id \/
              In (ProjectTaskAssignee.employee_id a) ids)).
  { intro a. rewrite filter_In. split.
    - intros [Ha Hk]. split; [exact Ha|].
      destruct (Z.eqb_spec (ProjectTaskAssignee.task_id a) task_id) as [E | Hne];
        [|now left].
      right. simpl in Hk. apply negb_true_iff in Hk.
      destruct (in_dec string_dec (ProjectTaskAssignee.employee_id a) ids) as [Hi | Hn];
        [exact Hi|].
      exfalso. assert (Hm : mem (ProjectTaskAssignee.employee_id a)
                                (difference current (as_set ids)) = true).
      { apply mem_In, difference_In. split.
        - apply Hcur. eauto.
        - now rewrite as_set_In. }
      congruence.
    - intros [Ha Hor]. split; [exact Ha|].
      destruct (Z.eqb_spec (ProjectTaskAssignee.task_id a) task_id) as [E | Hne];
        [|reflexivity].
      simpl. apply negb_true_iff.
      destruct (mem (ProjectTaskAssignee.employee_id a)
                    (difference current (as_set ids))) eqn:M; [|reflexivity].
      apply mem_In, difference_In in M. destruct M as [_ M].
      rewrite as_set_In in M. destruct Hor as [Hne | Hi]; contradiction. }
  split; [reflexivity|].
  split.
  { intro e. split.
    - intros (a & Ha & Ht & He). apply in_app_or in Ha. destruct Ha as [Ha | Ha].
      + apply Hkept in Ha. destruct Ha as [_ [Hne | Hi]]; [contradiction|].
        now rewrite <- He.
      + apply in_map_iff in Ha. destruct Ha as (e' & <- & He').
        apply difference_In in He'. destruct He' as [He' _].
        rewrite as_set_In in He'. simpl in He. now rewrite <- He.
    - intro Hi. destruct (in_dec string_dec e current) as [Hc | Hn].
      + apply Hcur in Hc. destruct Hc as (a & Ha & Ht & He).
        exists a. split; [|auto]. apply in_or_app. left.
        apply Hkept. split; [exact Ha|]. right. now rewrite He.
      + exists (ProjectTaskAssignee.mk task_id e (hash_employee_id e)).
        split; [|auto]. apply in_or_app. right.
        apply in_map_iff. exists e. split; [reflexivity|].
        apply difference_In. split; [now apply as_set_In | exact Hn]. }
  split.
  { intros a Ha. apply in_app_or in Ha. destruct Ha as [Ha | Ha].
    - left. now apply Hkept in Ha.
    - right. apply in_map_iff in Ha. destruct Ha as (e & <- & He).
      split; [reflexivity|]. simpl.
      apply difference_In in He. destruct He as [_ Hn].
      intros b Hb Ht Heq. apply Hn, Hcur. eauto. }
  split.
  { intros a Ha Hor. apply in_or_app. left. apply Hkept. auto. }
  split.
  { rewrite filter_app.
    rewrite (OutlierFacts.filter_none _ (map _ _)).
    - rewrite app_nil_r, filter_after. apply filter_ext. intro a.
      destruct (ProjectTaskAssignee.task_id a =? task_id); simpl;
        [apply andb_false_r | reflexivity].
    - apply Forall_forall. intros a Ha. apply in_map_iff in Ha.
      destruct Ha as (e & <- & _). simpl. now rewrite Z.eqb_refl. }
  split; [reflexivity|].
  split.
  { intros t Ht Hidt. apply in_map_iff in Ht. destruct Ht as (t0 & Ht0 & _).
    destruct (Z.eqb_spec (ProjectTask.id t0) task_id) as [E | Hne].
    - subst t. simpl. auto.
    - subst t. contradiction. }
  { apply filter_map_fixed.
    - intro t. now destruct (ProjectTask.id t =? task_id) eqn:E; simpl; rewrite E.
    - intros t Ht. apply negb_true_iff in Ht. now rewrite Ht. }
Qed.

(** Editing a task, when it goes through (the user leads a team, the task
    exists, no other task of its project has the new title and the deadline
    parses).  Afterwards the employees with an assignee row for the task are
    exactly the submitted ones: rows of employees no longer submitted are
    gone, rows of employees who stay are kept as they were, and every row
    that was not there before is a row of the task for an employee who had
    none, with the hash of the id; the rows of other tasks and the teams are
    untouched; the task carries the new title, description and deadline and
    the other tasks are unchanged. *)
Theorem edit_task_effect :
  forall (db : Store) (task_id : Z) (title description deadline : string)
         (assign_to_employee_id : list string) (user : User.t)
         (team : Team.t) (task : ProjectTask.t) (when : datetime),
    my_team_of db user = Some team ->
    task_of db task_id = Some task ->
    (forall t, In t (tasks db) ->
               ProjectTask.project_id t = ProjectTask.project_id task ->
               ProjectTask.title t = title -> ProjectTask.id t = task_id) ->
    strptime deadline = Some when ->
    let run := edit_task hash_employee_id strptime db task_id title description
                         deadline assign_to_employee_id user in
    let after := fst run in
    snd run = RedirectResponse
                ("/leader/project/" ++ str_int (ProjectTask.project_id task))%string 303 /\
    (forall e,
        (exists a, In a (assignees after) /\ ProjectTaskAssignee.task_id a = task_id /\
                   ProjectTaskAssignee.employee_id a = e)
        <-> In e assign_to_employee_id) /\
    (forall a, In a (assignees after) ->
               In a (assignees db) \/
               (a = ProjectTaskAssignee.mk task_id (ProjectTaskAssignee.employee_id a)
                      (hash_employee_id (ProjectTaskAssignee.employee_id a)) /\
                forall b, In b (assignees db) ->
                          ProjectTaskAssignee.task_id b = task_id ->
                          ProjectTaskAssignee.employee_id b
                          <> ProjectTaskAssignee.employee_id a)) /\
    (forall a, In a (assignees db) ->
               ProjectTaskAssignee.task_id a <> task_id \/
               In (ProjectTaskAssignee.employee_id a) assign_to_employee_id ->
               In a (assignees after)) /\
    filter (fun a => negb (ProjectTaskAssignee.task_id a =? task_id)) (assignees after)
    = filter (fun a => negb (ProjectTaskAssignee.task_id a =? task_id)) (assignees db) /\
    teams after = teams db /\
    (forall t, In t (tasks after) -> ProjectTask.id t = task_id ->
               ProjectTask.title t = title /\ ProjectTask.description t = description /\
               ProjectTask.deadline t = when) /\
    filter (fun t => negb (ProjectTask.id t =? task_id)) (tasks after)
    = filter (fun t => negb (ProjectTask.id t =? task_id)) (tasks db).
Proof. exact edit_effect_aux. Qed.

Lemma closed_form_of_edit db task_id title description deadline ids user team task when :
  my_team_of db user = Some team ->
  task_of db task_id = Some task ->
  (forall t, In t (tasks db) ->
             ProjectTask.project_id t = ProjectTask.project_id task ->
             ProjectTask.title t = title -> ProjectTask.id t = task_id) ->
  strptime deadline = Some when ->
  edit_task hash_employee_id strptime db task_id title description deadline ids user
  = (mk_store (teams db)
       (map (fun t => if ProjectTask.id t =? task_id
                      then ProjectTask.mk (ProjectTask.id t) (ProjectTask.project_id t)
                                          title description when (ProjectTask.status t)
                      else t)
            (tasks db))
       (filter (fun a => negb ((ProjectTaskAssignee.task_id a =? task_id)
                               && mem (ProjectTaskAssignee.employee_id a)
                                      (difference
                                         (as_set (map ProjectTaskAssignee.employee_id
                                                      (filter (fun a => ProjectTaskAssignee.task_id a =? task_id)
                                                              (assignees db))))
                                         (as_set ids))))%bool
               (assignees db)
        ++ map (fun emp_id => ProjectTaskAssignee.mk task_id emp_id (hash_employee_id emp_id))
               (difference (as_set ids)
                           (as_set (map ProjectTaskAssignee.employee_id
                                        (filter (fun a => ProjectTaskAssignee.task_id a =? task_id)
                                                (assignees db)))))),
     RedirectResponse ("/leader/project/" ++ str_int (ProjectTask.project_id task))%string 303).
Proof.
  intros Hteam Htask Hunique Hwhen.
  destruct (task_of_id db task_id task Htask) as [Hin Hid].
  unfold edit_task. rewrite Hteam, Htask.
  rewrite (proj2 (first_filter_none _ (tasks db))).
  - now rewrite Hwhen, Hid, removal_loop.
  - intros t Ht.
    destruct (ProjectTask.project_id t =? ProjectTask.project_id task) eqn:P; [|reflexivity].
    destruct (String.eqb (ProjectTask.title t) title) eqn:S; [|reflexivity].
    apply Z.eqb_eq in P. apply String.eqb_eq in S.
    rewrite (Hunique t Ht P S), Z.eqb_refl. reflexivity.
Qed.

(** Submitting the same edit a second time changes nothing more: the store
    after the second call is the store after the first, and the answer is
    the same redirect. *)
Theorem edit_task_idempotent :
  forall (db : Store) (task_id : Z) (title description deadline : string)
         (assign_to_employee_id : list string) (user : User.t)
         (team : Team.t) (task : ProjectTask.t) (when : datetime),
    my_team_of db user = Some team ->
    task_of db task_id = Some task ->
    (forall t, In t (tasks db) ->
               ProjectTask.project_id t = ProjectTask.project_id task ->
               ProjectTask.title t = title -> ProjectTask.id t = task_id) ->
    strptime deadline = Some when ->
    let run := edit_task hash_employee_id strptime db task_id title description
                         deadline assign_to_employee_id user in
    edit_task hash_employee_id strptime (fst run) task_id title description
              deadline assign_to_employee_id user
    = run.
Proof.
  intros db task_id title description deadline ids user team task when
         Hteam Htask Hunique Hwhen run.
  destruct (task_of_id db task_id task Htask) as [Hin Hid].
  destruct (edit_effect_aux db task_id title description deadline ids user team task when
                            Hteam Htask Hunique Hwhen)
    as (_ & Hmembers & _ & _ & _ & _ & _ & _).
  fold run in Hmembers.
  pose proof (closed_form_of_edit db task_id title description deadline ids user team task
                                  when Hteam Htask Hunique Hwhen) as Hrun.
  fold run in Hrun.
  set (upd := fun t => if ProjectTask.id t =? task_id
                       then ProjectTask.mk (ProjectTask.id t) (ProjectTask.project_id t)
                                           title description when (ProjectTask.status t)
                       else t) in *.
  assert (Hteams : teams (fst run) = teams db) by now rewrite Hrun.
  assert (Htasks : tasks (fst run) = map upd (tasks db)) by now rewrite Hrun.
  assert (Hteam' : my_team_of (fst run) user = Some team).
  { unfold my_team_of. now rewrite Hteams. }
  assert (Hupd_id : forall t, ProjectTask.id (upd t) = ProjectTask.id t).
  { intro t. unfold upd. now destruct (ProjectTask.id t =? task_id). }
  assert (Hupd_project : forall t, ProjectTask.project_id (upd t) = ProjectTask.project_id t).
  { intro t. unfold upd. now destruct (ProjectTask.id t =? task_id). }
  assert (Htask' : task_of (fst run) task_id = Some (upd task)).
  { unfold task_of. rewrite Htasks.
    rewrite (first_filter_map (fun t => ProjectTask.id t =? task_id) upd).
    - fold (task_of db task_id). now rewrite Htask.
    - intro t. now rewrite Hupd_id. }
  assert (Hunique' : forall t, In t (tasks (fst run)) ->
             ProjectTask.project_id t = ProjectTask.project_id (upd task) ->
             ProjectTask.title t = title -> ProjectTask.id t = task_id).
  { intros t Ht Hp Hti. rewrite Htasks in Ht. apply in_map_iff in Ht.
    destruct Ht as (t0 & <- & Ht0). rewrite Hupd_id.
    destruct (Z.eqb_spec (ProjectTask.id t0) task_id) as [E | Hne]; [exact E|].
    rewrite !Hupd_project in Hp.
    assert (Hsame : upd t0 = t0).
    { unfold upd. apply Z.eqb_neq in Hne. now rewrite Hne. }
    rewrite Hsame in Hti. now apply (Hunique t0 Ht0 Hp Hti). }
  rewrite (closed_form_of_edit (fst run) task_id title description deadline ids user team
                               (upd task) when Hteam' Htask' Hunique' Hwhen).
  fold upd. rewrite Hupd_project.
  assert (Hcur : forall e,
             In e (as_set (map ProjectTaskAssignee.employee_id
                               (filter (fun a => ProjectTaskAssignee.task_id a =? task_id)
                                       (assignees (fst run)))))
             <-> In e ids).
  { intro e. rewrite as_set_In, in_map_iff, <- Hmembers. split.
    - intros (a & He & Ha). apply filter_In in Ha. destruct Ha as [Ha Ht].
      apply Z.eqb_eq in Ht. eauto.
    - intros (a & Ha & Ht & He). exists a. split; [exact He|].
      apply filter_In. split; [exact Ha | now apply Z.eqb_eq]. }
  rewrite !difference_empty.
  2:{ intros e He. apply (proj2 (Hcur e)). exact (proj1 (as_set_In e ids) He). }
  2:{ intros e He. apply (proj2 (as_set_In e ids)). exact (proj1 (Hcur e) He). }
  simpl map at 2. rewrite app_nil_r.
  rewrite filter_all by (intros a _; now rewrite andb_false_r).
  rewrite Hteams, Htasks, map_map.
  assert (Hidem : map (fun t => upd (upd t)) (tasks db) = map upd (tasks db)).
  { apply map_ext. intro t. unfold upd at 2.
    destruct (ProjectTask.id t =? task_id) eqn:E; unfold upd; simpl; now rewrite E. }
  rewrite Hidem, Hrun. cbn [fst assignees]. reflexivity.
Qed.

End Edit.

Lemma board_titles t :
  In t (tasks board) ->
  ProjectTask.project_id t = ProjectTask.project_id draft ->
  ProjectTask.title t = "Draft v2" -> ProjectTask.id t = 7.
Proof. intros [<- | [<- | []]] _ H; [reflexivity | discriminate H]. Qed.

(** On the sample board, editing the draft with E4 and E5 submitted: E5 has
    a row afterwards and E2 has none. *)
Lemma edit_task_effect_witness :
  let after := fst (edit_task sample_hash sample_strptime board 7 "Draft v2" "more"
                              "2024-02-01" ["E4"; "E5"] Samples.ann) in
  (exists a, In a (assignees after) /\ ProjectTaskAssignee.task_id a = 7 /\
             ProjectTaskAssignee.employee_id a = "E5") /\
  ~ (exists a, In a (assignees after) /\ ProjectTaskAssignee.task_id a = 7 /\
               ProjectTaskAssignee.employee_id a = "E2").
Proof.
  cbv zeta.
  destruct (edit_task_effect sample_hash sample_strptime board 7 "Draft v2" "more"
                             "2024-02-01" ["E4"; "E5"] Samples.ann
                             (Team.mk 1 1 (Some 10) "Core") draft first_of_february
                             eq_refl eq_refl board_titles eq_refl)
    as (_ & Hmembers & _).
  split.
  - apply Hmembers. right. now left.
  - intro H. apply Hmembers in H. destruct H as [H | [H | []]]; discriminate H.
Defined.

Lemma edit_task_idempotent_witness :
  let run := edit_task sample_hash sample_strptime board 7 "Draft v2" "more"
                       "2024-02-01" ["E4"; "E5"] Samples.ann in
  edit_task sample_hash sample_strptime (fst run) 7 "Draft v2" "more"
            "2024-02-01" ["E4"; "E5"] Samples.ann
  = run.
Proof.
  exact (edit_task_idempotent sample_hash sample_strptime board 7 "Draft v2" "more"
                              "2024-02-01" ["E4"; "E5"] Samples.ann
                              (Team.mk 1 1 (Some 10) "Core") draft first_of_february
                              eq_refl eq_refl board_titles eq_refl).
Defined.

End LeaderTheorems.
